(** * InstanceSerializer: a shallow embedding of [src/index.ts]

    The program is a roblox-ts module: it is written in TypeScript and runs
    as Luau inside the Roblox engine.  The embedding follows the source
    function by function and keeps its names.

    - Values of type [unknown] are the inductive type [unknown]; a Luau
      table has a hash part and an array part, and storing [undefined]
      under a key removes the key.
    - [Properties] and the attribute bag of a live object are finite maps
      ([gmap string unknown]); the order in which [pairs] visits them is
      the order of [map_to_list], and no property below depends on it.
    - Everything the source obtains from the engine (class hierarchy, API
      dump, instance construction, property writes, datatype constructors,
      the [Enum] namespace, JSON) is a field of the record [Host]; the
      theorems hold for every host.
    - Effects are explicit: the monad [M] threads the cached catalog and
      the lines written by [warn], and carries thrown errors.

    The first part holds the definitions, the second the properties. *)

From Stdlib Require Import String List ZArith Bool.
From stdpp Require Import base option list strings gmap fin_maps.

Local Open Scope string_scope.
Set Warnings "-register-all".

(** ** Numbers

    A Luau number is an IEEE-754 double.  The serializer never computes
    with numbers, it only copies them, so a number is modelled by what it
    denotes; equality is identity of the component. *)
Variant number : Type :=
| NaN
| Infinity (negative : bool)
| Dyadic (m e : Z).  (* m * 2^e *)

Definition num (z : Z) : number := Dyadic z 0.

(** ** Results of fallible code

    A thrown Luau error (and a rejected promise) carries a message. *)
Inductive result (A : Type) : Type :=
| Ok (a : A)
| Err (msg : string).
Arguments Ok {A} a.
Arguments Err {A} msg.

#[global] Instance result_ret : MRet result := λ A a, Ok a.
#[global] Instance result_bind : MBind result := λ A B f m,
  match m with Ok a => f a | Err e => Err e end.

Definition is_Ok {A} (r : result A) : bool :=
  match r with Ok _ => true | Err _ => false end.

(** ** Runtime values ([unknown] in the source)

    Every value a property read can return and every value a wire tree can
    hold.  A Luau table has a hash part (string keys) and an array part;
    a roblox-ts object literal fills the first, an array the second. *)
Inductive unknown : Type :=
| VUndefined
| VBoolean (b : bool)
| VString (s : string)
| VNumber (n : number)
| VFunction (id : nat)
| VInstance (id : nat)
| VVector3 (X Y Z : number)
| VCFrame (x y z r00 r01 r02 r10 r11 r12 r20 r21 r22 : number)
| VColor3 (R G B : number)
| VVector2 (X Y : number)
| VUDim (Scale Offset : number)
| VUDim2 (XScale XOffset YScale YOffset : number)
| VNumberRange (Min Max : number)
| VRect (MinX MinY MaxX MaxY : number)
| VBrickColor (Number : number)
| VNumberSequenceKeypoint (Time Value Envelope : number)
| VColorSequenceKeypoint (Time : number) (R G B : number)
| VNumberSequence (Keypoints : list (number * number * number))
| VColorSequence (Keypoints : list (number * (number * number * number)))
| VEnumItem (EnumType Name : string)
| VOther (typeName : string)
| VTable (hash : list (string * unknown)) (arr : list unknown).

(** The names [typeOf] and [typeIs] can return or test. *)
Variant LuaType : Type :=
| Tnil | Tboolean | Tstring | Tnumber | Tfunction | TInstance
| TVector3 | TCFrame | TColor3 | TVector2 | TUDim | TUDim2
| TNumberRange | TRect | TBrickColor
| TNumberSequenceKeypoint | TColorSequenceKeypoint
| TNumberSequence | TColorSequence | TEnumItem | Tuserdata | Ttable.

#[global] Instance LuaType_eq_dec : EqDecision LuaType.
Proof. solve_decision. Defined.

Definition typeOf (value : unknown) : LuaType :=
  match value with
  | VUndefined => Tnil
  | VBoolean _ => Tboolean
  | VString _ => Tstring
  | VNumber _ => Tnumber
  | VFunction _ => Tfunction
  | VInstance _ => TInstance
  | VVector3 _ _ _ => TVector3
  | VCFrame _ _ _ _ _ _ _ _ _ _ _ _ => TCFrame
  | VColor3 _ _ _ => TColor3
  | VVector2 _ _ => TVector2
  | VUDim _ _ => TUDim
  | VUDim2 _ _ _ _ => TUDim2
  | VNumberRange _ _ => TNumberRange
  | VRect _ _ _ _ => TRect
  | VBrickColor _ => TBrickColor
  | VNumberSequenceKeypoint _ _ _ => TNumberSequenceKeypoint
  | VColorSequenceKeypoint _ _ _ _ => TColorSequenceKeypoint
  | VNumberSequence _ => TNumberSequence
  | VColorSequence _ => TColorSequence
  | VEnumItem _ _ => TEnumItem
  | VOther _ => Tuserdata
  | VTable _ _ => Ttable
  end.

Definition typeIs (value : unknown) (t : LuaType) : bool :=
  bool_decide (typeOf value = t).

(** [t[k]] on the hash part: a missing key reads as [undefined]. *)
Fixpoint rawget (k : string) (hash : list (string * unknown)) : unknown :=
  match hash with
  | [] => VUndefined
  | (k', v) :: rest => if String.eqb k k' then v else rawget k rest
  end.

(** An object literal and an array literal. *)
Definition object (fields : list (string * unknown)) : unknown := VTable fields [].
Definition array (items : list unknown) : unknown := VTable [] items.

(** [v == "literal"]: only a string can be equal to a string literal. *)
Definition equalsString (v : unknown) (s : string) : bool :=
  match v with
  | VString t => String.eqb t s
  | _ => false
  end.

(** [v.k]: field access on an arbitrary runtime value.  Tables read the
    hash part; strings index the string library, which has none of the
    keys used here; the engine datatypes expose their components; every
    other access throws. *)
Definition getField (v : unknown) (k : string) : result unknown :=
  match v with
  | VTable hash _ => Ok (rawget k hash)
  | VString _ => Ok VUndefined
  | VColor3 R G B =>
      if String.eqb k "R" then Ok (VNumber R)
      else if String.eqb k "G" then Ok (VNumber G)
      else if String.eqb k "B" then Ok (VNumber B)
      else Err (k ++ " is not a valid member of Color3")
  | VNumberSequenceKeypoint T V E =>
      if String.eqb k "Time" then Ok (VNumber T)
      else if String.eqb k "Value" then Ok (VNumber V)
      else if String.eqb k "Envelope" then Ok (VNumber E)
      else Err (k ++ " is not a valid member of NumberSequenceKeypoint")
  | VColorSequenceKeypoint T R G B =>
      if String.eqb k "Time" then Ok (VNumber T)
      else if String.eqb k "Value" then Ok (VColor3 R G B)
      else Err (k ++ " is not a valid member of ColorSequenceKeypoint")
  | _ => Err ("attempt to index a value with '" ++ k ++ "'")
  end.

(** [v[i]] with the zero-based index of the source. *)
Definition getIndex (v : unknown) (i : nat) : result unknown :=
  match v with
  | VTable _ arr => Ok (nth i arr VUndefined)
  | VString _ => Ok VUndefined
  | _ => Err "attempt to index a value with a number"
  end.

(** [v.map(f)]: the array part is traversed in order; the first error
    thrown by the callback aborts the loop. *)
Definition arrayMap (f : unknown → result unknown) (v : unknown) : result unknown :=
  match v with
  | VTable _ arr => items ← mapM f arr; Ok (array items)
  | _ => Err "attempt to iterate over a non-table value"
  end.

(** ** The reflection catalog *)
Module APIMember.
Record t : Type := mk {
  Name : string;
  MemberType : string;
  Tags : option (list string);
}.
End APIMember.

Module APIClass.
Record t : Type := mk {
  Name : string;
  Members : list APIMember.t;
}.
End APIClass.

(** ** Live objects and wire nodes

    A live object has its class, its name, its archivable flag, an
    attribute bag and its children in the host's order.  A name that is
    absent from the bag cannot be read: the read throws. *)
Module Instance.
Inductive t : Type := mk {
  ClassName : string;
  Name : string;
  Archivable : bool;
  attrs : gmap string unknown;
  GetChildren : list t;
}.
End Instance.

Module SerializedInstance.
Inductive t : Type := mk {
  ClassName : string;
  Name : string;
  Properties : gmap string unknown;
  Children : list t;
  MeshId : option string;
}.
End SerializedInstance.

(** ** The host

    What the engine contributes.  Nothing is assumed about these fields
    beyond what the definitions below build in. *)
Record Host : Type := mkHost {
  (** proper ancestors of a class, for [IsA] *)
  ancestors : string → list string;
  (** outcome of the two [GetAsync] calls and of [JSONDecode], for a dump
      whose [Classes] have the declared shape (the cast of line 76 is
      unchecked; another dump is not modelled) *)
  apiDump : result (list APIClass.t);
  (** [Enum[enumType][enumName]]: the enum item, or the lookup error *)
  Enum : string → string → result unknown;
  (** what a datatype constructor makes of an argument that is not a number *)
  argNumber : unknown → result number;
  (** the constructor's own check of a candidate built from numbers: it
      may reject it or store it in another precision *)
  intern : unknown → result unknown;
  (** [new Instance(className)]: the default attribute bag, or the error *)
  defaults : string → result (gmap string unknown);
  (** [InsertService.CreateMeshPartAsync(meshId, ...)] *)
  CreateMeshPartAsync : string → result (gmap string unknown);
  (** the error, if any, with which an instance of the given class refuses
      [instance[k] = v] *)
  refuses : string → string → unknown → option string;
  (** [HttpService.JSONEncode] and [HttpService.JSONDecode] on wire trees:
      [JSONDecode] is the decoder's error, or the tree for a text that
      decodes to one of the declared shape (the cast of line 440 is
      unchecked; a text that decodes to anything else is not modelled) *)
  JSONEncode : SerializedInstance.t → string;
  JSONDecode : string → result SerializedInstance.t;
}.

(** ** Datatype constructors of the engine

    Each constructor takes its arguments as they come, turns them into
    numbers and hands the candidate to the host. *)
Definition toNumber (h : Host) (v : unknown) : result number :=
  match v with
  | VNumber n => Ok n
  | _ => argNumber h v
  end.

Definition Vector3_new (h : Host) (X Y Z : unknown) : result unknown :=
  x ← toNumber h X; y ← toNumber h Y; z ← toNumber h Z;
  intern h (VVector3 x y z).

Definition Vector2_new (h : Host) (X Y : unknown) : result unknown :=
  x ← toNumber h X; y ← toNumber h Y;
  intern h (VVector2 x y).

Definition Color3_new (h : Host) (R G B : unknown) : result unknown :=
  r ← toNumber h R; g ← toNumber h G; b ← toNumber h B;
  intern h (VColor3 r g b).

Definition NumberRange_new (h : Host) (Min Max : unknown) : result unknown :=
  lo ← toNumber h Min; hi ← toNumber h Max;
  intern h (VNumberRange lo hi).

Definition CFrame_new (h : Host)
    (x y z r00 r01 r02 r10 r11 r12 r20 r21 r22 : unknown) : result unknown :=
  x ← toNumber h x; y ← toNumber h y; z ← toNumber h z;
  r00 ← toNumber h r00; r01 ← toNumber h r01; r02 ← toNumber h r02;
  r10 ← toNumber h r10; r11 ← toNumber h r11; r12 ← toNumber h r12;
  r20 ← toNumber h r20; r21 ← toNumber h r21; r22 ← toNumber h r22;
  intern h (VCFrame x y z r00 r01 r02 r10 r11 r12 r20 r21 r22).

Definition NumberSequenceKeypoint_new (h : Host) (T V E : unknown) : result unknown :=
  t ← toNumber h T; v ← toNumber h V; e ← toNumber h E;
  intern h (VNumberSequenceKeypoint t v e).

Definition ColorSequenceKeypoint_new (h : Host) (T C : unknown) : result unknown :=
  t ← toNumber h T;
  match C with
  | VColor3 r g b => intern h (VColorSequenceKeypoint t r g b)
  | _ => Err "invalid argument #2 to 'new' (Color3 expected)"
  end.

Definition asNumberSequenceKeypoint (v : unknown) : result (number * number * number) :=
  match v with
  | VNumberSequenceKeypoint t x e => Ok (t, x, e)
  | _ => Err "NumberSequenceKeypoint expected"
  end.

Definition asColorSequenceKeypoint (v : unknown)
    : result (number * (number * number * number)) :=
  match v with
  | VColorSequenceKeypoint t r g b => Ok (t, (r, g, b))
  | _ => Err "ColorSequenceKeypoint expected"
  end.

Definition NumberSequence_new (h : Host) (keypoints : unknown) : result unknown :=
  match keypoints with
  | VTable _ arr =>
      kps ← mapM asNumberSequenceKeypoint arr; intern h (VNumberSequence kps)
  | _ => Err "invalid argument #1 to 'new' (table expected)"
  end.

Definition ColorSequence_new (h : Host) (keypoints : unknown) : result unknown :=
  match keypoints with
  | VTable _ arr =>
      kps ← mapM asColorSequenceKeypoint arr; intern h (VColorSequence kps)
  | _ => Err "invalid argument #1 to 'new' (table expected)"
  end.

(** [Enum[enumType][enumName]]; a key that is not a string is never valid. *)
Definition EnumIndex (h : Host) (enumType enumName : unknown) : result unknown :=
  match enumType, enumName with
  | VString ty, VString n => Enum h ty n
  | _, _ => Err "invalid key to 'Enum'"
  end.

(** ** The value codec *)

(** [serializeProperty], lines 300-364. *)
Definition serializeProperty (value : unknown) : unknown :=
  match value with
  | VVector3 X Y Z =>
      object [("_type", VString "Vector3");
              ("X", VNumber X); ("Y", VNumber Y); ("Z", VNumber Z)]
  | VCFrame x y z r00 r01 r02 r10 r11 r12 r20 r21 r22 =>
      object [("_type", VString "CFrame");
              ("Position", array [VNumber x; VNumber y; VNumber z]);
              ("Rotation", array [VNumber r00; VNumber r01; VNumber r02;
                                  VNumber r10; VNumber r11; VNumber r12;
                                  VNumber r20; VNumber r21; VNumber r22])]
  | VColor3 R G B =>
      object [("_type", VString "Color3");
              ("R", VNumber R); ("G", VNumber G); ("B", VNumber B)]
  | VNumberSequence Keypoints =>
      object [("_type", VString "NumberSequence");
              ("Keypoints", array (map (λ k : number * number * number,
                 let '(T, V, E) := k in
                 object [("Time", VNumber T); ("Value", VNumber V);
                         ("Envelope", VNumber E)]) Keypoints))]
  | VColorSequence Keypoints =>
      object [("_type", VString "ColorSequence");
              ("Keypoints", array (map (λ k : number * (number * number * number),
                 let '(T, (R, G, B)) := k in
                 object [("Time", VNumber T);
                         ("Value", object [("R", VNumber R); ("G", VNumber G);
                                           ("B", VNumber B)])]) Keypoints))]
  | VEnumItem EnumType Name =>
      object [("_type", VString "EnumItem");
              ("EnumType", VString EnumType); ("Name", VString Name)]
  | VVector2 X Y =>
      object [("_type", VString "Vector2"); ("X", VNumber X); ("Y", VNumber Y)]
  | VNumberRange Min Max =>
      object [("_type", VString "NumberRange");
              ("Min", VNumber Min); ("Max", VNumber Max)]
  | _ => value
  end.

(** [deserializeProperty], lines 372-422.  The [switch] compares the tag
    with each literal in turn and falls out when none matches. *)
Definition deserializeProperty (h : Host) (value : unknown) : result unknown :=
  match value with
  | VTable typedValue _ =>
      let _type := rawget "_type" typedValue in
      if typeIs _type Tnil then Ok value
      else if equalsString _type "Vector3" then
        Vector3_new h (rawget "X" typedValue) (rawget "Y" typedValue)
                      (rawget "Z" typedValue)
      else if equalsString _type "CFrame" then
        let position := rawget "Position" typedValue in
        let rotation := rawget "Rotation" typedValue in
        p0 ← getIndex position 0; p1 ← getIndex position 1;
        p2 ← getIndex position 2;
        r0 ← getIndex rotation 0; r1 ← getIndex rotation 1;
        r2 ← getIndex rotation 2; r3 ← getIndex rotation 3;
        r4 ← getIndex rotation 4; r5 ← getIndex rotation 5;
        r6 ← getIndex rotation 6; r7 ← getIndex rotation 7;
        r8 ← getIndex rotation 8;
        CFrame_new h p0 p1 p2 r0 r1 r2 r3 r4 r5 r6 r7 r8
      else if equalsString _type "Color3" then
        Color3_new h (rawget "R" typedValue) (rawget "G" typedValue)
                     (rawget "B" typedValue)
      else if equalsString _type "NumberSequence" then
        keypoints ← arrayMap (λ k,
            T ← getField k "Time"; V ← getField k "Value";
            E ← getField k "Envelope";
            NumberSequenceKeypoint_new h T V E)
          (rawget "Keypoints" typedValue);
        NumberSequence_new h keypoints
      else if equalsString _type "ColorSequence" then
        keypoints ← arrayMap (λ k,
            T ← getField k "Time"; V ← getField k "Value";
            R ← getField V "R"; G ← getField V "G"; B ← getField V "B";
            C ← Color3_new h R G B;
            ColorSequenceKeypoint_new h T C)
          (rawget "Keypoints" typedValue);
        ColorSequence_new h keypoints
      else if equalsString _type "EnumItem" then
        EnumIndex h (rawget "EnumType" typedValue) (rawget "Name" typedValue)
      else if equalsString _type "Vector2" then
        Vector2_new h (rawget "X" typedValue) (rawget "Y" typedValue)
      else if equalsString _type "NumberRange" then
        NumberRange_new h (rawget "Min" typedValue) (rawget "Max" typedValue)
      else Ok value
  | _ => Ok value
  end.

(** ** Effects

    The class keeps one static field, the cached catalog; [warn] appends a
    line to the output.  An [async] method that throws rejects its promise,
    and [await] rethrows: both are the error case of [M]. *)
Record World : Type := mkWorld {
  properties : option (list APIClass.t);
  warnings : list string;
}.

Definition M (A : Type) : Type := World → result A * World.

#[global] Instance M_ret : MRet M := λ A a w, (Ok a, w).
#[global] Instance M_bind : MBind M := λ A B f m w,
  match m w with
  | (Ok a, w') => f a w'
  | (Err e, w') => (Err e, w')
  end.

Definition lift {A} (r : result A) : M A := λ w, (r, w).

Definition warn (msg : string) : M unit :=
  λ w, (Ok tt, mkWorld (properties w) (warnings w ++ [msg])).

(** [try { body } catch (err) { handler }] *)
Definition try {A} (body : M A) (handler : string → M A) : M A :=
  λ w, match body w with
       | (Ok a, w') => (Ok a, w')
       | (Err e, w') => handler e w'
       end.

(** A [for ... of] loop that threads the value the body updates. *)
Fixpoint forEach {A B} (body : B → A → M B) (acc : B) (l : list A) : M B :=
  match l with
  | [] => mret acc
  | x :: rest => acc' ← body acc x; forEach body acc' rest
  end.

(** ** Host operations on live objects

    [ClassName], [Name] and [Archivable] are fields of the object; every
    other attribute lives in the bag, and reading a name the bag does not
    have throws.  The host decides which writes it accepts ([refuses]);
    beyond that [ClassName] is read-only, [Name] takes a string and
    [Archivable] a boolean, and an accepted write stores its value, so that
    the attribute then reads as that value and no other attribute
    changes. *)
Definition IsA (h : Host) (instance : Instance.t) (className : string) : bool :=
  String.eqb (Instance.ClassName instance) className
  || bool_decide (className ∈ ancestors h (Instance.ClassName instance)).

Definition setName (instance : Instance.t) (name : string) : Instance.t :=
  Instance.mk (Instance.ClassName instance) name (Instance.Archivable instance)
    (Instance.attrs instance) (Instance.GetChildren instance).

Definition setArchivable (instance : Instance.t) (b : bool) : Instance.t :=
  Instance.mk (Instance.ClassName instance) (Instance.Name instance) b
    (Instance.attrs instance) (Instance.GetChildren instance).

Definition setAttr (instance : Instance.t) (k : string) (v : unknown) : Instance.t :=
  Instance.mk (Instance.ClassName instance) (Instance.Name instance)
    (Instance.Archivable instance) (<[k := v]> (Instance.attrs instance))
    (Instance.GetChildren instance).

(** [child.Parent = instance] *)
Definition addChild (instance child : Instance.t) : Instance.t :=
  Instance.mk (Instance.ClassName instance) (Instance.Name instance)
    (Instance.Archivable instance) (Instance.attrs instance)
    (Instance.GetChildren instance ++ [child])%list.

(** [instance[k]] *)
Definition getProperty (instance : Instance.t) (k : string) : result unknown :=
  if String.eqb k "ClassName" then Ok (VString (Instance.ClassName instance))
  else if String.eqb k "Name" then Ok (VString (Instance.Name instance))
  else if String.eqb k "Archivable" then Ok (VBoolean (Instance.Archivable instance))
  else match Instance.attrs instance !! k with
       | Some v => Ok v
       | None => Err ("cannot read " ++ k)
       end.

(** [instance[k] = v] *)
Definition setProperty (h : Host) (instance : Instance.t) (k : string) (v : unknown)
    : result Instance.t :=
  match refuses h (Instance.ClassName instance) k v with
  | Some err => Err err
  | None =>
      if String.eqb k "ClassName" then Err "ClassName is read only"
      else if String.eqb k "Name" then
        match v with
        | VString s => Ok (setName instance s)
        | _ => Err "string expected"
        end
      else if String.eqb k "Archivable" then
        match v with
        | VBoolean b => Ok (setArchivable instance b)
        | _ => Err "boolean expected"
        end
      else Ok (setAttr instance k v)
  end.

(** [new Instance(className)]: named after its class, archivable, no
    children. *)
Definition newInstance (h : Host) (className : string) : result Instance.t :=
  bag ← defaults h className;
  Ok (Instance.mk className className true bag []).

(** [InsertService.CreateMeshPartAsync(meshId, Default, Automatic)]: a
    MeshPart that carries the mesh identity it was made from. *)
Definition CreateMeshPart (h : Host) (meshId : string) : result Instance.t :=
  bag ← CreateMeshPartAsync h meshId;
  Ok (Instance.mk "MeshPart" "MeshPart" true (<["MeshId" := VString meshId]> bag) []).

(** [instance.MeshId] on an instance the host types as a MeshPart.  Line
    150 copies what it reads unchecked; the engine types the attribute as
    a string, and a read that yields anything else is an error here. *)
Definition readMeshId (instance : Instance.t) : result string :=
  match getProperty instance "MeshId" with
  | Ok (VString s) => Ok s
  | Ok _ => Err "MeshId is not a string"
  | Err e => Err e
  end.

(** [t[k] = v] on a Luau table: storing [undefined] removes the key. *)
Definition tableSet (k : string) (v : unknown) (t : gmap string unknown)
    : gmap string unknown :=
  match v with
  | VUndefined => delete k t
  | _ => <[k := v]> t
  end.

(** ** Attribute discovery *)

Definition IGNORED_PROPERTIES : gset string :=
  list_to_set
    ["ClassName"; "Name"; "Parent"; "RobloxLocked"; "Archivable";
     "Mass"; "CenterOfMass"; "AssemblyCenterOfMass"; "ExtentsCFrame";
     "ExtentsSize"; "MeshSize"; "ResizeIncrement";
     "IsLoaded"; "TimeLength"; "PlaybackLoudness"; "CollisionFidelity";
     "RenderFidelity"; "DoubleSided"; "WorldPosition"; "WorldOrientation";
     "WorldCFrame"; "Active"].

Definition READ_ONLY_PROPERTIES : gset string :=
  list_to_set
    ["Mass"; "CenterOfMass"; "AssemblyCenterOfMass"; "ExtentsCFrame";
     "ExtentsSize"; "MeshSize"; "ResizeIncrement"; "IsLoaded"; "TimeLength";
     "PlaybackLoudness"; "Active"].

Definition has (s : gset string) (x : string) : bool := bool_decide (x ∈ s).

(** [fetchProperties], lines 71-79. *)
Definition fetchProperties (h : Host) : M (list APIClass.t) :=
  λ w, match properties w with
       | Some cached => (Ok cached, w)
       | None =>
           match apiDump h with
           | Ok classes => (Ok classes, mkWorld (Some classes) (warnings w))
           | Err e => (Err e, w)
           end
       end.

(** [hasTag], lines 88-91. *)
Definition hasTag (tags : option (list string)) (tag : string) : bool :=
  match tags with
  | None => false
  | Some tags => bool_decide (tag ∈ tags)
  end.

(** The names tested first by [shouldSerializeProperty], lines 246-264. *)
Definition forceInclude (propertyName : string) : bool :=
  String.eqb propertyName "CFrame" ||
  String.eqb propertyName "Position" ||
  String.eqb propertyName "Orientation" ||
  String.eqb propertyName "Rotation" ||
  String.eqb propertyName "Speed" ||
  String.eqb propertyName "SpreadAngle" ||
  String.eqb propertyName "Rate" ||
  String.eqb propertyName "RotSpeed" ||
  String.eqb propertyName "Acceleration" ||
  String.eqb propertyName "Drag" ||
  String.eqb propertyName "VelocityInheritance" ||
  String.eqb propertyName "Lifetime" ||
  String.eqb propertyName "Size" ||
  String.eqb propertyName "Transparency" ||
  String.eqb propertyName "LightEmission" ||
  String.eqb propertyName "LightInfluence" ||
  String.eqb propertyName "RotSpeed".

(** [shouldSerializeProperty], lines 244-292. *)
Definition shouldSerializeProperty (propertyName : string) (propertyValue : unknown)
    : bool :=
  if forceInclude propertyName then true
  else if typeIs propertyValue Tnil then false
  else if typeIs propertyValue Tfunction then false
  else if typeIs propertyValue TInstance then false
  else if has IGNORED_PROPERTIES propertyName then false
  else
    let propertyType := typeOf propertyValue in
    bool_decide (propertyType = Tboolean) ||
    bool_decide (propertyType = Tstring) ||
    bool_decide (propertyType = Tnumber) ||
    typeIs propertyValue TVector3 ||
    typeIs propertyValue TCFrame ||
    typeIs propertyValue TColor3 ||
    typeIs propertyValue TVector2 ||
    typeIs propertyValue TUDim ||
    typeIs propertyValue TUDim2 ||
    typeIs propertyValue TNumberRange ||
    typeIs propertyValue TRect ||
    typeIs propertyValue TBrickColor ||
    typeIs propertyValue TNumberSequence ||
    typeIs propertyValue TColorSequence ||
    typeIs propertyValue TEnumItem.

(** The body of the inner loop of [getInstanceProperties], lines 107-128:
    one member of one class descriptor. *)
Definition visitMember (instance : Instance.t) (properties : gmap string unknown)
    (member : APIMember.t) : gmap string unknown :=
  if negb (String.eqb (APIMember.MemberType member) "Property") then properties
  else if has IGNORED_PROPERTIES (APIMember.Name member) then properties
  else if hasTag (APIMember.Tags member) "Deprecated" ||
          hasTag (APIMember.Tags member) "Hidden" ||
          hasTag (APIMember.Tags member) "NotScriptable" ||
          hasTag (APIMember.Tags member) "ReadOnly" then properties
  else
    match getProperty instance (APIMember.Name member) with
    | Ok value =>
        if shouldSerializeProperty (APIMember.Name member) value
        then tableSet (APIMember.Name member) (serializeProperty value) properties
        else properties
    | Err _ => properties
    end.

(** The body of the outer loop, lines 103-130: one class descriptor. *)
Definition visitClass (h : Host) (instance : Instance.t)
    (properties : gmap string unknown) (classData : APIClass.t)
    : gmap string unknown :=
  if negb (IsA h instance (APIClass.Name classData)) then properties
  else foldl (visitMember instance) properties (APIClass.Members classData).

(** [getInstanceProperties], lines 99-133. *)
Definition getInstanceProperties (h : Host) (instance : Instance.t)
    : M (gmap string unknown) :=
  apiClasses ← fetchProperties h;
  mret (foldl (visitClass h instance) ∅ apiClasses).

(** ** Tree serializer *)

(** [for (const [key, value] of properties) target[key] = value] *)
Definition assignAll (properties target : gmap string unknown) : gmap string unknown :=
  foldl (λ acc kv, tableSet kv.1 kv.2 acc) target (map_to_list properties).

(** The body of the loop of lines 169-173; [serialize] is the recursive
    call. *)
Definition serializeChild (serialize : Instance.t → M SerializedInstance.t)
    (Children : list SerializedInstance.t) (child : Instance.t)
    : M (list SerializedInstance.t) :=
  if Instance.Archivable child
  then c ← serialize child; mret (Children ++ [c])%list
  else mret Children.

(** [serializeInstance], lines 140-176. *)
Fixpoint serializeInstance (h : Host) (instance : Instance.t) {struct instance}
    : M SerializedInstance.t :=
  (* Special handling for MeshPart *)
  MeshId ← (if IsA h instance "MeshPart"
            then id ← lift (readMeshId instance); mret (Some id)
            else mret None);
  (* Special handling for Attachments *)
  Properties ← (if IsA h instance "Attachment"
                then properties ← getInstanceProperties h instance;
                     mret (assignAll properties ∅)
                else mret ∅);
  (* Serialize properties *)
  properties ← getInstanceProperties h instance;
  let Properties := assignAll properties Properties in
  (* Serialize children *)
  Children ← forEach (serializeChild (serializeInstance h)) []
               (Instance.GetChildren instance);
  mret (SerializedInstance.mk (Instance.ClassName instance) (Instance.Name instance)
          Properties Children MeshId).

(** ** Tree deserializer *)

(** JavaScript truthiness of [data.MeshId]: present and not empty. *)
Definition truthy (s : option string) : bool :=
  match s with
  | Some id => negb (String.eqb id "")
  | None => false
  end.

(** The body of the loop of lines 191-197. *)
Definition setAttachmentProperty (h : Host) (instance : Instance.t)
    (kv : string * unknown) : M Instance.t :=
  let '(propertyName, propertyValue) := kv in
  try (v ← lift (deserializeProperty h propertyValue);
       lift (setProperty h instance propertyName v))
      (λ err, _ ← warn ("Failed to set Attachment property " ++ propertyName ++
                         " on " ++ Instance.Name instance ++ ": " ++ err);
              mret instance).

(** The body of the loop of lines 219-226. *)
Definition setOneProperty (h : Host) (instance : Instance.t)
    (kv : string * unknown) : M Instance.t :=
  let '(propertyName, propertyValue) := kv in
  if IsA h instance "MeshPart" && String.eqb propertyName "MeshId" then mret instance
  else
    try (v ← lift (deserializeProperty h propertyValue);
         lift (setProperty h instance propertyName v))
        (λ err, _ ← warn ("Failed to set property " ++ propertyName ++
                           " on " ++ Instance.Name instance ++ ": " ++ err);
                mret instance).

(** The construction rule, lines 186-216. *)
Definition construct (h : Host) (data : SerializedInstance.t) : M Instance.t :=
  if String.eqb (SerializedInstance.ClassName data) "Attachment" then
    instance ← lift (newInstance h "Attachment");
    let instance := setName instance (SerializedInstance.Name data) in
    forEach (setAttachmentProperty h) instance
      (map_to_list (SerializedInstance.Properties data))
  else if String.eqb (SerializedInstance.ClassName data) "MeshPart"
          && truthy (SerializedInstance.MeshId data) then
    try (instance ← lift (CreateMeshPart h (default "" (SerializedInstance.MeshId data)));
         mret (setName instance (SerializedInstance.Name data)))
        (λ err, _ ← warn ("Failed to create MeshPart: " ++ err);
                instance ← lift (newInstance h (SerializedInstance.ClassName data));
                mret (setName instance (SerializedInstance.Name data)))
  else
    instance ← lift (newInstance h (SerializedInstance.ClassName data));
    mret (setName instance (SerializedInstance.Name data)).

(** [deserializeInstance], lines 183-235. *)
Fixpoint deserializeInstance (h : Host) (data : SerializedInstance.t) {struct data}
    : M Instance.t :=
  instance ← construct h data;
  (* Set properties *)
  instance ← forEach (setOneProperty h) instance
    (map_to_list (SerializedInstance.Properties data));
  (* Create children *)
  forEach (λ instance childData,
      child ← deserializeInstance h childData;
      mret (addChild instance child)) instance (SerializedInstance.Children data).

(** ** Text framing, lines 429-442 *)
Definition toJSON (h : Host) (instance : Instance.t) : M string :=
  serialized ← serializeInstance h instance;
  mret (JSONEncode h serialized).

Definition fromJSON (h : Host) (json : string) : M Instance.t :=
  data ← lift (JSONDecode h json);
  deserializeInstance h data.

(** ** Vocabulary of the properties *)

(** The eight structured kinds of the wire grammar. *)
Definition structured (v : unknown) : bool :=
  match typeOf v with
  | TVector3 | TVector2 | TCFrame | TColor3 | TNumberRange
  | TNumberSequence | TColorSequence | TEnumItem => true
  | _ => false
  end.

(** The tags [deserializeProperty] dispatches on. *)
Definition knownTags : list string :=
  ["Vector3"; "CFrame"; "Color3"; "NumberSequence"; "ColorSequence";
   "EnumItem"; "Vector2"; "NumberRange"].

(** A value with nothing to decode: not a table, a table without [_type],
    or a table whose [_type] is none of the known tags. *)
Definition untagged (v : unknown) : bool :=
  match v with
  | VTable hash _ =>
      forallb (λ t, negb (equalsString (rawget "_type" hash) t)) knownTags
  | _ => true
  end.

(** A value as the host holds it: the host's constructor maps it to
    itself, and so for the keypoints and colours of a curve; an enum item
    is the one its names resolve to. *)
Definition hostValue (h : Host) (v : unknown) : Prop :=
  match v with
  | VEnumItem ty n => Enum h ty n = Ok v
  | VNumberSequence kps =>
      intern h v = Ok v ∧
      Forall (λ k : number * number * number,
        intern h (VNumberSequenceKeypoint k.1.1 k.1.2 k.2)
        = Ok (VNumberSequenceKeypoint k.1.1 k.1.2 k.2)) kps
  | VColorSequence kps =>
      intern h v = Ok v ∧
      Forall (λ k : number * (number * number * number),
        intern h (VColor3 k.2.1.1 k.2.1.2 k.2.2)
        = Ok (VColor3 k.2.1.1 k.2.1.2 k.2.2) ∧
        intern h (VColorSequenceKeypoint k.1 k.2.1.1 k.2.1.2 k.2.2)
        = Ok (VColorSequenceKeypoint k.1 k.2.1.1 k.2.1.2 k.2.2)) kps
  | _ => intern h v = Ok v
  end.

(** ** A concrete host and concrete trees, for the examples *)
Module Demo.

Definition catalog : list APIClass.t :=
  [APIClass.mk "Instance"
     [APIMember.mk "Name" "Property" None;
      APIMember.mk "Archivable" "Property" None;
      APIMember.mk "Destroy" "Function" None];
   APIClass.mk "BasePart"
     [APIMember.mk "Color" "Property" None;
      APIMember.mk "Size" "Property" None;
      APIMember.mk "Material" "Property" None;
      APIMember.mk "Rotation" "Property" (Some ["Deprecated"]);
      APIMember.mk "Mass" "Property" (Some ["ReadOnly"])];
   APIClass.mk "MeshPart"
     [APIMember.mk "MeshId" "Property" None];
   APIClass.mk "Attachment"
     [APIMember.mk "CFrame" "Property" None];
   APIClass.mk "GuiObject"
     [APIMember.mk "Size" "Property" None;
      APIMember.mk "Visible" "Property" None];
   APIClass.mk "UICorner"
     [APIMember.mk "CornerRadius" "Property" None]].

Definition classes : list (string * list string) :=
  [("Part", ["BasePart"; "Instance"]);
   ("MeshPart", ["BasePart"; "Instance"]);
   ("Attachment", ["Instance"]);
   ("Frame", ["GuiObject"; "Instance"]);
   ("UICorner", ["Instance"]);
   ("Folder", ["Instance"])].

Fixpoint assoc {A} (k : string) (l : list (string * A)) : option A :=
  match l with
  | [] => None
  | (k', a) :: rest => if String.eqb k k' then Some a else assoc k rest
  end.

Definition host : Host := {|
  ancestors := λ c, default [] (assoc c classes);
  apiDump := Ok catalog;
  Enum := λ ty n,
    if String.eqb ty "Material" && (String.eqb n "Plastic" || String.eqb n "Wood")
    then Ok (VEnumItem ty n)
    else Err (n ++ " is not a valid member of Enum." ++ ty);
  argNumber := λ _, Err "number expected";
  intern := Ok;
  defaults := λ c,
    match assoc c classes with
    | Some _ =>
        Ok (if String.eqb c "MeshPart" then {[ "MeshId" := VString "" ]} else ∅)
    | None => Err ("Unable to create an Instance of type " ++ c)
    end;
  CreateMeshPartAsync := λ id,
    if String.eqb id "rbxassetid://123" then Ok ∅
    else Err "failed to load the mesh";
  refuses := λ _ k _,
    if String.eqb k "Locked" then Some "write access is restricted" else None;
  JSONEncode := λ _, "";
  JSONDecode := λ _, Err "cannot parse JSON";
|}.

Definition world : World := mkWorld None [].

Definition identity : unknown :=
  VCFrame (num 0) (num 0) (num 0)
          (num 1) (num 0) (num 0) (num 0) (num 1) (num 0) (num 0) (num 0) (num 1).

Definition red : unknown := VColor3 (num 1) (num 0) (num 0).

Definition fade : unknown :=
  VNumberSequence [(num 0, num 0, num 0); (num 1, num 1, num 0)].

Definition gradient : unknown :=
  VColorSequence [(num 0, (num 1, num 0, num 0)); (num 1, (num 0, num 0, num 1))].

End Demo.

(** ** The deserializer without its log

    What the loops of [deserializeInstance] compute, as pure functions: the
    lemmas of the next part show that the monadic code returns exactly
    these results and only ever adds lines to [warnings]. *)

(** Decode, then write: the body of both [try] blocks. *)
Definition decodeAndSet (h : Host) (instance : Instance.t) (k : string) (pv : unknown)
    : result Instance.t :=
  v ← deserializeProperty h pv; setProperty h instance k v.

(** The guard of line 220. *)
Definition skipsMeshId (h : Host) (instance : Instance.t) (k : string) : bool :=
  IsA h instance "MeshPart" && String.eqb k "MeshId".

Definition stepAttachment (h : Host) (instance : Instance.t) (kv : string * unknown)
    : Instance.t :=
  match decodeAndSet h instance kv.1 kv.2 with
  | Ok instance' => instance'
  | Err _ => instance
  end.

Definition stepOne (h : Host) (instance : Instance.t) (kv : string * unknown)
    : Instance.t :=
  if skipsMeshId h instance kv.1 then instance else stepAttachment h instance kv.

(** The object as constructed and named, before any attribute is written. *)
Definition bare (h : Host) (data : SerializedInstance.t) : result Instance.t :=
  if String.eqb (SerializedInstance.ClassName data) "Attachment" then
    instance ← newInstance h "Attachment";
    Ok (setName instance (SerializedInstance.Name data))
  else if String.eqb (SerializedInstance.ClassName data) "MeshPart"
          && truthy (SerializedInstance.MeshId data) then
    match CreateMeshPart h (default "" (SerializedInstance.MeshId data)) with
    | Ok instance => Ok (setName instance (SerializedInstance.Name data))
    | Err _ =>
        instance ← newInstance h (SerializedInstance.ClassName data);
        Ok (setName instance (SerializedInstance.Name data))
    end
  else
    instance ← newInstance h (SerializedInstance.ClassName data);
    Ok (setName instance (SerializedInstance.Name data)).

(** The object after [construct]: an Attachment has had its first pass. *)
Definition constructed (h : Host) (data : SerializedInstance.t) : result Instance.t :=
  instance ← bare h data;
  Ok (if String.eqb (SerializedInstance.ClassName data) "Attachment"
      then foldl (stepAttachment h) instance
             (map_to_list (SerializedInstance.Properties data))
      else instance).

Fixpoint rebuilt (h : Host) (data : SerializedInstance.t) {struct data}
    : result Instance.t :=
  instance ← constructed h data;
  let instance := foldl (stepOne h) instance
                    (map_to_list (SerializedInstance.Properties data)) in
  children ← mapM (rebuilt h) (SerializedInstance.Children data);
  Ok (foldl addChild instance children).

(** Every node of the tree can be constructed by the host. *)
Fixpoint constructible (h : Host) (data : SerializedInstance.t) {struct data} : bool :=
  is_Ok (bare h data) && forallb (constructible h) (SerializedInstance.Children data).

(** What attribute [k] reads as once the write of [pv] has been tried on
    [instance]: the decoded value when decode and write succeed, what it
    read before otherwise. *)
Definition settled (h : Host) (instance : Instance.t) (k : string) (pv : unknown)
    : result unknown :=
  match deserializeProperty h pv with
  | Ok v => if is_Ok (setProperty h instance k v) then Ok v
            else getProperty instance k
  | Err _ => getProperty instance k
  end.

(** [w'] is [w] with more warnings. *)
Definition logged (w w' : World) : Prop :=
  properties w' = properties w ∧ ∃ lines, warnings w' = (warnings w ++ lines)%list.

(** ** The serializer without its cache

    What [serializeInstance] computes once the catalog is known. *)

(** The catalog a call sees: the cached one, else the fetched one. *)
Definition catalogOf (h : Host) (w : World) : result (list APIClass.t) :=
  match properties w with
  | Some cached => Ok cached
  | None => apiDump h
  end.

Definition discover (h : Host) (classes : list APIClass.t) (instance : Instance.t)
    : gmap string unknown :=
  foldl (visitClass h instance) ∅ classes.

(** What [t[k] = pv] leaves under [k]. *)
Definition stored (pv : unknown) : option unknown :=
  match pv with
  | VUndefined => None
  | _ => Some pv
  end.

(** The tags tested by lines 111-118. *)
Definition taggedOut (member : APIMember.t) : bool :=
  hasTag (APIMember.Tags member) "Deprecated" ||
  hasTag (APIMember.Tags member) "Hidden" ||
  hasTag (APIMember.Tags member) "NotScriptable" ||
  hasTag (APIMember.Tags member) "ReadOnly".

(** A member that passes the tests of lines 107-118. *)
Definition eligible (member : APIMember.t) : bool :=
  String.eqb (APIMember.MemberType member) "Property" &&
  negb (has IGNORED_PROPERTIES (APIMember.Name member)) &&
  negb (taggedOut member).

(** Some descriptor of a class of [instance] has an eligible member [k]. *)
Definition listed (h : Host) (classes : list APIClass.t) (instance : Instance.t)
    (k : string) : bool :=
  existsb (λ classData,
      IsA h instance (APIClass.Name classData) &&
      existsb (λ member, String.eqb (APIMember.Name member) k && eligible member)
        (APIClass.Members classData))
    classes.

(** The value read for [k], when the read succeeds and passes the
    inclusion test. *)
Definition retainedValue (instance : Instance.t) (k : string) : option unknown :=
  match getProperty instance k with
  | Ok v => if shouldSerializeProperty k v then Some v else None
  | Err _ => None
  end.

(** The archivable children, each one mapped by [f], in order. *)
Fixpoint keepArchivable {B} (f : Instance.t → result B) (children : list Instance.t)
    : result (list B) :=
  match children with
  | [] => Ok []
  | child :: rest =>
      if Instance.Archivable child
      then c ← f child; cs ← keepArchivable f rest; Ok (c :: cs)
      else keepArchivable f rest
  end.

Fixpoint snapshot (h : Host) (classes : list APIClass.t) (instance : Instance.t)
    {struct instance} : result SerializedInstance.t :=
  MeshId ← (if IsA h instance "MeshPart"
            then id ← readMeshId instance; Ok (Some id)
            else Ok None);
  let found := discover h classes instance in
  let Properties :=
    assignAll found (if IsA h instance "Attachment" then assignAll found ∅ else ∅) in
  Children ← keepArchivable (snapshot h classes) (Instance.GetChildren instance);
  Ok (SerializedInstance.mk (Instance.ClassName instance) (Instance.Name instance)
        Properties Children MeshId).

(** [w'] is [w] with the catalog [classes] in the cache or still to be
    fetched, and the same log. *)
Definition cachedIn (h : Host) (classes : list APIClass.t) (w w' : World) : Prop :=
  catalogOf h w' = Ok classes ∧ warnings w' = warnings w.

(** [serializeInstance] with exactly one discovery-and-encode pass per
    node, as the specification words it: no separate pass for
    Attachments. *)
Fixpoint serializeInstance_once (h : Host) (instance : Instance.t) {struct instance}
    : M SerializedInstance.t :=
  MeshId ← (if IsA h instance "MeshPart"
            then id ← lift (readMeshId instance); mret (Some id)
            else mret None);
  properties ← getInstanceProperties h instance;
  let Properties := assignAll properties ∅ in
  Children ← forEach (serializeChild (serializeInstance_once h)) []
               (Instance.GetChildren instance);
  mret (SerializedInstance.mk (Instance.ClassName instance) (Instance.Name instance)
          Properties Children MeshId).

(** The MeshId of every MeshPart that is kept can be read. *)
Fixpoint meshReadable (h : Host) (instance : Instance.t) {struct instance} : bool :=
  (if IsA h instance "MeshPart" then is_Ok (readMeshId instance) else true) &&
  forallb (λ child, if Instance.Archivable child then meshReadable h child else true)
    (Instance.GetChildren instance).

(** [node] has the shape of [instance] with every non-archivable child
    removed, at every depth: same class, same name, and the children of
    the node are, in order, the shapes of the archivable children. *)
Inductive keptShape : Instance.t → SerializedInstance.t → Prop :=
| keptShape_node instance node :
    SerializedInstance.ClassName node = Instance.ClassName instance →
    SerializedInstance.Name node = Instance.Name instance →
    Forall2 keptShape
      (filter (λ child, Instance.Archivable child = true) (Instance.GetChildren instance))
      (SerializedInstance.Children node) →
    keptShape instance node.

(** All the nodes of a wire tree, the root first. *)
Fixpoint nodesOf (node : SerializedInstance.t) {struct node}
    : list SerializedInstance.t :=
  node :: flat_map nodesOf (SerializedInstance.Children node).

(** All the objects of a live tree, the root first. *)
Fixpoint descendantsOf (instance : Instance.t) {struct instance} : list Instance.t :=
  instance :: flat_map descendantsOf (Instance.GetChildren instance).

(** The node reached from [node] by following the child indices [path]. *)
Fixpoint nodeAt (node : SerializedInstance.t) (path : list nat)
    : option SerializedInstance.t :=
  match path with
  | [] => Some node
  | i :: rest =>
      match SerializedInstance.Children node !! i with
      | Some child => nodeAt child rest
      | None => None
      end
  end.

(** The object reached from [instance] by the indices [path], counted at
    each level among the archivable children only: the object that the
    node at [path] of the output stands for. *)
Fixpoint keptAt (instance : Instance.t) (path : list nat) : option Instance.t :=
  match path with
  | [] => Some instance
  | i :: rest =>
      match filter (λ child, Instance.Archivable child = true)
              (Instance.GetChildren instance) !! i with
      | Some child => keptAt child rest
      | None => None
      end
  end.

(** The object reached from [instance] by the child indices [path]. *)
Fixpoint childAt (instance : Instance.t) (path : list nat) : option Instance.t :=
  match path with
  | [] => Some instance
  | i :: rest =>
      match Instance.GetChildren instance !! i with
      | Some child => childAt child rest
      | None => None
      end
  end.

(** The values of the wire grammar: a primitive, or one of the eight
    tagged records. *)
Inductive WireValue : unknown → Prop :=
| wire_boolean b : WireValue (VBoolean b)
| wire_string s : WireValue (VString s)
| wire_number n : WireValue (VNumber n)
| wire_Vector3 x y z :
    WireValue (object [("_type", VString "Vector3");
                       ("X", VNumber x); ("Y", VNumber y); ("Z", VNumber z)])
| wire_Vector2 x y :
    WireValue (object [("_type", VString "Vector2"); ("X", VNumber x); ("Y", VNumber y)])
| wire_CFrame x y z r00 r01 r02 r10 r11 r12 r20 r21 r22 :
    WireValue (object [("_type", VString "CFrame");
                       ("Position", array [VNumber x; VNumber y; VNumber z]);
                       ("Rotation", array [VNumber r00; VNumber r01; VNumber r02;
                                           VNumber r10; VNumber r11; VNumber r12;
                                           VNumber r20; VNumber r21; VNumber r22])])
| wire_Color3 r g b :
    WireValue (object [("_type", VString "Color3");
                       ("R", VNumber r); ("G", VNumber g); ("B", VNumber b)])
| wire_NumberRange lo hi :
    WireValue (object [("_type", VString "NumberRange");
                       ("Min", VNumber lo); ("Max", VNumber hi)])
| wire_NumberSequence (kps : list (number * number * number)) :
    WireValue (object [("_type", VString "NumberSequence");
                       ("Keypoints", array (map (λ k : number * number * number,
                          object [("Time", VNumber k.1.1); ("Value", VNumber k.1.2);
                                  ("Envelope", VNumber k.2)]) kps))])
| wire_ColorSequence (kps : list (number * (number * number * number))) :
    WireValue (object [("_type", VString "ColorSequence");
                       ("Keypoints", array (map (λ k : number * (number * number * number),
                          object [("Time", VNumber k.1);
                                  ("Value", object [("R", VNumber k.2.1.1);
                                                    ("G", VNumber k.2.1.2);
                                                    ("B", VNumber k.2.2)])]) kps))])
| wire_EnumItem ty n :
    WireValue (object [("_type", VString "EnumItem");
                       ("EnumType", VString ty); ("Name", VString n)]).

(** The kinds the inclusion test lets through and the encoder has no
    record for. *)
Definition unencodedKind (v : unknown) : bool :=
  match typeOf v with
  | TUDim | TUDim2 | TRect | TBrickColor => true
  | _ => false
  end.

(** ** Vocabulary of the tree round trip *)

(** The kinds listed by lines 276-290. *)
Definition serializableKind (v : unknown) : bool :=
  match typeOf v with
  | Tboolean | Tstring | Tnumber
  | TVector3 | TCFrame | TColor3 | TVector2 | TUDim | TUDim2 | TNumberRange
  | TRect | TBrickColor | TNumberSequence | TColorSequence | TEnumItem => true
  | _ => false
  end.

(** Attribute [k] of [instance] can be restored: its value is of a
    serializable kind, is a value of the host, and the host accepts the
    write on an object of this class, where the write is made at all: the
    MeshId of a MeshPart is never written (line 220). *)
Definition restorable (h : Host) (instance : Instance.t) (k : string) : Prop :=
  ∀ v, getProperty instance k = Ok v →
    serializableKind v = true ∧
    (structured v = true → hostValue h v) ∧
    (skipsMeshId h instance k = false →
     refuses h (Instance.ClassName instance) k v = None).

(** The object that the construction rule of lines 186-216 makes for a
    copy of [instance], before it is named: the importer's for a MeshPart
    with a mesh identity, [new Instance]'s otherwise. *)
Definition freshCopy (h : Host) (instance : Instance.t) : result Instance.t :=
  match readMeshId instance with
  | Ok id =>
      if String.eqb (Instance.ClassName instance) "MeshPart" && negb (String.eqb id "")
      then CreateMeshPart h id
      else newInstance h (Instance.ClassName instance)
  | Err _ => newInstance h (Instance.ClassName instance)
  end.

(** The construction that [deserializeInstance] attempts for a copy of
    [instance] succeeds: the importer for a MeshPart with a mesh identity,
    [new Instance] otherwise. *)
Definition constructs (h : Host) (instance : Instance.t) : bool :=
  match readMeshId instance with
  | Ok id =>
      if String.eqb (Instance.ClassName instance) "MeshPart" && negb (String.eqb id "")
      then is_Ok (CreateMeshPartAsync h id)
      else is_Ok (defaults h (Instance.ClassName instance))
  | Err _ => is_Ok (defaults h (Instance.ClassName instance))
  end.

(** The mesh-backed kind is the class MeshPart: an object that is a
    MeshPart has that very class and a MeshId that reads as a string, and
    a MeshPart made by [new Instance] has the empty mesh identity. *)
Definition meshBacked (h : Host) (instance : Instance.t) : Prop :=
  IsA h instance "MeshPart" = true →
  Instance.ClassName instance = "MeshPart" ∧
  ∃ id, readMeshId instance = Ok id ∧
        (id = "" → ∀ bag, defaults h "MeshPart" = Ok bag →
                          bag !! "MeshId" = Some (VString "")).

(** The hypotheses of the tree round trip, at every object of the tree.
    The attributes in question are the ones discovery can retain, said
    without reference to the code that retains them: [listed] holds of the
    names that some descriptor of a class of the object lists as a member
    of kind Property, not ignored and without an excluding tag.  Each of
    them that the object reads can be restored; the object reads each of
    them that a newly made object of its kind reads; the object can be
    constructed; every child is archivable. *)
Inductive faithful (h : Host) (classes : list APIClass.t) : Instance.t → Prop :=
| faithful_node instance :
    (∀ k, listed h classes instance k = true → restorable h instance k) →
    (∀ k fresh, listed h classes instance k = true →
       freshCopy h instance = Ok fresh →
       is_Ok (getProperty fresh k) = true → is_Ok (getProperty instance k) = true) →
    constructs h instance = true →
    meshBacked h instance →
    Forall (λ child, Instance.Archivable child = true) (Instance.GetChildren instance) →
    Forall (faithful h classes) (Instance.GetChildren instance) →
    faithful h classes instance.

(** The rebuilt tree is the original one in every attribute that discovery
    can retain: same class and name; for every listed name the copy reads
    what the original reads, the same value or the same failure; hence the
    same attributes discovered on both; the same number of children in the
    same order, and so for every child. *)
Inductive sameTree (h : Host) (classes : list APIClass.t)
    : Instance.t → Instance.t → Prop :=
| sameTree_node instance instance' :
    Instance.ClassName instance' = Instance.ClassName instance →
    Instance.Name instance' = Instance.Name instance →
    (∀ k, listed h classes instance k = true →
          getProperty instance' k = getProperty instance k) →
    discover h classes instance' = discover h classes instance →
    Forall2 (sameTree h classes)
      (Instance.GetChildren instance) (Instance.GetChildren instance') →
    sameTree h classes instance instance'.

(** An attribute tagged [EnumItem] whose names the host cannot resolve. *)
Definition unresolvedEnum (h : Host) (pv : unknown) : bool :=
  match pv with
  | VTable hash _ =>
      equalsString (rawget "_type" hash) "EnumItem" &&
      negb (is_Ok (EnumIndex h (rawget "EnumType" hash) (rawget "Name" hash)))
  | _ => false
  end.

Module DemoNodes.

Definition leaf (className name : string) (props : list (string * unknown))
    : SerializedInstance.t :=
  SerializedInstance.mk className name (list_to_map props) [] None.

(** Ten attributes; the CFrame record has lost its Position and Rotation. *)
Definition tenAttributes : SerializedInstance.t :=
  SerializedInstance.mk "Part" "Block"
    (list_to_map
       [("Color", serializeProperty Demo.red);
        ("Size", serializeProperty (VVector3 (num 4) (num 1) (num 2)));
        ("Material", serializeProperty (VEnumItem "Material" "Plastic"));
        ("Anchored", VBoolean true);
        ("CanCollide", VBoolean false);
        ("Transparency", VNumber (num 0));
        ("Reflectance", VNumber (num 0));
        ("CastShadow", VBoolean true);
        ("Tag", VString "spawn");
        ("CFrame", object [("_type", VString "CFrame")])])
    [leaf "Attachment" "A1" [("CFrame", serializeProperty Demo.identity)];
     leaf "Folder" "Bin" []]
    None.

(** The host has no Material named Adamantium. *)
Definition staleEnum : SerializedInstance.t :=
  leaf "Part" "Block"
    [("Material", object [("_type", VString "EnumItem");
                          ("EnumType", VString "Material");
                          ("Name", VString "Adamantium")]);
     ("Anchored", VBoolean true)].

Definition mesh (meshId : string) : SerializedInstance.t :=
  SerializedInstance.mk "MeshPart" "Rock"
    (list_to_map [("MeshId", VString "rbxassetid://999"); ("Anchored", VBoolean true)])
    [] (Some meshId).

(** A host whose [JSONDecode] yields [staleEnum]. *)
Definition decodingHost : Host :=
  mkHost (ancestors Demo.host) (apiDump Demo.host) (Enum Demo.host)
    (argNumber Demo.host) (intern Demo.host) (defaults Demo.host)
    (CreateMeshPartAsync Demo.host) (refuses Demo.host)
    (JSONEncode Demo.host) (λ _, Ok staleEnum).

(** A host whose importer would accept any mesh identity, the empty one
    included, and marks what it imports. *)
Definition importingHost : Host :=
  mkHost (ancestors Demo.host) (apiDump Demo.host) (Enum Demo.host)
    (argNumber Demo.host) (intern Demo.host) (defaults Demo.host)
    (λ _, Ok {[ "Imported" := VBoolean true ]}) (refuses Demo.host)
    (JSONEncode Demo.host) (JSONDecode Demo.host).

(** A model with a hidden helper part: [Gizmo] is not archivable, and
    neither it nor the archivable [Handle] below it is to be persisted. *)
Definition handle : Instance.t := Instance.mk "Part" "Handle" true ∅ [].
Definition gizmo : Instance.t := Instance.mk "Folder" "Gizmo" false ∅ [handle].
Definition wheel : Instance.t :=
  Instance.mk "Part" "Wheel" true {[ "Color" := Demo.red ]} [gizmo].
Definition seat : Instance.t := Instance.mk "Part" "Seat" true ∅ [].
Definition car : Instance.t :=
  Instance.mk "Folder" "Car" true ∅ [wheel; gizmo; seat].

(** A part whose catalog entry marks Rotation as deprecated. *)
Definition turned : Instance.t :=
  Instance.mk "Part" "Block" true
    {[ "Color" := Demo.red;
       "Size" := VVector3 (num 4) (num 1) (num 2);
       "Rotation" := VVector3 (num 0) (num 90) (num 0) ]} [].

(** A frame with rounded corners: Size is a UDim2, CornerRadius a UDim. *)
Definition corner : Instance.t :=
  Instance.mk "UICorner" "Round" true {[ "CornerRadius" := VUDim (num 0) (num 8) ]} [].
Definition panel : Instance.t :=
  Instance.mk "Frame" "Panel" true
    {[ "Size" := VUDim2 (num 1) (num 0) (num 0) (num 40);
       "Visible" := VBoolean true ]} [corner].

(** The scenario of the specification, with a mesh next to the block. *)
Definition a1 : Instance.t :=
  Instance.mk "Attachment" "A1" true {[ "CFrame" := Demo.identity ]} [].
Definition block : Instance.t :=
  Instance.mk "Part" "Block" true
    {[ "Color" := Demo.red; "Material" := VEnumItem "Material" "Wood" ]} [a1].
Definition rock : Instance.t :=
  Instance.mk "MeshPart" "Rock" true
    {[ "MeshId" := VString "rbxassetid://123"; "Color" := Demo.red ]} [].
Definition model : Instance.t := Instance.mk "Folder" "Model" true ∅ [block; rock].

End DemoNodes.

(** Objects whose attributes show what discovery does not look at. *)
Module DemoForced.

(** A part whose Size, a force-include name, holds a value of a kind that
    neither the inclusion test lists nor the encoder knows; it sits below
    a part of another colour that is not archivable. *)
Definition sign : Instance.t :=
  Instance.mk "Part" "Sign" true
    {[ "Size" := VOther "Region3"; "Color" := Demo.red ]}
    [Instance.mk "Part" "Ghost" false {[ "Color" := VColor3 (num 0) (num 0) (num 1) ]} [];
     Instance.mk "Part" "Post" true {[ "Color" := VColor3 (num 0) (num 1) (num 0) ]} []].

End DemoForced.

(** A tree whose unresolved enum item sits one level below the root. *)
Module DemoStale.

Definition crate : SerializedInstance.t :=
  SerializedInstance.mk "Folder" "Crate" ∅
    [DemoNodes.leaf "Part" "Lid"
       [("Material", object [("_type", VString "EnumItem");
                             ("EnumType", VString "Material");
                             ("Name", VString "Adamantium")]);
        ("Anchored", VBoolean true)];
     DemoNodes.leaf "Part" "Base" []] None.

End DemoStale.

(** A host on which a new Frame is visible and not active, and a frame
    that is hidden and active: [Active] is a scriptable attribute that
    [IGNORED_PROPERTIES] names. *)
Module DemoLossy.

Definition catalog : list APIClass.t :=
  [APIClass.mk "GuiObject"
     [APIMember.mk "Visible" "Property" None;
      APIMember.mk "Active" "Property" None]].

Definition host : Host :=
  mkHost (λ c, if String.eqb c "Frame" then ["GuiObject"; "Instance"] else [])
    (Ok catalog) (Enum Demo.host) (argNumber Demo.host) (intern Demo.host)
    (λ c, if String.eqb c "Frame"
          then Ok {[ "Visible" := VBoolean true; "Active" := VBoolean false ]}
          else Err ("Unable to create an Instance of type " ++ c))
    (CreateMeshPartAsync Demo.host) (λ _ _ _, None)
    (JSONEncode Demo.host) (JSONDecode Demo.host).

Definition button : Instance.t :=
  Instance.mk "Frame" "Button" true
    {[ "Visible" := VBoolean false; "Active" := VBoolean true ]} [].

End DemoLossy.

(** ** Vocabulary of the further properties *)

(** The host [h] with another outcome of the catalog fetch. *)
Definition withApiDump (h : Host) (dump : result (list APIClass.t)) : Host :=
  mkHost (ancestors h) dump (Enum h) (argNumber h) (intern h) (defaults h)
    (CreateMeshPartAsync h) (refuses h) (JSONEncode h) (JSONDecode h).

(** The engine types the MeshId of a MeshPart as a string: on every
    MeshPart that is kept (the root, and what is reached from it through
    archivable children) the attribute reads as a string, if it reads at
    all. *)
Fixpoint meshIdsTyped (h : Host) (instance : Instance.t) {struct instance} : bool :=
  (if IsA h instance "MeshPart"
   then match getProperty instance "MeshId" with
        | Ok (VString _) | Err _ => true
        | Ok _ => false
        end
   else true) &&
  forallb (λ child, if Instance.Archivable child then meshIdsTyped h child else true)
    (Instance.GetChildren instance).

(** No read of line 150 throws: on every MeshPart that is kept the MeshId
    can be read. *)
Fixpoint meshIdsRead (h : Host) (instance : Instance.t) {struct instance} : bool :=
  (if IsA h instance "MeshPart" then is_Ok (getProperty instance "MeshId") else true) &&
  forallb (λ child, if Instance.Archivable child then meshIdsRead h child else true)
    (Instance.GetChildren instance).

(** [new Instance] can make the node's class, or the node is a MeshPart
    with a mesh reference that the importer accepts: what the construction
    rule of lines 186-216 needs of the host. *)
Definition creatable (h : Host) (data : SerializedInstance.t) : bool :=
  (String.eqb (SerializedInstance.ClassName data) "MeshPart"
   && truthy (SerializedInstance.MeshId data)
   && is_Ok (CreateMeshPartAsync h (default "" (SerializedInstance.MeshId data))))
  || is_Ok (defaults h (SerializedInstance.ClassName data)).


(** [m] does not read the world: it returns [r] and appends [lines] to the
    log, whatever the cache and the log are. *)
Definition appends {A} (m : M A) (r : result A) (lines : list string) : Prop :=
  ∀ w, m w = (r, mkWorld (properties w) (warnings w ++ lines)).

Definition framed {A} (m : M A) : Prop := ∃ r lines, appends m r lines.


(** Concrete nodes for the examples of the further properties. *)
Module DemoMore.

(** An Attachment node with one attribute the host accepts, one it
    refuses, and a child. *)
Definition hinge : SerializedInstance.t :=
  SerializedInstance.mk "Attachment" "Hinge"
    (list_to_map [("Visible", VBoolean true); ("Locked", VBoolean true);
                  ("CFrame", serializeProperty Demo.identity)])
    [DemoNodes.leaf "Attachment" "Inner" []] None.

(** A tree every node of which is created and written without failure. *)
Definition cleanTree : SerializedInstance.t :=
  SerializedInstance.mk "Folder" "Model" ∅
    [SerializedInstance.mk "Part" "Block"
       (list_to_map [("Color", serializeProperty Demo.red);
                     ("Material", serializeProperty (VEnumItem "Material" "Wood"))])
       [DemoNodes.leaf "Attachment" "A1" [("CFrame", serializeProperty Demo.identity)]]
       None;
     DemoNodes.mesh "rbxassetid://123"] None.

End DemoMore.


(** Nothing goes wrong at node [n]: the object is created, by the importer
    when the node is a MeshPart with a mesh reference, and every attribute
    that a pass tries to write decodes and is accepted. *)
Definition writesCleanly (h : Host) (n : SerializedInstance.t) : bool :=
  match bare h n with
  | Ok fresh =>
      (negb (String.eqb (SerializedInstance.ClassName n) "MeshPart"
             && truthy (SerializedInstance.MeshId n))
       || is_Ok (CreateMeshPart h (default "" (SerializedInstance.MeshId n))))
      && forallb (λ kv : string * unknown,
             (skipsMeshId h fresh kv.1
              && negb (String.eqb (SerializedInstance.ClassName n) "Attachment"))
             || is_Ok (decodeAndSet h fresh kv.1 kv.2))
           (map_to_list (SerializedInstance.Properties n))
  | Err _ => false
  end.


(** [instance] has the shape of [data]: same class, the name of the node
    unless the node writes a [Name] attribute of its own, and children
    that have, in order, the shapes of the child nodes. *)
Inductive builtShape : SerializedInstance.t → Instance.t → Prop :=
| builtShape_node data instance :
    Instance.ClassName instance = SerializedInstance.ClassName data →
    (SerializedInstance.Properties data !! "Name" = None →
     Instance.Name instance = SerializedInstance.Name data) →
    Forall2 builtShape
      (SerializedInstance.Children data) (Instance.GetChildren instance) →
    builtShape data instance.


(** A host whose constructors store every candidate as it is and whose
    enums have every item. *)
Definition transparentHost : Host :=
  mkHost (λ _, []) (Err "no catalog") (λ ty n, Ok (VEnumItem ty n))
    (λ _, Err "number expected") Ok (λ _, Ok ∅) (λ _, Ok ∅) (λ _ _ _, None)
    (λ _, "") (λ _, Err "cannot parse JSON").


(** A value that can be indexed without an error: a table or a string. *)
Definition indexable (v : unknown) : bool :=
  match v with
  | VTable _ _ | VString _ => true
  | _ => false
  end.

(** A record that carries a known tag without its payload: a CFrame whose
    [Position] or [Rotation] cannot be indexed, a sequence whose
    [Keypoints] is not a table, an EnumItem whose [EnumType] or [Name] is
    not a string. *)
Definition truncated (v : unknown) : bool :=
  match v with
  | VTable hash _ =>
      let _type := rawget "_type" hash in
      (equalsString _type "CFrame" &&
       negb (indexable (rawget "Position" hash) && indexable (rawget "Rotation" hash)))
      || ((equalsString _type "NumberSequence" || equalsString _type "ColorSequence") &&
          negb (typeIs (rawget "Keypoints" hash) Ttable))
      || (equalsString _type "EnumItem" &&
          negb (typeIs (rawget "EnumType" hash) Tstring &&
                typeIs (rawget "Name" hash) Tstring))
  | _ => false
  end.


(** * Properties *)

(** ** Value codec *)

Lemma equalsString_true v s : equalsString v s = true → v = VString s.
Proof.
  destruct v; simpl; try discriminate.
  intros H. apply String.eqb_eq in H. by subst.
Qed.

Lemma mapM_encode_NumberSequence h (kps : list (number * number * number)) :
  Forall (λ k : number * number * number,
    intern h (VNumberSequenceKeypoint k.1.1 k.1.2 k.2)
    = Ok (VNumberSequenceKeypoint k.1.1 k.1.2 k.2)) kps →
  mapM (λ k, T ← getField k "Time"; V ← getField k "Value";
             E ← getField k "Envelope"; NumberSequenceKeypoint_new h T V E)
    (map (λ k : number * number * number,
       let '(T, V, E) := k in
       object [("Time", VNumber T); ("Value", VNumber V); ("Envelope", VNumber E)]) kps)
  = Ok (map (λ k : number * number * number,
              VNumberSequenceKeypoint k.1.1 k.1.2 k.2) kps).
Proof.
  induction 1 as [|[[t x] e] kps Hk _ IH]; [done|].
  cbn [map mapM]. rewrite IH. cbn. simpl in Hk. by rewrite Hk.
Qed.

Lemma mapM_asNumberSequenceKeypoint (kps : list (number * number * number)) :
  mapM asNumberSequenceKeypoint
    (map (λ k : number * number * number,
       VNumberSequenceKeypoint k.1.1 k.1.2 k.2) kps) = Ok kps.
Proof.
  induction kps as [|[[t x] e] kps IH]; [done|].
  cbn [map mapM]. rewrite IH. done.
Qed.

Lemma mapM_encode_ColorSequence h (kps : list (number * (number * number * number))) :
  Forall (λ k : number * (number * number * number),
    intern h (VColor3 k.2.1.1 k.2.1.2 k.2.2)
    = Ok (VColor3 k.2.1.1 k.2.1.2 k.2.2) ∧
    intern h (VColorSequenceKeypoint k.1 k.2.1.1 k.2.1.2 k.2.2)
    = Ok (VColorSequenceKeypoint k.1 k.2.1.1 k.2.1.2 k.2.2)) kps →
  mapM (λ k, T ← getField k "Time"; V ← getField k "Value";
             R ← getField V "R"; G ← getField V "G"; B ← getField V "B";
             C ← Color3_new h R G B; ColorSequenceKeypoint_new h T C)
    (map (λ k : number * (number * number * number),
       let '(T, (R, G, B)) := k in
       object [("Time", VNumber T);
               ("Value", object [("R", VNumber R); ("G", VNumber G);
                                 ("B", VNumber B)])]) kps)
  = Ok (map (λ k : number * (number * number * number),
              VColorSequenceKeypoint k.1 k.2.1.1 k.2.1.2 k.2.2) kps).
Proof.
  induction 1 as [|[t [[r g] b]] kps [Hc Hk] _ IH]; [done|].
  cbn [map mapM]. rewrite IH. cbn. simpl in Hc, Hk. rewrite Hc. cbn.
  by rewrite Hk.
Qed.

Lemma mapM_asColorSequenceKeypoint (kps : list (number * (number * number * number))) :
  mapM asColorSequenceKeypoint
    (map (λ k : number * (number * number * number),
       VColorSequenceKeypoint k.1 k.2.1.1 k.2.1.2 k.2.2) kps) = Ok kps.
Proof.
  induction kps as [|[t [[r g] b]] kps IH]; [done|].
  cbn [map mapM]. rewrite IH. done.
Qed.

(** One lemma for each kind of the wire grammar. *)
Lemma round_trip_Vector3 h X Y Z :
  hostValue h (VVector3 X Y Z) →
  deserializeProperty h (serializeProperty (VVector3 X Y Z)) = Ok (VVector3 X Y Z).
Proof. simpl. intros Hv. cbn. by rewrite Hv. Qed.

Lemma round_trip_Vector2 h X Y :
  hostValue h (VVector2 X Y) →
  deserializeProperty h (serializeProperty (VVector2 X Y)) = Ok (VVector2 X Y).
Proof. simpl. intros Hv. cbn. by rewrite Hv. Qed.

Lemma round_trip_CFrame h x y z r00 r01 r02 r10 r11 r12 r20 r21 r22 :
  hostValue h (VCFrame x y z r00 r01 r02 r10 r11 r12 r20 r21 r22) →
  deserializeProperty h
    (serializeProperty (VCFrame x y z r00 r01 r02 r10 r11 r12 r20 r21 r22))
  = Ok (VCFrame x y z r00 r01 r02 r10 r11 r12 r20 r21 r22).
Proof. simpl. intros Hv. cbn. by rewrite Hv. Qed.

Lemma round_trip_Color3 h R G B :
  hostValue h (VColor3 R G B) →
  deserializeProperty h (serializeProperty (VColor3 R G B)) = Ok (VColor3 R G B).
Proof. simpl. intros Hv. cbn. by rewrite Hv. Qed.

Lemma round_trip_NumberRange h Min Max :
  hostValue h (VNumberRange Min Max) →
  deserializeProperty h (serializeProperty (VNumberRange Min Max))
  = Ok (VNumberRange Min Max).
Proof. simpl. intros Hv. cbn. by rewrite Hv. Qed.

Lemma round_trip_NumberSequence h kps :
  hostValue h (VNumberSequence kps) →
  deserializeProperty h (serializeProperty (VNumberSequence kps))
  = Ok (VNumberSequence kps).
Proof.
  intros [Hv Hk].
  cbn -[mapM]. rewrite (mapM_encode_NumberSequence h _ Hk).
  cbn -[mapM]. rewrite mapM_asNumberSequenceKeypoint. cbn. by rewrite Hv.
Qed.

Lemma round_trip_ColorSequence h kps :
  hostValue h (VColorSequence kps) →
  deserializeProperty h (serializeProperty (VColorSequence kps))
  = Ok (VColorSequence kps).
Proof.
  intros [Hv Hk].
  cbn -[mapM]. rewrite (mapM_encode_ColorSequence h _ Hk).
  cbn -[mapM]. rewrite mapM_asColorSequenceKeypoint. cbn. by rewrite Hv.
Qed.

Lemma round_trip_EnumItem h EnumType Name :
  hostValue h (VEnumItem EnumType Name) →
  deserializeProperty h (serializeProperty (VEnumItem EnumType Name))
  = Ok (VEnumItem EnumType Name).
Proof. simpl. intros Hv. cbn. done. Qed.

(** Values of the other serializable kinds are stored and read as they
    are. *)
Lemma decode_encode_serializable (h : Host) (v : unknown) :
  serializableKind v = true →
  (structured v = true → hostValue h v) →
  deserializeProperty h (serializeProperty v) = Ok v.
Proof.
  intros Hk Hv. destruct v; try discriminate Hk; try reflexivity;
    specialize (Hv eq_refl).
  - by apply round_trip_Vector3.
  - by apply round_trip_CFrame.
  - by apply round_trip_Color3.
  - by apply round_trip_Vector2.
  - by apply round_trip_NumberRange.
  - by apply round_trip_NumberSequence.
  - by apply round_trip_ColorSequence.
  - by apply round_trip_EnumItem.
Qed.

(** C1. Round trip of the value codec: for every value [v] of one of the
    eight structured kinds (Vector3, Vector2, CFrame, Color3, NumberRange,
    NumberSequence, ColorSequence, EnumItem) that the host holds (for an
    EnumItem: whose enum type and member exist), decoding the encoding of
    [v] gives back [v], component for component. *)
Theorem deserializeProperty_serializeProperty (h : Host) (v : unknown) :
  structured v = true →
  hostValue h v →
  deserializeProperty h (serializeProperty v) = Ok v.
Proof.
  intros Hs Hv. destruct v; try discriminate Hs.
  - by apply round_trip_Vector3.
  - by apply round_trip_CFrame.
  - by apply round_trip_Color3.
  - by apply round_trip_Vector2.
  - by apply round_trip_NumberRange.
  - by apply round_trip_NumberSequence.
  - by apply round_trip_ColorSequence.
  - by apply round_trip_EnumItem.
Qed.

Lemma deserializeProperty_serializeProperty_witness :
  (structured Demo.gradient = true ∧ hostValue Demo.host Demo.gradient ∧
   deserializeProperty Demo.host (serializeProperty Demo.gradient) = Ok Demo.gradient) ∧
  (structured Demo.fade = true ∧ hostValue Demo.host Demo.fade ∧
   deserializeProperty Demo.host (serializeProperty Demo.fade) = Ok Demo.fade) ∧
  (structured (VEnumItem "Material" "Wood") = true ∧
   deserializeProperty Demo.host (serializeProperty (VEnumItem "Material" "Wood"))
   = Ok (VEnumItem "Material" "Wood")).
Proof.
  assert (Hg : hostValue Demo.host Demo.gradient).
  { split; [reflexivity|]. repeat constructor. }
  assert (Hf : hostValue Demo.host Demo.fade).
  { split; [reflexivity|]. repeat constructor. }
  split; [split; [reflexivity|split; [exact Hg|]]|].
  { exact (deserializeProperty_serializeProperty Demo.host Demo.gradient eq_refl Hg). }
  split; [split; [reflexivity|split; [exact Hf|]]|split; [reflexivity|]].
  - exact (deserializeProperty_serializeProperty Demo.host Demo.fade eq_refl Hf).
  - exact (deserializeProperty_serializeProperty Demo.host
             (VEnumItem "Material" "Wood") eq_refl eq_refl).
Defined.

(** C8. Pass-through of the decoder: a table whose [_type] is none of the
    eight known tags decodes to itself, without error; so does a table
    without [_type], and so does every value that is not a table. *)
Theorem deserializeProperty_untagged (h : Host) (v : unknown) :
  untagged v = true →
  deserializeProperty h v = Ok v.
Proof.
  destruct v as [| | | | | | | | | | | | | | | | | | | | |hash arr]; try reflexivity.
  unfold untagged, knownTags. cbn [forallb].
  rewrite !andb_true_iff, !negb_true_iff.
  intros (H1 & H2 & H3 & H4 & H5 & H6 & H7 & H8 & _).
  unfold deserializeProperty.
  rewrite H1, H2, H3, H4, H5, H6, H7, H8.
  by destruct (typeIs _ _).
Qed.

Lemma deserializeProperty_untagged_witness :
  (untagged (object [("_type", VString "Font"); ("Family", VString "Arial")]) = true ∧
   deserializeProperty Demo.host
     (object [("_type", VString "Font"); ("Family", VString "Arial")])
   = Ok (object [("_type", VString "Font"); ("Family", VString "Arial")])) ∧
  (untagged (object [("X", VNumber (num 1))]) = true ∧
   deserializeProperty Demo.host (object [("X", VNumber (num 1))])
   = Ok (object [("X", VNumber (num 1))])) ∧
  (untagged (VString "Vector3") = true ∧
   deserializeProperty Demo.host (VString "Vector3") = Ok (VString "Vector3")).
Proof.
  split; [|split]; (split; [reflexivity|]).
  - apply deserializeProperty_untagged. reflexivity.
  - apply deserializeProperty_untagged. reflexivity.
  - apply deserializeProperty_untagged. reflexivity.
Defined.

(** ** Induction over trees *)

Lemma SerializedInstance_tree_ind (P : SerializedInstance.t → Prop) :
  (∀ c n p ch m, Forall P ch → P (SerializedInstance.mk c n p ch m)) →
  ∀ data, P data.
Proof.
  intros step. fix IH 1. intros [c n p ch m]. apply step.
  induction ch as [|child ch IHch]; constructor; [apply IH|apply IHch].
Qed.

Lemma Instance_tree_ind (P : Instance.t → Prop) :
  (∀ c n a b ch, Forall P ch → P (Instance.mk c n a b ch)) →
  ∀ instance, P instance.
Proof.
  intros step. fix IH 1. intros [c n a b ch]. apply step.
  induction ch as [|child ch IHch]; constructor; [apply IH|apply IHch].
Qed.

(** ** The log only grows *)

Lemma logged_refl w : logged w w.
Proof. split; [done|]. exists []. by rewrite app_nil_r. Qed.

Lemma logged_trans w1 w2 w3 : logged w1 w2 → logged w2 w3 → logged w1 w3.
Proof.
  intros [Hp1 [l1 Hl1]] [Hp2 [l2 Hl2]]. split; [congruence|].
  exists (l1 ++ l2)%list. by rewrite Hl2, Hl1, app_assoc.
Qed.

Lemma logged_warn w msg : logged w (mkWorld (properties w) (warnings w ++ [msg])).
Proof. split; [done|]. by exists [msg]. Qed.

#[local] Hint Resolve logged_refl logged_warn : core.

(** ** The deserializer computes [rebuilt] *)

Lemma forEach_pure {A B} (body : B → A → M B) (f : B → A → B) l :
  (∀ acc x w, ∃ w', body acc x w = (Ok (f acc x), w') ∧ logged w w') →
  ∀ acc w, ∃ w', forEach body acc l w = (Ok (foldl f acc l), w') ∧ logged w w'.
Proof.
  intros Hbody. induction l as [|x l IH]; intros acc w; simpl.
  - exists w. split; [done|apply logged_refl].
  - unfold mbind, M_bind. destruct (Hbody acc x w) as (w1 & -> & Hw1).
    destruct (IH (f acc x) w1) as (w2 & -> & Hw2).
    exists w2. split; [done|]. by eapply logged_trans.
Qed.

Lemma setAttachmentProperty_pure h instance kv w :
  ∃ w', setAttachmentProperty h instance kv w
        = (Ok (stepAttachment h instance kv), w') ∧ logged w w'.
Proof.
  destruct kv as [k pv].
  unfold setAttachmentProperty, stepAttachment, decodeAndSet, try, lift, mbind,
    M_bind, result_bind, mret, M_ret, warn; simpl.
  destruct (deserializeProperty h pv) as [v|e]; simpl.
  - destruct (setProperty h instance k v); simpl; eauto.
  - eauto.
Qed.

Lemma setOneProperty_pure h instance kv w :
  ∃ w', setOneProperty h instance kv w = (Ok (stepOne h instance kv), w') ∧ logged w w'.
Proof.
  destruct kv as [k pv].
  unfold setOneProperty, stepOne, skipsMeshId; simpl.
  destruct (IsA h instance "MeshPart" && String.eqb k "MeshId").
  - exists w. split; [done|apply logged_refl].
  - unfold stepAttachment, decodeAndSet, try, lift, mbind,
      M_bind, result_bind, mret, M_ret, warn; simpl.
    destruct (deserializeProperty h pv) as [v|e]; simpl.
    + destruct (setProperty h instance k v); simpl; eauto.
    + eauto.
Qed.

Lemma construct_pure h data w :
  ∃ w', construct h data w = (constructed h data, w') ∧ logged w w'.
Proof.
  unfold construct, constructed, bare.
  destruct (String.eqb (SerializedInstance.ClassName data) "Attachment").
  - unfold lift, mbind, M_bind, result_bind; simpl.
    destruct (newInstance h "Attachment") as [i|e]; simpl; [|eauto].
    apply forEach_pure. intros. apply setAttachmentProperty_pure.
  - destruct (String.eqb (SerializedInstance.ClassName data) "MeshPart"
              && truthy (SerializedInstance.MeshId data)).
    + unfold try, lift, mbind, M_bind, result_bind, mret, M_ret, warn; simpl.
      destruct (CreateMeshPart h _) as [i|e]; simpl; [eauto|].
      destruct (newInstance h _) as [i|e']; simpl; eauto.
    + unfold lift, mbind, M_bind, result_bind, mret, M_ret; simpl.
      destruct (newInstance h _) as [i|e']; simpl; eauto.
Qed.

Lemma attachChildren_pure h children :
  Forall (λ data, ∀ w, ∃ w', deserializeInstance h data w = (rebuilt h data, w')
                             ∧ logged w w') children →
  ∀ instance w, ∃ w',
    forEach (λ instance childData,
        child ← deserializeInstance h childData; mret (addChild instance child))
      instance children w
    = (built ← mapM (rebuilt h) children; Ok (foldl addChild instance built), w')
    ∧ logged w w'.
Proof.
  induction 1 as [|data children Hdata _ IH]; intros instance w.
  - exists w. split; [done|apply logged_refl].
  - cbn [forEach mapM]. unfold mbind at 1, M_bind at 1. unfold mbind at 1, M_bind at 1.
    destruct (Hdata w) as (w1 & -> & Hw1).
    destruct (rebuilt h data) as [child|e]; simpl; [|eauto].
    destruct (IH (addChild instance child) w1) as (w2 & -> & Hw2).
    exists w2. split; [|by eapply logged_trans].
    by destruct (mapM (rebuilt h) children).
Qed.

Lemma deserializeInstance_pure h data :
  ∀ w, ∃ w', deserializeInstance h data w = (rebuilt h data, w') ∧ logged w w'.
Proof.
  induction data as [c n p ch m IH] using SerializedInstance_tree_ind. intros w.
  set (data := SerializedInstance.mk c n p ch m).
  change (deserializeInstance h data) with
    (instance ← construct h data;
     instance ← forEach (setOneProperty h) instance (map_to_list p);
     forEach (λ instance childData,
        child ← deserializeInstance h childData; mret (addChild instance child))
       instance ch).
  change (rebuilt h data) with
    (instance ← constructed h data;
     let instance := foldl (stepOne h) instance (map_to_list p) in
     children ← mapM (rebuilt h) ch; Ok (foldl addChild instance children)).
  unfold mbind at 1, M_bind at 1.
  destruct (construct_pure h data w) as (w1 & -> & Hw1).
  destruct (constructed h data) as [i|e]; simpl; [|eauto].
  unfold mbind at 1, M_bind at 1.
  destruct (forEach_pure (setOneProperty h) (stepOne h) (map_to_list p)
              (setOneProperty_pure h) i w1) as (w2 & -> & Hw2).
  destruct (attachChildren_pure h ch IH (foldl (stepOne h) i (map_to_list p)) w2)
    as (w3 & -> & Hw3).
  exists w3. split; [done|]. eauto using logged_trans.
Qed.

(** ** Reading back what was written *)

Lemma String_eqb_false (a b : string) : a ≠ b → String.eqb a b = false.
Proof. intros. by apply String.eqb_neq. Qed.

Lemma setProperty_frame h instance k v instance' :
  setProperty h instance k v = Ok instance' →
  Instance.ClassName instance' = Instance.ClassName instance ∧
  Instance.GetChildren instance' = Instance.GetChildren instance.
Proof.
  unfold setProperty. destruct (refuses _ _ _ _); [done|].
  destruct (String.eqb k "ClassName"); [done|].
  destruct (String.eqb k "Name"); [destruct v; try done; by intros [= <-]|].
  destruct (String.eqb k "Archivable"); [destruct v; try done; by intros [= <-]|].
  by intros [= <-].
Qed.

Lemma setProperty_read h instance k v instance' :
  setProperty h instance k v = Ok instance' →
  getProperty instance' k = Ok v.
Proof.
  unfold setProperty, getProperty. destruct (refuses _ _ _ _); [done|].
  destruct (String.eqb k "ClassName"); [done|].
  destruct (String.eqb k "Name"); [destruct v; try done; by intros [= <-]|].
  destruct (String.eqb k "Archivable"); [destruct v; try done; by intros [= <-]|].
  intros [= <-]. simpl. by rewrite lookup_insert_eq.
Qed.

Lemma setProperty_other h instance k v instance' k' :
  setProperty h instance k v = Ok instance' → k' ≠ k →
  getProperty instance' k' = getProperty instance k'.
Proof.
  unfold setProperty, getProperty. destruct (refuses _ _ _ _); [done|].
  destruct (String.eqb k "ClassName") eqn:E1; [done|].
  destruct (String.eqb k "Name") eqn:E2.
  { apply String.eqb_eq in E2. subst k. intros Hv Hne.
    rewrite (String_eqb_false k' "Name") by done.
    destruct v; try done. by injection Hv as <-. }
  destruct (String.eqb k "Archivable") eqn:E3.
  { apply String.eqb_eq in E3. subst k. intros Hv Hne.
    rewrite (String_eqb_false k' "Archivable") by done.
    destruct v; try done. by injection Hv as <-. }
  intros [= <-] Hne. simpl. by rewrite lookup_insert_ne.
Qed.

Lemma setProperty_is_Ok h instance instance' k v :
  Instance.ClassName instance = Instance.ClassName instance' →
  is_Ok (setProperty h instance k v) = is_Ok (setProperty h instance' k v).
Proof.
  intros Hc. unfold setProperty. rewrite Hc. destruct (refuses _ _ _ _); [done|].
  destruct (String.eqb k "ClassName"); [done|].
  destruct (String.eqb k "Name"); [by destruct v|].
  destruct (String.eqb k "Archivable"); [by destruct v|]. done.
Qed.

Lemma settled_ext h instance instance' k pv :
  Instance.ClassName instance = Instance.ClassName instance' →
  getProperty instance k = getProperty instance' k →
  settled h instance k pv = settled h instance' k pv.
Proof.
  intros Hc Hg. unfold settled. destruct (deserializeProperty h pv); [|done].
  by rewrite (setProperty_is_Ok h instance instance' k a Hc), Hg.
Qed.

Lemma settled_idem h instance instance' k pv :
  Instance.ClassName instance = Instance.ClassName instance' →
  getProperty instance' k = settled h instance k pv →
  settled h instance' k pv = settled h instance k pv.
Proof.
  intros Hc Hg. unfold settled in *. destruct (deserializeProperty h pv); [|done].
  rewrite <- (setProperty_is_Ok h instance instance' k a Hc).
  by destruct (is_Ok (setProperty h instance k a)).
Qed.

Lemma skipsMeshId_ext h instance instance' k :
  Instance.ClassName instance = Instance.ClassName instance' →
  skipsMeshId h instance k = skipsMeshId h instance' k.
Proof. intros Hc. unfold skipsMeshId, IsA. by rewrite Hc. Qed.

Lemma stepAttachment_frame h instance kv :
  Instance.ClassName (stepAttachment h instance kv) = Instance.ClassName instance ∧
  Instance.GetChildren (stepAttachment h instance kv) = Instance.GetChildren instance.
Proof.
  unfold stepAttachment, decodeAndSet.
  destruct (deserializeProperty h kv.2) as [v|]; simpl; [|done].
  destruct (setProperty h instance kv.1 v) eqn:E; [|done].
  by apply setProperty_frame in E.
Qed.

Lemma stepAttachment_at h instance kv :
  getProperty (stepAttachment h instance kv) kv.1 = settled h instance kv.1 kv.2.
Proof.
  unfold stepAttachment, decodeAndSet, settled.
  destruct (deserializeProperty h kv.2) as [v|]; simpl; [|done].
  destruct (setProperty h instance kv.1 v) eqn:E; simpl; [|done].
  by apply setProperty_read in E.
Qed.

Lemma stepAttachment_other h instance kv k :
  k ≠ kv.1 →
  getProperty (stepAttachment h instance kv) k = getProperty instance k.
Proof.
  intros Hne. unfold stepAttachment, decodeAndSet.
  destruct (deserializeProperty h kv.2) as [v|]; simpl; [|done].
  destruct (setProperty h instance kv.1 v) eqn:E; [|done].
  by eapply setProperty_other.
Qed.

Lemma stepOne_frame h instance kv :
  Instance.ClassName (stepOne h instance kv) = Instance.ClassName instance ∧
  Instance.GetChildren (stepOne h instance kv) = Instance.GetChildren instance.
Proof.
  unfold stepOne. destruct (skipsMeshId h instance kv.1); [done|].
  apply stepAttachment_frame.
Qed.

Lemma stepOne_other h instance kv k :
  k ≠ kv.1 → getProperty (stepOne h instance kv) k = getProperty instance k.
Proof.
  intros. unfold stepOne. destruct (skipsMeshId h instance kv.1); [done|].
  by apply stepAttachment_other.
Qed.

Lemma stepOne_skipped h instance kv k :
  skipsMeshId h instance k = true →
  getProperty (stepOne h instance kv) k = getProperty instance k.
Proof.
  intros Hs. destruct (decide (k = kv.1)) as [->|Hne].
  - unfold stepOne. by rewrite Hs.
  - by apply stepOne_other.
Qed.

Lemma stepOne_at h instance kv :
  skipsMeshId h instance kv.1 = false →
  getProperty (stepOne h instance kv) kv.1 = settled h instance kv.1 kv.2.
Proof. intros Hs. unfold stepOne. rewrite Hs. apply stepAttachment_at. Qed.

(** A loop over pairs with distinct keys settles every key once. *)
Section loops.
Context (h : Host) (step : Instance.t → string * unknown → Instance.t).
Context (guard : Instance.t → string → bool).
Hypothesis step_frame : ∀ i kv,
  Instance.ClassName (step i kv) = Instance.ClassName i ∧
  Instance.GetChildren (step i kv) = Instance.GetChildren i.
Hypothesis step_other : ∀ i kv k, k ≠ kv.1 → getProperty (step i kv) k = getProperty i k.
Hypothesis step_at : ∀ i kv, guard i kv.1 = false →
  getProperty (step i kv) kv.1 = settled h i kv.1 kv.2.
Hypothesis guard_ext : ∀ i i' k,
  Instance.ClassName i = Instance.ClassName i' → guard i k = guard i' k.

Lemma loop_frame l : ∀ i,
  Instance.ClassName (foldl step i l) = Instance.ClassName i ∧
  Instance.GetChildren (foldl step i l) = Instance.GetChildren i.
Proof.
  induction l as [|kv l IH]; intros i; simpl; [done|].
  destruct (IH (step i kv)) as [-> ->]. apply step_frame.
Qed.

Lemma loop_other l k : ∀ i,
  k ∉ l.*1 → getProperty (foldl step i l) k = getProperty i k.
Proof.
  induction l as [|kv l IH]; intros i Hk; simpl; [done|].
  rewrite fmap_cons, not_elem_of_cons in Hk. destruct Hk as [Hne Hk].
  rewrite IH by done. by apply step_other.
Qed.

Lemma loop_at l k pv : ∀ i,
  NoDup l.*1 → (k, pv) ∈ l → guard i k = false →
  getProperty (foldl step i l) k = settled h i k pv.
Proof.
  induction l as [|kv l IH]; intros i Hnd Hin Hg; [by apply elem_of_nil in Hin|].
  rewrite fmap_cons in Hnd. apply NoDup_cons in Hnd as [Hfresh Hnd].
  apply elem_of_cons in Hin as [<-|Hin]; simpl.
  - rewrite loop_other by done. by apply (step_at i (k, pv)).
  - assert (k ≠ kv.1) as Hne.
    { intros ->. apply Hfresh. apply list_elem_of_fmap. by exists (kv.1, pv). }
    rewrite IH; [|done|done|].
    + apply settled_ext; [apply step_frame|by apply step_other].
    + rewrite <- Hg. apply guard_ext. apply step_frame.
Qed.
End loops.

(** ** Children *)

Lemma addChild_children instance children :
  Instance.GetChildren (foldl addChild instance children)
  = (Instance.GetChildren instance ++ children)%list.
Proof.
  revert instance. induction children as [|c cs IH]; intros i; simpl.
  - by rewrite app_nil_r.
  - rewrite IH. simpl. by rewrite <- app_assoc.
Qed.

Lemma addChild_frame instance children :
  Instance.ClassName (foldl addChild instance children) = Instance.ClassName instance ∧
  ∀ k, getProperty (foldl addChild instance children) k = getProperty instance k.
Proof.
  revert instance. induction children as [|c cs IH]; intros i; simpl; [done|].
  destruct (IH (addChild i c)) as [-> Hg]. split; [done|]. intros k. by rewrite Hg.
Qed.

Lemma mapM_result_Forall2 {A B} (f : A → result B) l k :
  mapM f l = Ok k ↔ Forall2 (λ x y, f x = Ok y) l k.
Proof.
  revert k. induction l as [|x l IH]; intros k; cbn [mapM].
  - split; [intros [= <-]; constructor|by inversion 1].
  - split.
    + destruct (f x) as [y|] eqn:Hx; [|done]. cbn.
      destruct (mapM f l) as [k'|] eqn:Hl; [|done]. cbn. intros [= <-].
      constructor; [done|]. by apply IH.
    + inversion 1 as [|? y ? k' Hx Hl]; subst. rewrite Hx. cbn.
      apply IH in Hl. rewrite Hl. done.
Qed.

Lemma bare_frame h data fresh :
  bare h data = Ok fresh →
  Instance.ClassName fresh = SerializedInstance.ClassName data ∧
  Instance.GetChildren fresh = [].
Proof.
  unfold bare, newInstance, CreateMeshPart.
  destruct (String.eqb (SerializedInstance.ClassName data) "Attachment") eqn:E1.
  { apply String.eqb_eq in E1. rewrite E1.
    destruct (defaults h "Attachment"); [|done]. by intros [= <-]. }
  destruct (String.eqb (SerializedInstance.ClassName data) "MeshPart") eqn:E2; simpl.
  - apply String.eqb_eq in E2. rewrite E2.
    destruct (truthy (SerializedInstance.MeshId data)).
    + destruct (CreateMeshPartAsync h _); simpl; [by intros [= <-]|].
      destruct (defaults h "MeshPart"); [|done]. by intros [= <-].
    + destruct (defaults h "MeshPart"); [|done]. by intros [= <-].
  - destruct (defaults h _); [|done]. by intros [= <-].
Qed.

Lemma rebuilt_unfold h data :
  rebuilt h data =
  (instance ← constructed h data;
   children ← mapM (rebuilt h) (SerializedInstance.Children data);
   Ok (foldl addChild
         (foldl (stepOne h) instance (map_to_list (SerializedInstance.Properties data)))
         children)).
Proof. by destruct data. Qed.

Lemma rebuilt_constructible h data :
  constructible h data = true → is_Ok (rebuilt h data) = true.
Proof.
  induction data as [c n p ch m IH] using SerializedInstance_tree_ind.
  rewrite rebuilt_unfold. cbn [constructible SerializedInstance.Children].
  rewrite andb_true_iff. intros [Hb Hch].
  unfold constructed. destruct (bare h _) as [fresh|]; [|done]. cbn.
  assert (is_Ok (mapM (rebuilt h) ch) = true) as Hm.
  { clear Hb. induction IH as [|d ch Hd _ IHch]; [done|].
    cbn in Hch. apply andb_true_iff in Hch as [H1 H2].
    cbn [mapM]. specialize (Hd H1). destruct (rebuilt h d); [|done]. cbn.
    specialize (IHch H2). by destruct (mapM (rebuilt h) ch). }
  by destruct (mapM (rebuilt h) ch).
Qed.

(** Construction is the only thing that can make [rebuilt] fail. *)
Lemma rebuilt_fails_only_on_construction h data :
  is_Ok (rebuilt h data) = constructible h data.
Proof.
  induction data as [c n p ch m IH] using SerializedInstance_tree_ind.
  rewrite rebuilt_unfold. cbn [constructible SerializedInstance.Children].
  unfold constructed. destruct (bare h _) as [fresh|]; [|done]. cbn.
  assert (is_Ok (mapM (rebuilt h) ch) = forallb (constructible h) ch) as Hm.
  { induction IH as [|d ch Hd _ IHch]; [done|].
    cbn [mapM forallb]. rewrite <- Hd, <- IHch.
    destruct (rebuilt h d); [|done]. cbn. by destruct (mapM (rebuilt h) ch). }
  rewrite <- Hm. by destruct (mapM (rebuilt h) ch).
Qed.

(** The instance [rebuilt] returns, attribute by attribute. *)
Lemma rebuilt_inv h data instance :
  rebuilt h data = Ok instance →
  ∃ fresh children,
    bare h data = Ok fresh ∧
    mapM (rebuilt h) (SerializedInstance.Children data) = Ok children ∧
    Instance.ClassName instance = SerializedInstance.ClassName data ∧
    Instance.GetChildren instance = children ∧
    (∀ k, skipsMeshId h fresh k = false →
       getProperty instance k =
       match SerializedInstance.Properties data !! k with
       | Some pv => settled h fresh k pv
       | None => getProperty fresh k
       end).
Proof.
  rewrite rebuilt_unfold. unfold constructed.
  destruct (bare h data) as [fresh|] eqn:Hb; [|done]. cbn.
  destruct (mapM (rebuilt h) _) as [children|] eqn:Hm; [|done]. cbn.
  intros [= <-]. exists fresh, children.
  destruct (bare_frame h data fresh Hb) as [Hc Hnil].
  set (props := map_to_list (SerializedInstance.Properties data)).
  set (first := if String.eqb _ _ then _ else _).
  assert (Instance.ClassName first = Instance.ClassName fresh ∧
          Instance.GetChildren first = Instance.GetChildren fresh) as [Hc1 Hch1].
  { subst first. destruct (String.eqb _ _); [|done].
    apply loop_frame. apply stepAttachment_frame. }
  destruct (loop_frame (stepOne h) (stepOne_frame h) props first) as [Hc2 Hch2].
  destruct (addChild_frame (foldl (stepOne h) first props) children) as [Hc3 Hg3].
  split; [done|]. split; [done|]. split; [congruence|].
  split; [rewrite addChild_children, Hch2, Hch1, Hnil; done|].
  intros k Hskip. rewrite Hg3.
  assert (NoDup props.*1) as Hnd by apply NoDup_fst_map_to_list.
  destruct (SerializedInstance.Properties data !! k) as [pv|] eqn:Hk.
  - assert ((k, pv) ∈ props) as Hin by by apply elem_of_map_to_list.
    rewrite (loop_at h (stepOne h) (skipsMeshId h) (stepOne_frame h) (stepOne_other h)
               (stepOne_at h) (skipsMeshId_ext h) props k pv first Hnd Hin).
    2: { rewrite <- Hskip. by apply skipsMeshId_ext. }
    subst first. destruct (String.eqb _ _); [|done].
    apply settled_idem.
    + symmetry. apply loop_frame. apply stepAttachment_frame.
    + apply (loop_at h (stepAttachment h) (λ _ _, false)); auto using
        stepAttachment_frame, stepAttachment_other, stepAttachment_at.
  - assert (k ∉ props.*1) as Hout.
    { intros Hin. apply list_elem_of_fmap in Hin as [[k' pv] [-> Hin]].
      apply elem_of_map_to_list in Hin. simpl in Hk. congruence. }
    rewrite (loop_other (stepOne h) (stepOne_other h)) by done.
    subst first. destruct (String.eqb _ _); [|done].
    by rewrite (loop_other (stepAttachment h) (stepAttachment_other h)).
Qed.

Lemma loop_skipped h l k : ∀ i,
  skipsMeshId h i k = true →
  getProperty (foldl (stepOne h) i l) k = getProperty i k.
Proof.
  induction l as [|kv l IH]; intros i Hs; simpl; [done|].
  rewrite IH.
  - by apply stepOne_skipped.
  - rewrite <- Hs. apply skipsMeshId_ext. apply stepOne_frame.
Qed.

Lemma rebuilt_skips h data instance fresh k :
  rebuilt h data = Ok instance →
  String.eqb (SerializedInstance.ClassName data) "Attachment" = false →
  bare h data = Ok fresh →
  skipsMeshId h fresh k = true →
  getProperty instance k = getProperty fresh k.
Proof.
  rewrite rebuilt_unfold. unfold constructed. intros Hr Hc Hb Hs.
  rewrite Hb, Hc in Hr. cbn in Hr.
  destruct (mapM (rebuilt h) _) as [children|]; [|done]. cbn in Hr.
  injection Hr as <-.
  destruct (addChild_frame
    (foldl (stepOne h) fresh (map_to_list (SerializedInstance.Properties data)))
    children) as [_ ->].
  by apply loop_skipped.
Qed.

Lemma deserializeInstance_unfold h data :
  deserializeInstance h data =
  (instance ← construct h data;
   instance ← forEach (setOneProperty h) instance
                (map_to_list (SerializedInstance.Properties data));
   forEach (λ instance childData,
       child ← deserializeInstance h childData; mret (addChild instance child))
     instance (SerializedInstance.Children data)).
Proof. by destruct data. Qed.

Lemma logged_elem w w' msg : logged w w' → msg ∈ warnings w → msg ∈ warnings w'.
Proof. intros [_ [l ->]] Hin. apply elem_of_app. by left. Qed.

(** A decode error inside the loop of lines 219-226 is reported. *)
Lemma skipsMeshId_other h instance k :
  k ≠ "MeshId" → skipsMeshId h instance k = false.
Proof.
  intros. unfold skipsMeshId. rewrite (String_eqb_false k "MeshId") by done.
  apply andb_false_r.
Qed.

(** ** Tree deserializer: failures stay with their attribute *)

(** The call fails exactly when the host cannot construct some node: no
    attribute has a say in it. *)
Lemma deserializeInstance_fails_only_on_construction h data w :
  is_Ok (deserializeInstance h data w).1 = constructible h data.
Proof.
  destruct (deserializeInstance_pure h data w) as (w' & -> & _).
  apply rebuilt_fails_only_on_construction.
Qed.

(** C6. Partial failure isolation: when the host can construct every node
    of a wire tree, [deserializeInstance] returns the constructed object
    and no error, whichever attributes fail.  Every attribute whose decode
    and write succeed reads back as the decoded value; every attribute
    whose decode or write fails is skipped and reads as it did on the
    fresh object; and the children are the deserialized children of the
    node, all of them, in order.  (The key MeshId of a MeshPart is not
    written at all, see C9.) *)
Theorem deserializeInstance_isolates_failures (h : Host)
    (data : SerializedInstance.t) (w : World) :
  constructible h data = true →
  ∃ instance fresh w',
    deserializeInstance h data w = (Ok instance, w') ∧
    bare h data = Ok fresh ∧
    Instance.ClassName instance = SerializedInstance.ClassName data ∧
    (∀ k pv v,
       SerializedInstance.Properties data !! k = Some pv →
       skipsMeshId h fresh k = false →
       deserializeProperty h pv = Ok v →
       is_Ok (setProperty h fresh k v) = true →
       getProperty instance k = Ok v) ∧
    (∀ k pv,
       SerializedInstance.Properties data !! k = Some pv →
       skipsMeshId h fresh k = false →
       is_Ok (decodeAndSet h fresh k pv) = false →
       getProperty instance k = getProperty fresh k) ∧
    Forall2 (λ childData child,
        ∀ w1, ∃ w2, deserializeInstance h childData w1 = (Ok child, w2))
      (SerializedInstance.Children data) (Instance.GetChildren instance).
Proof.
  intros Hc. apply rebuilt_constructible in Hc.
  destruct (rebuilt h data) as [instance|] eqn:Hr; [clear Hc|done].
  destruct (rebuilt_inv h data instance Hr)
    as (fresh & children & Hb & Hm & Hcls & Hch & Hget).
  destruct (deserializeInstance_pure h data w) as (w' & Hrun & _).
  exists instance, fresh, w'. rewrite Hrun, Hr.
  split; [done|]. split; [done|]. split; [done|]. split; [|split].
  - intros k pv v Hk Hs Hd Hw. rewrite (Hget k Hs), Hk.
    unfold settled. by rewrite Hd, Hw.
  - intros k pv Hk Hs Hf. rewrite (Hget k Hs), Hk.
    unfold settled. unfold decodeAndSet in Hf.
    destruct (deserializeProperty h pv) as [v|]; [|done]. cbn in Hf. by rewrite Hf.
  - rewrite Hch. apply mapM_result_Forall2 in Hm.
    eapply Forall2_impl; [exact Hm|]. intros d c Hd w1. cbn beta in Hd.
    destruct (deserializeInstance_pure h d w1) as (w2 & Hrun2 & _).
    exists w2. by rewrite Hrun2, Hd.
Qed.

Lemma deserializeInstance_isolates_failures_witness :
  constructible Demo.host DemoNodes.tenAttributes = true ∧
  ∃ instance w',
    deserializeInstance Demo.host DemoNodes.tenAttributes Demo.world
    = (Ok instance, w') ∧
    getProperty instance "Color" = Ok Demo.red ∧
    getProperty instance "Tag" = Ok (VString "spawn") ∧
    getProperty instance "CFrame" = Err "cannot read CFrame" ∧
    length (Instance.GetChildren instance) = 2.
Proof.
  split; [reflexivity|].
  destruct (deserializeInstance_isolates_failures Demo.host DemoNodes.tenAttributes
              Demo.world eq_refl)
    as (instance & fresh & w' & Hrun & Hb & _ & Hset & Hskip & Hch).
  exists instance, w'. split; [exact Hrun|].
  vm_compute in Hb. injection Hb as <-.
  split; [|split; [|split]].
  - apply (Hset "Color" (serializeProperty Demo.red)); reflexivity.
  - apply (Hset "Tag" (VString "spawn")); reflexivity.
  - rewrite (Hskip "CFrame" (object [("_type", VString "CFrame")])); reflexivity.
  - apply Forall2_length in Hch. rewrite <- Hch. reflexivity.
Defined.

(** ** Deserialization appends to the log *)

Lemma framed_lift {A} (r : result A) : framed (lift r).
Proof. exists r, []. intros [p l]. unfold lift. cbn. by rewrite app_nil_r. Qed.

Lemma framed_ret {A} (a : A) : framed (mret a : M A).
Proof. exact (framed_lift (Ok a)). Qed.

Lemma framed_warn (msg : string) : framed (warn msg).
Proof. by exists (Ok tt), [msg]. Qed.

Lemma framed_bind {A B} (m : M A) (f : A → M B) :
  framed m → (∀ a, framed (f a)) → framed (m ≫= f).
Proof.
  intros (r & l1 & Hm) Hf. destruct r as [a|e].
  - destruct (Hf a) as (r2 & l2 & Hfa). exists r2, (l1 ++ l2)%list.
    intros w. unfold mbind, M_bind. rewrite Hm, Hfa. cbn. by rewrite app_assoc.
  - exists (Err e), l1. intros w. unfold mbind, M_bind. by rewrite Hm.
Qed.

Lemma framed_try {A} (body : M A) (handler : string → M A) :
  framed body → (∀ e, framed (handler e)) → framed (try body handler).
Proof.
  intros (r & l1 & Hm) Hf. destruct r as [a|e].
  - exists (Ok a), l1. intros w. unfold try. by rewrite Hm.
  - destruct (Hf e) as (r2 & l2 & Hfe). exists r2, (l1 ++ l2)%list.
    intros w. unfold try. rewrite Hm, Hfe. cbn. by rewrite app_assoc.
Qed.

Lemma framed_forEach {A B} (body : B → A → M B) (l : list A) :
  Forall (λ x, ∀ acc, framed (body acc x)) l →
  ∀ acc, framed (forEach body acc l).
Proof.
  induction 1 as [|x l Hx _ IH]; intros acc; cbn [forEach].
  - apply framed_ret.
  - apply framed_bind; [apply Hx|]. intros acc'. apply IH.
Qed.

Lemma framed_setAttachmentProperty h instance kv :
  framed (setAttachmentProperty h instance kv).
Proof.
  destruct kv as [k pv]. unfold setAttachmentProperty. apply framed_try.
  - apply framed_bind; [apply framed_lift|]. intros v. apply framed_lift.
  - intros e. apply framed_bind; [apply framed_warn|]. intros _. apply framed_ret.
Qed.

Lemma framed_setOneProperty h instance kv : framed (setOneProperty h instance kv).
Proof.
  destruct kv as [k pv]. unfold setOneProperty.
  destruct (IsA h instance "MeshPart" && String.eqb k "MeshId"); [apply framed_ret|].
  apply framed_try.
  - apply framed_bind; [apply framed_lift|]. intros v. apply framed_lift.
  - intros e. apply framed_bind; [apply framed_warn|]. intros _. apply framed_ret.
Qed.

Lemma framed_construct h data : framed (construct h data).
Proof.
  unfold construct.
  destruct (String.eqb (SerializedInstance.ClassName data) "Attachment").
  - apply framed_bind; [apply framed_lift|]. intros instance.
    apply framed_forEach, Forall_forall. intros kv _ acc.
    apply framed_setAttachmentProperty.
  - destruct (String.eqb (SerializedInstance.ClassName data) "MeshPart"
              && truthy (SerializedInstance.MeshId data)).
    + apply framed_try.
      * apply framed_bind; [apply framed_lift|]. intros instance. apply framed_ret.
      * intros e. apply framed_bind; [apply framed_warn|]. intros _.
        apply framed_bind; [apply framed_lift|]. intros instance. apply framed_ret.
    + apply framed_bind; [apply framed_lift|]. intros instance. apply framed_ret.
Qed.

Lemma framed_deserializeInstance h data : framed (deserializeInstance h data).
Proof.
  induction data as [c n ps children m IH] using SerializedInstance_tree_ind.
  rewrite deserializeInstance_unfold.
  apply framed_bind; [apply framed_construct|]. intros instance.
  apply framed_bind.
  - apply framed_forEach, Forall_forall. intros kv _ acc. apply framed_setOneProperty.
  - intros instance'. apply framed_forEach.
    cbn [SerializedInstance.Children].
    apply (Forall_impl _ _ _ IH). intros child Hchild acc.
    apply framed_bind; [exact Hchild|]. intros built. apply framed_ret.
Qed.

Lemma bare_name h data fresh :
  bare h data = Ok fresh → Instance.Name fresh = SerializedInstance.Name data.
Proof.
  unfold bare, newInstance, CreateMeshPart.
  destruct (String.eqb (SerializedInstance.ClassName data) "Attachment").
  { destruct (defaults h "Attachment"); [|done]. cbn. by intros [= <-]. }
  destruct (String.eqb (SerializedInstance.ClassName data) "MeshPart"
            && truthy (SerializedInstance.MeshId data)).
  - destruct (CreateMeshPartAsync h _); cbn; [by intros [= <-]|].
    destruct (defaults h _); [|done]. cbn. by intros [= <-].
  - destruct (defaults h _); [|done]. cbn. by intros [= <-].
Qed.

(** ** Unresolved enum items *)

Lemma unresolvedEnum_decode h pv :
  unresolvedEnum h pv = true →
  ∃ e, deserializeProperty h pv = Err e.
Proof.
  destruct pv as [| | | | | | | | | | | | | | | | | | | | |hash arr]; try done.
  unfold unresolvedEnum. rewrite andb_true_iff, negb_true_iff. intros [Ht He].
  apply equalsString_true in Ht. unfold deserializeProperty. rewrite Ht. cbn.
  destruct (EnumIndex h _ _) as [|e]; [done|]. by exists e.
Qed.

(** C3, as stated, fails: the node below carries an EnumItem whose member
    the host does not have, and both [deserializeInstance] and [fromJSON]
    return an object instead of aborting. *)
Lemma unresolved_enum_does_not_abort :
  (∃ pv, SerializedInstance.Properties DemoNodes.staleEnum !! "Material" = Some pv ∧
         unresolvedEnum DemoNodes.decodingHost pv = true) ∧
  is_Ok (deserializeInstance DemoNodes.decodingHost DemoNodes.staleEnum Demo.world).1
  = true ∧
  is_Ok (fromJSON DemoNodes.decodingHost "{}" Demo.world).1 = true.
Proof.
  split; [|split]; [|reflexivity|reflexivity].
  eexists. split; [reflexivity|reflexivity].
Qed.

Lemma Name_getProperty instance instance' :
  getProperty instance "Name" = getProperty instance' "Name" →
  Instance.Name instance = Instance.Name instance'.
Proof. unfold getProperty. cbn. by intros [= ->]. Qed.

(** The name under which a failing write is reported is the name the
    object has then: the one it had before the loop, or, when a [Name]
    attribute has been written by then, the one it has after the loop. *)
Lemma setOneProperty_reports_named h l k pv e : ∀ i w i' w',
  NoDup l.*1 →
  forEach (setOneProperty h) i l w = (Ok i', w') →
  (k, pv) ∈ l → skipsMeshId h i k = false →
  deserializeProperty h pv = Err e →
  ∃ name, (name = Instance.Name i ∨ name = Instance.Name i') ∧
          ("Failed to set property " ++ k ++ " on " ++ name ++ ": " ++ e)
          ∈ warnings w'.
Proof.
  induction l as [|kv l IH]; intros i w i' w' Hnd Hrun Hin Hs He;
    [by apply elem_of_nil in Hin|].
  rewrite fmap_cons in Hnd. apply NoDup_cons in Hnd as [Hfresh Hnd].
  cbn [forEach] in Hrun. unfold mbind at 1, M_bind at 1 in Hrun.
  destruct (setOneProperty_pure h i kv w) as (w1 & Hstep & Hw1).
  rewrite Hstep in Hrun.
  destruct (forEach_pure (setOneProperty h) (stepOne h) l (setOneProperty_pure h)
              (stepOne h i kv) w1) as (w2 & Hrest & Hw2).
  apply elem_of_cons in Hin as [<-|Hin].
  - exists (Instance.Name i). split; [by left|].
    rewrite Hrest in Hrun. injection Hrun as _ <-.
    apply (logged_elem w1 w2); [done|].
    unfold setOneProperty in Hstep. unfold skipsMeshId in Hs. rewrite Hs in Hstep.
    unfold try, lift, mbind, M_bind, result_bind, mret, M_ret, warn in Hstep.
    rewrite He in Hstep. simpl in Hstep. injection Hstep as _ <-. simpl.
    apply elem_of_app. right. by apply list_elem_of_singleton.
  - destruct (IH (stepOne h i kv) w1 i' w' Hnd Hrun Hin) as (name & Hname & Hmsg);
      [|done|].
    { rewrite <- Hs. apply skipsMeshId_ext. apply stepOne_frame. }
    exists name. split; [|done].
    rewrite Hrest in Hrun. injection Hrun as <- _.
    destruct Hname as [-> | ->]; [|by right].
    destruct (decide (kv.1 = "Name")) as [Hkv|Hkv].
    + right. apply Name_getProperty. symmetry.
      apply (loop_other (stepOne h) (stepOne_other h)). by rewrite <- Hkv.
    + left. apply Name_getProperty. apply stepOne_other. congruence.
Qed.

Lemma constructed_Name h data fresh first :
  bare h data = Ok fresh → constructed h data = Ok first →
  Instance.Name first = SerializedInstance.Name data ∨
  Instance.Name first
  = Instance.Name (foldl (stepOne h) first
                     (map_to_list (SerializedInstance.Properties data))).
Proof.
  intros Hbare Hfirst. unfold constructed in Hfirst. rewrite Hbare in Hfirst.
  cbn in Hfirst. injection Hfirst as Hfirst.
  set (props := map_to_list (SerializedInstance.Properties data)) in *.
  pose proof (bare_name h data fresh Hbare) as Hname.
  destruct (String.eqb (SerializedInstance.ClassName data) "Attachment");
    [|left; by rewrite <- Hfirst].
  assert (NoDup props.*1) as Hnd by apply NoDup_fst_map_to_list.
  destruct (SerializedInstance.Properties data !! "Name") as [pv|] eqn:Hk.
  - right. apply Name_getProperty.
    assert (("Name", pv) ∈ props) as Hin by by apply elem_of_map_to_list.
    assert (getProperty first "Name" = settled h fresh "Name" pv) as Hgot.
    { rewrite <- Hfirst.
      apply (loop_at h (stepAttachment h) (λ _ _, false)); auto using
        stepAttachment_frame, stepAttachment_other, stepAttachment_at. }
    assert (Instance.ClassName first = Instance.ClassName fresh) as Hclass.
    { rewrite <- Hfirst. apply loop_frame. apply stepAttachment_frame. }
    rewrite (loop_at h (stepOne h) (skipsMeshId h) (stepOne_frame h) (stepOne_other h)
               (stepOne_at h) (skipsMeshId_ext h) props "Name" pv first Hnd Hin).
    + rewrite Hgot. symmetry. apply settled_idem; [by symmetry|done].
    + by apply skipsMeshId_other.
  - left. rewrite <- Hname. apply Name_getProperty. rewrite <- Hfirst.
    apply (loop_other (stepAttachment h) (stepAttachment_other h)).
    intros Hin. apply list_elem_of_fmap in Hin as [[k' pv] [Hk' Hin]].
    apply elem_of_map_to_list in Hin. simpl in Hk'. congruence.
Qed.

Lemma children_loop_runs h : ∀ children i c acc w acc' w',
  forEach (λ instance childData,
      child ← deserializeInstance h childData; mret (addChild instance child))
    acc children w = (Ok acc', w') →
  children !! i = Some c →
  ∃ w1 child w2, deserializeInstance h c w1 = (Ok child, w2) ∧ logged w2 w'.
Proof.
  induction children as [|c0 children IH]; intros i c acc w acc' w' Hrun Hi; [done|].
  cbn [forEach] in Hrun. unfold mbind at 1, M_bind at 1 in Hrun.
  unfold mbind at 1, M_bind at 1 in Hrun.
  destruct (deserializeInstance h c0 w) as [[child|e] w1] eqn:Hc0; [|done].
  cbn [mret M_ret] in Hrun.
  destruct i as [|i]; cbn in Hi.
  - injection Hi as <-. exists w, child, w1. split; [done|].
    assert (Forall (λ d, ∀ w, ∃ w', deserializeInstance h d w = (rebuilt h d, w')
                                   ∧ logged w w') children) as Hall.
    { apply Forall_forall. intros d _. apply deserializeInstance_pure. }
    destruct (attachChildren_pure h children Hall (addChild acc child) w1)
      as (w3 & Hkids & Hw3).
    rewrite Hkids in Hrun. by injection Hrun as _ <-.
  - by apply (IH i c (addChild acc child) w1 acc' w').
Qed.

(** What a nested call reports is in the log of the whole call. *)
Lemma nested_warning h msg : ∀ path data n w instance w',
  deserializeInstance h data w = (Ok instance, w') →
  nodeAt data path = Some n →
  (∀ w1 d w2, deserializeInstance h n w1 = (Ok d, w2) → msg ∈ warnings w2) →
  msg ∈ warnings w'.
Proof.
  induction path as [|i path IH]; intros data n w instance w' Hrun Hn Hmsg; cbn in Hn.
  { injection Hn as <-. by apply (Hmsg w instance w'). }
  destruct (SerializedInstance.Children data !! i) as [c|] eqn:Hi; [|done].
  rewrite deserializeInstance_unfold in Hrun. unfold mbind at 1, M_bind at 1 in Hrun.
  destruct (construct h data w) as [[first|e] w1]; [|done].
  unfold mbind at 1, M_bind at 1 in Hrun.
  destruct (forEach (setOneProperty h) first _ w1) as [[final|e] w2]; [|done].
  destruct (children_loop_runs h _ i c final w2 instance w' Hrun Hi)
    as (w3 & child & w4 & Hchild & Hlog).
  apply (logged_elem w4 w'); [done|]. by apply (IH c n w3 child w4).
Qed.

Lemma rebuilt_childAt h : ∀ path data n instance,
  rebuilt h data = Ok instance → nodeAt data path = Some n →
  ∃ d, childAt instance path = Some d ∧ rebuilt h n = Ok d.
Proof.
  induction path as [|i path IH]; intros data n instance Hr Hn; cbn in Hn.
  { injection Hn as <-. by exists instance. }
  destruct (SerializedInstance.Children data !! i) as [c|] eqn:Hi; [|done].
  destruct (rebuilt_inv h data instance Hr) as (_ & children & _ & Hm & _ & Hch & _).
  apply mapM_result_Forall2 in Hm.
  destruct (Forall2_lookup_l _ _ _ _ _ Hm Hi) as (child & Hchild & Hrc).
  destruct (IH c n child Hrc Hn) as (d & Hd & Hdn).
  exists d. split; [|done]. cbn. by rewrite Hch, Hchild.
Qed.

Lemma constructible_nodeAt h : ∀ path data n,
  constructible h data = true → nodeAt data path = Some n → constructible h n = true.
Proof.
  induction path as [|i path IH]; intros data n Hc Hn; cbn in Hn.
  { by injection Hn as <-. }
  destruct (SerializedInstance.Children data !! i) as [c|] eqn:Hi; [|done].
  apply (IH c n); [|done]. destruct data as [cl nm ps children m].
  cbn [constructible SerializedInstance.Children] in Hc, Hi.
  apply andb_true_iff in Hc as [_ Hc].
  apply (proj1 (forallb_forall _ _) Hc). apply list_elem_of_In.
  by apply list_elem_of_lookup_2 in Hi.
Qed.

(** What the call for one node reports about an attribute that fails to
    decode. *)
Lemma node_reports h n fresh k pv e :
  bare h n = Ok fresh →
  SerializedInstance.Properties n !! k = Some pv →
  skipsMeshId h fresh k = false →
  deserializeProperty h pv = Err e →
  ∀ w d w', deserializeInstance h n w = (Ok d, w') →
  ∃ name, (name = SerializedInstance.Name n ∨ name = Instance.Name d) ∧
          ("Failed to set property " ++ k ++ " on " ++ name ++ ": " ++ e)
          ∈ warnings w'.
Proof.
  intros Hbare Hk Hskip He w d w' Hrun.
  set (props := map_to_list (SerializedInstance.Properties n)).
  rewrite deserializeInstance_unfold in Hrun. unfold mbind at 1, M_bind at 1 in Hrun.
  destruct (construct_pure h n w) as (w1 & Hcon & _). rewrite Hcon in Hrun.
  destruct (constructed h n) as [first|] eqn:Hfirst; [|done].
  unfold mbind at 1, M_bind at 1 in Hrun.
  destruct (forEach_pure (setOneProperty h) (stepOne h) props
              (setOneProperty_pure h) first w1) as (w2 & Hloop & _).
  fold props in Hrun. rewrite Hloop in Hrun.
  assert (Forall (λ c, ∀ w, ∃ w', deserializeInstance h c w = (rebuilt h c, w')
                                 ∧ logged w w') (SerializedInstance.Children n))
    as Hall.
  { apply Forall_forall. intros c _. apply deserializeInstance_pure. }
  destruct (attachChildren_pure h _ Hall (foldl (stepOne h) first props) w2)
    as (w3 & Hkids & Hw3).
  rewrite Hkids in Hrun.
  destruct (mapM (rebuilt h) (SerializedInstance.Children n)) as [built|]; [|done].
  cbn in Hrun. injection Hrun as <- <-.
  assert (Instance.ClassName first = Instance.ClassName fresh) as Hclass.
  { unfold constructed in Hfirst. rewrite Hbare in Hfirst. cbn in Hfirst.
    injection Hfirst as <-. destruct (String.eqb _ "Attachment"); [|done].
    apply loop_frame. apply stepAttachment_frame. }
  destruct (setOneProperty_reports_named h props k pv e first w1 _ w2
              (NoDup_fst_map_to_list _) Hloop) as (name & Hname & Hmsg);
    [by apply elem_of_map_to_list|by rewrite (skipsMeshId_ext h first fresh)|done|].
  assert (Instance.Name (foldl addChild (foldl (stepOne h) first props) built)
          = Instance.Name (foldl (stepOne h) first props)) as Hfinal.
  { apply Name_getProperty. apply addChild_frame. }
  exists name. split; [|by apply (logged_elem w2 w3)].
  rewrite Hfinal. destruct Hname as [-> | ->]; [|by right].
  apply (constructed_Name h n fresh first Hbare Hfirst).
Qed.

(** C3, amended.  An EnumItem whose enum type or member the host does not
    have makes [deserializeProperty] raise the lookup error to its caller;
    the caller, [deserializeInstance], catches it as the failure of that
    one attribute, at whatever depth of the tree the node is: it reports
    it with [warn] (the attribute, the name of the object, the cause),
    leaves the attribute as it was on the fresh object, and the top-level
    call returns the tree; so does [fromJSON].  The name reported is the
    one the object has then: the name of the node, or the name the object
    ends with when a [Name] attribute of the node has been written before.
    (The host must be able to construct the nodes, and the attribute is
    not the MeshId of a MeshPart, which line 220 skips.) *)
Theorem unresolved_enum_is_attribute_scoped (h : Host)
    (data n : SerializedInstance.t) (path : list nat) (fresh : Instance.t)
    (k : string) (pv : unknown) :
  constructible h data = true →
  nodeAt data path = Some n →
  bare h n = Ok fresh →
  SerializedInstance.Properties n !! k = Some pv →
  unresolvedEnum h pv = true →
  skipsMeshId h fresh k = false →
  ∃ e instance d lines name,
    deserializeProperty h pv = Err e ∧
    (∀ w, deserializeInstance h data w
          = (Ok instance, mkWorld (properties w) (warnings w ++ lines))) ∧
    (∀ w json, JSONDecode h json = Ok data →
       fromJSON h json w
       = (Ok instance, mkWorld (properties w) (warnings w ++ lines))) ∧
    childAt instance path = Some d ∧
    getProperty d k = getProperty fresh k ∧
    (name = SerializedInstance.Name n ∨ name = Instance.Name d) ∧
    ("Failed to set property " ++ k ++ " on " ++ name ++ ": " ++ e) ∈ lines.
Proof.
  intros Hc Hn Hbare Hk Hu Hskip.
  pose proof (constructible_nodeAt h path data n Hc Hn) as Hcn.
  apply rebuilt_constructible in Hc, Hcn.
  destruct (rebuilt h data) as [instance|] eqn:Hr; [clear Hc|done].
  destruct (rebuilt_childAt h path data n instance Hr Hn) as (d & Hd & Hdn).
  destruct (rebuilt_inv h n d Hdn) as (fresh' & _ & Hb & _ & _ & _ & Hget).
  rewrite Hbare in Hb. injection Hb as <-.
  destruct (unresolvedEnum_decode h pv Hu) as [e He].
  destruct (framed_deserializeInstance h data) as (r & lines & Hrun).
  destruct (framed_deserializeInstance h n) as (rn & linesn & Hrunn).
  set (w0 := mkWorld None []).
  assert (r = Ok instance) as ->.
  { destruct (deserializeInstance_pure h data w0) as (w' & Hpure & _).
    rewrite Hrun, Hr in Hpure. by injection Hpure. }
  assert (rn = Ok d) as ->.
  { destruct (deserializeInstance_pure h n w0) as (w' & Hpure & _).
    rewrite Hrunn, Hdn in Hpure. by injection Hpure. }
  destruct (node_reports h n fresh k pv e Hbare Hk Hskip He w0 d _ (Hrunn w0))
    as (name & Hname & Hmsg).
  cbn in Hmsg.
  exists e, instance, d, lines, name.
  split; [done|]. split; [done|]. split.
  { intros w json Hjson. unfold fromJSON, lift, mbind, M_bind.
    by rewrite Hjson, Hrun. }
  split; [done|]. split.
  { rewrite (Hget k Hskip), Hk. unfold settled. by rewrite He. }
  split; [done|].
  match goal with
  | |- ?msg ∈ lines =>
      change (msg ∈ warnings (mkWorld (properties w0) (warnings w0 ++ lines)));
      apply (nested_warning h msg path data n w0 instance _ (Hrun w0) Hn)
  end.
  intros w1 d' w2 Hrun'.
  rewrite Hrunn in Hrun'. injection Hrun' as _ <-. cbn.
  apply elem_of_app. by right.
Qed.

Lemma unresolved_enum_is_attribute_scoped_witness :
  constructible Demo.host DemoStale.crate = true ∧
  ∃ n instance d lines,
    nodeAt DemoStale.crate [0] = Some n ∧
    SerializedInstance.Name n = "Lid" ∧
    (∀ w, deserializeInstance Demo.host DemoStale.crate w
          = (Ok instance, mkWorld (properties w) (warnings w ++ lines))) ∧
    childAt instance [0] = Some d ∧
    getProperty d "Material" = Err "cannot read Material" ∧
    ("Failed to set property Material on Lid: "
       ++ "Adamantium is not a valid member of Enum.Material") ∈ lines.
Proof.
  split; [reflexivity|].
  destruct (unresolved_enum_is_attribute_scoped Demo.host DemoStale.crate
              (DemoNodes.leaf "Part" "Lid"
                 [("Material", object [("_type", VString "EnumItem");
                                       ("EnumType", VString "Material");
                                       ("Name", VString "Adamantium")]);
                  ("Anchored", VBoolean true)])
              [0] (Instance.mk "Part" "Lid" true ∅ []) "Material"
              (object [("_type", VString "EnumItem"); ("EnumType", VString "Material");
                       ("Name", VString "Adamantium")])
              eq_refl eq_refl eq_refl eq_refl eq_refl eq_refl)
    as (e & instance & d & lines & name & He & Hrun & _ & Hd & Hget & Hname & Hmsg).
  eexists _, instance, d, lines. split; [reflexivity|]. split; [reflexivity|].
  split; [exact Hrun|]. split; [exact Hd|]. split; [by rewrite Hget|].
  vm_compute in He. injection He as <-.
  assert (name = "Lid") as ->; [|exact Hmsg].
  destruct Hname as [->| ->]; [reflexivity|].
  pose proof (Hrun Demo.world) as Hrun0. vm_compute in Hrun0.
  injection Hrun0 as <- _. vm_compute in Hd. by injection Hd as <-.
Defined.

(** ** Mesh-backed nodes *)

(** C9, as stated, fails for a mesh reference that is present but empty:
    the importer is not consulted.  With a host whose importer rejects the
    empty identity no failure is reported; with a host whose importer
    would accept it the object is still the generic one. *)
Lemma empty_mesh_reference_is_not_imported :
  SerializedInstance.ClassName (DemoNodes.mesh "") = "MeshPart" ∧
  SerializedInstance.MeshId (DemoNodes.mesh "") = Some "" ∧
  (is_Ok (CreateMeshPart Demo.host "") = false ∧
   ∃ instance w',
     deserializeInstance Demo.host (DemoNodes.mesh "") Demo.world = (Ok instance, w') ∧
     warnings w' = []) ∧
  (∃ imported instance w',
     CreateMeshPart DemoNodes.importingHost "" = Ok imported ∧
     getProperty imported "Imported" = Ok (VBoolean true) ∧
     deserializeInstance DemoNodes.importingHost (DemoNodes.mesh "") Demo.world
     = (Ok instance, w') ∧
     getProperty instance "Imported" = Err "cannot read Imported").
Proof.
  split; [reflexivity|]. split; [reflexivity|]. split.
  - split; [reflexivity|]. eexists _, _. split; [vm_compute; reflexivity|reflexivity].
  - eexists _, _, _. split; [reflexivity|]. split; [reflexivity|].
    split; [vm_compute; reflexivity|reflexivity].
Qed.

(** C9, amended.  For a node of class MeshPart whose MeshId is present and
    not empty: construction goes to the importer first; when the importer
    succeeds the object is the imported one, renamed; when it fails the
    failure is reported with [warn] and the object is constructed
    generically by class name; the key MeshId of [Properties] is never
    written, so the object keeps the MeshId it was constructed with; and
    the call returns an object whenever the host can construct the nodes
    of the tree. *)
Theorem meshPart_import_or_fallback (h : Host) (data : SerializedInstance.t)
    (w : World) (id : string) :
  SerializedInstance.ClassName data = "MeshPart" →
  SerializedInstance.MeshId data = Some id →
  id ≠ "" →
  (∀ imported, CreateMeshPart h id = Ok imported →
     construct h data w = (Ok (setName imported (SerializedInstance.Name data)), w)) ∧
  (∀ e, CreateMeshPart h id = Err e →
     construct h data w
     = (generic ← newInstance h "MeshPart";
        Ok (setName generic (SerializedInstance.Name data)),
        mkWorld (properties w) (warnings w ++ ["Failed to create MeshPart: " ++ e]))) ∧
  (∀ first w1 instance w',
     construct h data w = (Ok first, w1) →
     deserializeInstance h data w = (Ok instance, w') →
     getProperty instance "MeshId" = getProperty first "MeshId") ∧
  (constructible h data = true →
   ∃ instance w', deserializeInstance h data w = (Ok instance, w')).
Proof.
  intros Hc Hm Hid.
  assert (truthy (SerializedInstance.MeshId data) = true) as Ht.
  { rewrite Hm. simpl. by rewrite (String_eqb_false id "") by done. }
  split; [|split; [|split]].
  - intros imported Hi. unfold construct. rewrite Hc, Hm. simpl.
    rewrite (String_eqb_false id "") by done. simpl.
    unfold try, lift, mbind, M_bind, mret, M_ret. by rewrite Hi.
  - intros e He. unfold construct. rewrite Hc, Hm. simpl.
    rewrite (String_eqb_false id "") by done. simpl.
    unfold try, lift, mbind, M_bind, mret, M_ret, warn. rewrite He. simpl.
    by destruct (newInstance h "MeshPart").
  - intros first w1 instance w' Hcon Hrun.
    destruct (construct_pure h data w) as (w1' & Hcon' & _).
    rewrite Hcon in Hcon'. injection Hcon' as Hfirst _.
    destruct (deserializeInstance_pure h data w) as (w2 & Hrun' & _).
    rewrite Hrun in Hrun'. injection Hrun' as Hr _. symmetry in Hr, Hfirst.
    unfold constructed in Hfirst. rewrite Hc in Hfirst.
    destruct (bare h data) as [fresh|] eqn:Hb; [|done].
    simpl in Hfirst. injection Hfirst as <-.
    apply (rebuilt_skips h data instance fresh "MeshId" Hr); [by rewrite Hc|done|].
    destruct (bare_frame h data fresh Hb) as [Hcls _].
    unfold skipsMeshId, IsA. by rewrite Hcls, Hc.
  - intros Hok. apply rebuilt_constructible in Hok.
    destruct (deserializeInstance_pure h data w) as (w' & Hrun & _).
    destruct (rebuilt h data) as [instance|]; [|done]. by exists instance, w'.
Qed.

Lemma meshPart_import_or_fallback_witness :
  (∃ first instance w',
     construct Demo.host (DemoNodes.mesh "rbxassetid://123") Demo.world
     = (Ok first, Demo.world) ∧
     deserializeInstance Demo.host (DemoNodes.mesh "rbxassetid://123") Demo.world
     = (Ok instance, w') ∧
     getProperty instance "MeshId" = Ok (VString "rbxassetid://123")) ∧
  (∃ first,
     construct Demo.host (DemoNodes.mesh "rbxassetid://404") Demo.world
     = (Ok first, mkWorld None ["Failed to create MeshPart: failed to load the mesh"])).
Proof.
  split.
  - destruct (meshPart_import_or_fallback Demo.host (DemoNodes.mesh "rbxassetid://123")
                Demo.world "rbxassetid://123" eq_refl eq_refl)
      as (Himp & _ & Hskip & Hok); [discriminate|].
    destruct (Hok eq_refl) as (instance & w' & Hrun).
    eexists _, instance, w'. split; [apply Himp; reflexivity|]. split; [exact Hrun|].
    rewrite (Hskip _ _ _ _ (Himp _ eq_refl) Hrun). reflexivity.
  - destruct (meshPart_import_or_fallback Demo.host (DemoNodes.mesh "rbxassetid://404")
                Demo.world "rbxassetid://404" eq_refl eq_refl)
      as (_ & Hfall & _); [discriminate|].
    eexists. rewrite (Hfall _ eq_refl). reflexivity.
Defined.

(** ** Luau tables *)

Lemma lookup_tableSet k pv (t : gmap string unknown) k' :
  tableSet k pv t !! k' = if decide (k = k') then stored pv else t !! k'.
Proof.
  unfold tableSet, stored. destruct (decide (k = k')) as [<-|Hne].
  - destruct pv; by rewrite ?lookup_insert_eq, ?lookup_delete_eq.
  - destruct pv; by rewrite ?lookup_insert_ne, ?lookup_delete_ne.
Qed.

Lemma lookup_assign_list (l : list (string * unknown)) k : ∀ t : gmap string unknown,
  NoDup l.*1 →
  foldl (λ acc kv, tableSet kv.1 kv.2 acc) t l !! k =
  match (list_to_map l : gmap string unknown) !! k with
  | Some pv => stored pv
  | None => t !! k
  end.
Proof.
  induction l as [|[k0 pv0] l IH]; intros t Hnd; simpl; [done|].
  rewrite fmap_cons in Hnd. apply NoDup_cons in Hnd as [Hfresh Hnd].
  rewrite IH by done. destruct (decide (k0 = k)) as [<-|Hne].
  - rewrite lookup_insert_eq.
    rewrite (not_elem_of_list_to_map_1 (M:=gmap string)) by done.
    rewrite lookup_tableSet. by rewrite decide_True.
  - rewrite lookup_insert_ne by done.
    destruct (list_to_map l !! k); [done|].
    rewrite lookup_tableSet. by rewrite decide_False.
Qed.

Lemma lookup_assignAll (p t : gmap string unknown) k :
  assignAll p t !! k =
  match p !! k with
  | Some pv => stored pv
  | None => t !! k
  end.
Proof.
  unfold assignAll. rewrite lookup_assign_list by apply NoDup_fst_map_to_list.
  by rewrite list_to_map_to_list.
Qed.

Lemma assignAll_twice (p : gmap string unknown) :
  assignAll p (assignAll p ∅) = assignAll p ∅.
Proof.
  apply map_eq. intros k. rewrite !lookup_assignAll. by destruct (p !! k).
Qed.

(** ** The catalog is fetched once *)

Lemma getInstanceProperties_run h instance w :
  getInstanceProperties h instance w =
  match catalogOf h w with
  | Ok classes => (Ok (discover h classes instance),
                   mkWorld (Some classes) (warnings w))
  | Err e => (Err e, w)
  end.
Proof.
  unfold getInstanceProperties, fetchProperties, catalogOf, mbind, M_bind, mret, M_ret.
  destruct w as [[cached|] log]; simpl; [done|]. by destruct (apiDump h).
Qed.

Lemma forEach_ext {A B} (body1 body2 : B → A → M B) l :
  Forall (λ x, ∀ acc w, body1 acc x w = body2 acc x w) l →
  ∀ acc w, forEach body1 acc l w = forEach body2 acc l w.
Proof.
  induction 1 as [|x l Hx _ IH]; intros acc w; simpl; [done|].
  unfold mbind, M_bind. rewrite Hx. destruct (body2 acc x w) as [[acc'|e] w']; [|done].
  apply IH.
Qed.

Lemma M_bind_ext {A B} (m : M A) (f g : A → M B) w :
  (∀ a w', f a w' = g a w') → (m ≫= f) w = (m ≫= g) w.
Proof. intros H. unfold mbind, M_bind. by destruct (m w) as [[a|e] w']. Qed.

Lemma serializeInstance_unfold h instance :
  serializeInstance h instance =
  (MeshId ← (if IsA h instance "MeshPart"
             then id ← lift (readMeshId instance); mret (Some id)
             else mret None);
   Properties ← (if IsA h instance "Attachment"
                 then properties ← getInstanceProperties h instance;
                      mret (assignAll properties ∅)
                 else mret ∅);
   properties ← getInstanceProperties h instance;
   let Properties := assignAll properties Properties in
   Children ← forEach (serializeChild (serializeInstance h)) []
                (Instance.GetChildren instance);
   mret (SerializedInstance.mk (Instance.ClassName instance) (Instance.Name instance)
           Properties Children MeshId)).
Proof. by destruct instance. Qed.

Lemma serializeInstance_once_unfold h instance :
  serializeInstance_once h instance =
  (MeshId ← (if IsA h instance "MeshPart"
             then id ← lift (readMeshId instance); mret (Some id)
             else mret None);
   properties ← getInstanceProperties h instance;
   let Properties := assignAll properties ∅ in
   Children ← forEach (serializeChild (serializeInstance_once h)) []
                (Instance.GetChildren instance);
   mret (SerializedInstance.mk (Instance.ClassName instance) (Instance.Name instance)
           Properties Children MeshId)).
Proof. by destruct instance. Qed.

(** ** One discovery pass is enough *)

(** Discovering twice in a row finds what discovering once finds. *)
Lemma getInstanceProperties_twice {C} h instance
    (F : gmap string unknown → gmap string unknown)
    (K : gmap string unknown → gmap string unknown → M C) w :
  (Properties ← (properties ← getInstanceProperties h instance; mret (F properties));
   properties ← getInstanceProperties h instance; K properties Properties) w
  = (properties ← getInstanceProperties h instance; K properties (F properties)) w.
Proof.
  unfold mbind, M_bind, mret, M_ret. rewrite getInstanceProperties_run.
  destruct (catalogOf h w) as [classes|e]; [|done].
  by rewrite getInstanceProperties_run.
Qed.

(** C10. The node [serializeInstance] produces is the node produced by
    exactly one discovery-and-encode pass per node: the extra pass for
    Attachment objects writes the same pairs as the general pass and leaves
    [Properties], the result and the cache as they are.  This holds for
    every host, every object and every state of the cache, failures
    included. *)
Theorem serializeInstance_single_pass (h : Host) (instance : Instance.t) (w : World) :
  serializeInstance h instance w = serializeInstance_once h instance w.
Proof.
  revert w. induction instance as [c n a b ch IH] using Instance_tree_ind. intros w.
  rewrite serializeInstance_unfold, serializeInstance_once_unfold.
  set (instance := Instance.mk c n a b ch).
  assert (∀ acc w1,
    forEach (serializeChild (serializeInstance h)) acc ch w1 =
    forEach (serializeChild (serializeInstance_once h)) acc ch w1) as Hkids.
  { apply forEach_ext. eapply Forall_impl; [exact IH|].
    intros child Hchild acc w2. unfold serializeChild.
    destruct (Instance.Archivable child); [|done].
    unfold mbind, M_bind. by rewrite Hchild. }
  apply M_bind_ext. intros MeshId w0.
  destruct (IsA h instance "Attachment").
  - rewrite (getInstanceProperties_twice h instance (λ p, assignAll p ∅)
      (λ properties Properties,
         Children ← forEach (serializeChild (serializeInstance h)) []
                      (Instance.GetChildren instance);
         mret (SerializedInstance.mk (Instance.ClassName instance)
                 (Instance.Name instance) (assignAll properties Properties)
                 Children MeshId))).
    apply M_bind_ext. intros found w1. cbn beta zeta. rewrite assignAll_twice.
    unfold mbind, M_bind. cbn [Instance.GetChildren instance]. by rewrite Hkids.
  - unfold mbind at 1, M_bind at 1. unfold mret at 1, M_ret at 1.
    apply M_bind_ext. intros found w1. cbn zeta.
    unfold mbind, M_bind. cbn [Instance.GetChildren instance]. by rewrite Hkids.
Qed.

(** ** The serializer computes [snapshot] *)

Lemma cachedIn_refl h classes w : catalogOf h w = Ok classes → cachedIn h classes w w.
Proof. by split. Qed.

Lemma cachedIn_trans h classes w1 w2 w3 :
  cachedIn h classes w1 w2 → cachedIn h classes w2 w3 → cachedIn h classes w1 w3.
Proof. intros [_ H1] [H2 H3]. split; [done|congruence]. Qed.

Lemma serializeChildren_pure h classes children :
  Forall (λ child, ∀ w, catalogOf h w = Ok classes →
            ∃ w', serializeInstance h child w = (snapshot h classes child, w')
                  ∧ cachedIn h classes w w') children →
  ∀ acc w, catalogOf h w = Ok classes →
    ∃ w', forEach (serializeChild (serializeInstance h)) acc children w
          = (kept ← keepArchivable (snapshot h classes) children;
             Ok (acc ++ kept)%list, w')
          ∧ cachedIn h classes w w'.
Proof.
  induction 1 as [|child children Hchild _ IH]; intros acc w Hw.
  - exists w. cbn. rewrite app_nil_r. split; [done|by apply cachedIn_refl].
  - cbn [forEach keepArchivable]. unfold mbind at 1, M_bind at 1.
    unfold serializeChild at 1. destruct (Instance.Archivable child).
    + unfold mbind at 1, M_bind at 1.
      destruct (Hchild w Hw) as (w1 & -> & Hw1).
      destruct (snapshot h classes child) as [c|e]; cbn.
      * destruct (IH (acc ++ [c])%list w1 (proj1 Hw1)) as (w2 & -> & Hw2).
        exists w2. split; [|by eapply cachedIn_trans].
        destruct (keepArchivable _ children); cbn; [|done].
        by rewrite <- app_assoc.
      * by exists w1.
    + unfold mret at 1, M_ret at 1. apply IH, Hw.
Qed.

Lemma snapshot_unfold h classes instance :
  snapshot h classes instance =
  (MeshId ← (if IsA h instance "MeshPart"
             then id ← readMeshId instance; Ok (Some id)
             else Ok None);
   let found := discover h classes instance in
   let Properties :=
     assignAll found (if IsA h instance "Attachment" then assignAll found ∅ else ∅) in
   Children ← keepArchivable (snapshot h classes) (Instance.GetChildren instance);
   Ok (SerializedInstance.mk (Instance.ClassName instance) (Instance.Name instance)
         Properties Children MeshId)).
Proof. by destruct instance. Qed.

Lemma serializeInstance_pure h classes instance :
  ∀ w, catalogOf h w = Ok classes →
    ∃ w', serializeInstance h instance w = (snapshot h classes instance, w')
          ∧ cachedIn h classes w w'.
Proof.
  induction instance as [c n a b ch IH] using Instance_tree_ind. intros w Hw.
  rewrite serializeInstance_unfold, snapshot_unfold.
  set (instance := Instance.mk c n a b ch).
  unfold mbind at 1, M_bind at 1.
  assert (∃ r, (if IsA h instance "MeshPart"
                then id ← lift (readMeshId instance); mret (Some id)
                else mret None) w = (r, w) ∧
               (if IsA h instance "MeshPart"
                then id ← readMeshId instance; Ok (Some id)
                else Ok None) = r) as (r & -> & <-).
  { destruct (IsA h instance "MeshPart"); [|by eexists].
    unfold lift, mbind, M_bind, mret, M_ret. destruct (readMeshId instance); by eexists. }
  destruct (if IsA h instance "MeshPart" then _ else _) as [MeshId|e]; cbn;
    [|exists w; split; [done|by apply cachedIn_refl]].
  set (w1 := mkWorld (Some classes) (warnings w)).
  assert (catalogOf h w1 = Ok classes) as Hw1 by done.
  assert (cachedIn h classes w w1) as Hc1 by done.
  assert (∃ w0, (if IsA h instance "Attachment"
                 then properties ← getInstanceProperties h instance;
                      mret (assignAll properties ∅)
                 else mret ∅) w
                = (Ok (if IsA h instance "Attachment"
                       then assignAll (discover h classes instance) ∅ else ∅), w0)
                ∧ catalogOf h w0 = Ok classes ∧ warnings w0 = warnings w)
    as (w0 & Hfirst & Hw0 & Hlog0).
  { destruct (IsA h instance "Attachment"); [|by exists w].
    unfold mbind, M_bind, mret, M_ret. rewrite getInstanceProperties_run, Hw.
    by exists w1. }
  unfold mbind at 1, M_bind at 1. rewrite Hfirst.
  unfold mbind at 1, M_bind at 1. rewrite getInstanceProperties_run, Hw0.
  cbn zeta. unfold mbind at 1, M_bind at 1.
  destruct (serializeChildren_pure h classes ch IH []
              (mkWorld (Some classes) (warnings w0)) eq_refl) as (w2 & Hkids & Hw2).
  cbn [Instance.GetChildren instance]. rewrite Hkids.
  exists w2. split.
  - destruct (keepArchivable (snapshot h classes) ch); done.
  - destruct Hw2 as [Hw2 Hlog2]. split; [done|]. simpl in Hlog2. congruence.
Qed.

(** ** Archivability pruning *)

Lemma keepArchivable_Forall2 {B} (f : Instance.t → result B) children kept :
  keepArchivable f children = Ok kept →
  Forall2 (λ child c, f child = Ok c)
    (filter (λ child, Instance.Archivable child = true) children) kept.
Proof.
  revert kept. induction children as [|child children IH]; intros kept;
    cbn [keepArchivable].
  - intros [= <-]. constructor.
  - rewrite filter_cons. destruct (Instance.Archivable child) eqn:Ha.
    + rewrite decide_True by done.
      destruct (f child) as [c|] eqn:Hc; [|done]. cbn.
      destruct (keepArchivable f children) as [cs|]; [|done]. cbn.
      intros [= <-]. constructor; [done|]. by apply IH.
    + rewrite decide_False by done. apply IH.
Qed.

Lemma snapshot_keptShape h classes instance :
  ∀ node, snapshot h classes instance = Ok node → keptShape instance node.
Proof.
  induction instance as [c n a b ch IH] using Instance_tree_ind. intros node.
  rewrite snapshot_unfold. set (instance := Instance.mk c n a b ch).
  destruct (if IsA h instance "MeshPart" then _ else _) as [MeshId|]; [|done]. cbn.
  destruct (keepArchivable (snapshot h classes) ch) as [kept|] eqn:Hkept; [|done].
  cbn. intros [= <-]. constructor; [done|done|]. cbn.
  apply keepArchivable_Forall2 in Hkept.
  assert (Forall (λ child, ∀ node, snapshot h classes child = Ok node
                                   → keptShape child node)
            (filter (λ child, Instance.Archivable child = true) ch)) as IH'.
  { apply Forall_forall. intros child Hin. apply list_elem_of_filter in Hin as [_ Hin].
    by apply (proj1 (Forall_forall _ _) IH). }
  clear IH. induction Hkept as [|child c' l k Hc _ IHk]; [constructor|].
  apply Forall_cons in IH' as [H1 H2]. constructor; [by apply H1|by apply IHk].
Qed.

Lemma snapshot_meshReadable h classes instance :
  meshReadable h instance = true → is_Ok (snapshot h classes instance) = true.
Proof.
  induction instance as [c n a b ch IH] using Instance_tree_ind.
  rewrite snapshot_unfold.
  change (meshReadable h (Instance.mk c n a b ch)) with
    ((if IsA h (Instance.mk c n a b ch) "MeshPart"
      then is_Ok (readMeshId (Instance.mk c n a b ch)) else true) &&
     forallb (λ child, if Instance.Archivable child then meshReadable h child else true)
       ch).
  set (instance := Instance.mk c n a b ch).
  rewrite andb_true_iff. intros [Hm Hch].
  assert (∃ MeshId, (if IsA h instance "MeshPart"
                     then id ← readMeshId instance; Ok (Some id)
                     else Ok None) = Ok MeshId) as [MeshId ->].
  { destruct (IsA h instance "MeshPart"); [|by eexists].
    destruct (readMeshId instance); [by eexists|done]. }
  cbn.
  assert (is_Ok (keepArchivable (snapshot h classes) ch) = true) as Hk.
  { clear Hm. induction IH as [|child ch Hchild _ IHch]; [done|].
    cbn in Hch. apply andb_true_iff in Hch as [H1 H2]. cbn.
    destruct (Instance.Archivable child); [|by apply IHch].
    specialize (Hchild H1). destruct (snapshot h classes child); [|done]. cbn.
    specialize (IHch H2). by destruct (keepArchivable _ ch). }
  by destruct (keepArchivable _ ch).
Qed.

(** C7. Archivability pruning: when the catalog is available and the
    MeshId of the kept MeshParts can be read, [serializeInstance] returns a
    node that has the shape of the object with every non-archivable
    descendant removed together with its whole subtree, at every depth; the
    archivable children are serialized in the host's child order. *)
Theorem serializeInstance_prunes_non_archivable (h : Host) (instance : Instance.t)
    (w : World) :
  is_Ok (catalogOf h w) = true →
  meshReadable h instance = true →
  ∃ node w', serializeInstance h instance w = (Ok node, w') ∧ keptShape instance node.
Proof.
  intros Hcat Hmesh. destruct (catalogOf h w) as [classes|] eqn:Hw; [|done].
  destruct (serializeInstance_pure h classes instance w Hw) as (w' & Hrun & _).
  pose proof (snapshot_meshReadable h classes instance Hmesh) as Hok.
  destruct (snapshot h classes instance) as [node|] eqn:Hs; [|done].
  exists node, w'. split; [done|]. by eapply snapshot_keptShape.
Qed.

Lemma serializeInstance_prunes_non_archivable_witness :
  is_Ok (catalogOf Demo.host Demo.world) = true ∧
  meshReadable Demo.host DemoNodes.car = true ∧
  ∃ node w',
    serializeInstance Demo.host DemoNodes.car Demo.world = (Ok node, w') ∧
    keptShape DemoNodes.car node ∧
    map SerializedInstance.Name (nodesOf node) = ["Car"; "Wheel"; "Seat"].
Proof.
  split; [reflexivity|]. split; [reflexivity|].
  destruct (serializeInstance_prunes_non_archivable Demo.host DemoNodes.car Demo.world
              eq_refl eq_refl) as (node & w' & Hrun & Hshape).
  exists node, w'. split; [exact Hrun|]. split; [exact Hshape|].
  vm_compute in Hrun. injection Hrun as <- _. reflexivity.
Defined.

(** ** What discovery retains *)

Lemma stored_Some pv v : stored pv = Some v → pv = v ∧ v ≠ VUndefined.
Proof. destruct pv; simpl; intros [= <-]; done. Qed.

Lemma stored_serializeProperty v :
  stored (serializeProperty v) = match v with
                                 | VUndefined => None
                                 | _ => Some (serializeProperty v)
                                 end.
Proof. by destruct v. Qed.

(** A loop whose steps either leave [k] alone or store the same value. *)
Lemma lookup_foldl_hits {A} (step : gmap string unknown → A → gmap string unknown)
    (hit : A → bool) (k : string) (o : option (option unknown)) l :
  (∀ acc x, step acc x !! k =
     if hit x then match o with Some s => s | None => acc !! k end else acc !! k) →
  ∀ acc, foldl step acc l !! k =
     if existsb hit l then match o with Some s => s | None => acc !! k end
     else acc !! k.
Proof.
  intros Hstep. induction l as [|x l IH]; intros acc; simpl; [done|].
  rewrite IH, Hstep. destruct (hit x), (existsb hit l), o; done.
Qed.

Lemma lookup_visitMember instance acc member k :
  visitMember instance acc member !! k =
  if String.eqb (APIMember.Name member) k && eligible member
  then match (λ v, stored (serializeProperty v)) <$> retainedValue instance k with
       | Some s => s
       | None => acc !! k
       end
  else acc !! k.
Proof.
  unfold visitMember, eligible, taggedOut, retainedValue.
  destruct (String.eqb (APIMember.MemberType member) "Property");
    [|by rewrite andb_false_r].
  destruct (has IGNORED_PROPERTIES (APIMember.Name member)); [by rewrite andb_false_r|].
  destruct (hasTag _ "Deprecated" || hasTag _ "Hidden" || hasTag _ "NotScriptable"
            || hasTag _ "ReadOnly"); [by rewrite andb_false_r|].
  simpl. rewrite andb_true_r.
  destruct (String.eqb (APIMember.Name member) k) eqn:Hk.
  - apply String.eqb_eq in Hk. subst k.
    destruct (getProperty instance (APIMember.Name member)) as [v|]; [|done].
    destruct (shouldSerializeProperty _ v); [|done]. simpl.
    by rewrite lookup_tableSet, decide_True.
  - apply String.eqb_neq in Hk.
    destruct (getProperty instance (APIMember.Name member)) as [v|]; [|done].
    destruct (shouldSerializeProperty _ v); [|done].
    by rewrite lookup_tableSet, decide_False.
Qed.

Lemma lookup_visitClass h instance acc classData k :
  visitClass h instance acc classData !! k =
  if IsA h instance (APIClass.Name classData) &&
     existsb (λ member, String.eqb (APIMember.Name member) k && eligible member)
       (APIClass.Members classData)
  then match (λ v, stored (serializeProperty v)) <$> retainedValue instance k with
       | Some s => s
       | None => acc !! k
       end
  else acc !! k.
Proof.
  unfold visitClass. destruct (IsA h instance (APIClass.Name classData)); [|done].
  simpl. apply lookup_foldl_hits. intros. apply lookup_visitMember.
Qed.

Lemma lookup_discover h classes instance k :
  discover h classes instance !! k =
  if listed h classes instance k
  then match retainedValue instance k with
       | Some v => stored (serializeProperty v)
       | None => None
       end
  else None.
Proof.
  unfold discover, listed.
  rewrite (lookup_foldl_hits (visitClass h instance)
    (λ classData, IsA h instance (APIClass.Name classData) &&
       existsb (λ member, String.eqb (APIMember.Name member) k && eligible member)
         (APIClass.Members classData)) k
    ((λ v, stored (serializeProperty v)) <$> retainedValue instance k)).
  - rewrite lookup_empty. by destruct (retainedValue instance k).
  - intros. apply lookup_visitClass.
Qed.

(** A retained attribute: where it comes from and what is stored. *)
Lemma discover_Some h classes instance k pv :
  discover h classes instance !! k = Some pv →
  ∃ v, getProperty instance k = Ok v ∧ shouldSerializeProperty k v = true ∧
       v ≠ VUndefined ∧ pv = serializeProperty v ∧
       listed h classes instance k = true.
Proof.
  rewrite lookup_discover. destruct (listed h classes instance k); [|done].
  unfold retainedValue. destruct (getProperty instance k) as [v|]; [|done].
  destruct (shouldSerializeProperty k v) eqn:Hs; [|done].
  rewrite stored_serializeProperty. intros Hst. exists v.
  destruct v; try done; injection Hst as <-; done.
Qed.

Lemma listed_not_ignored h classes instance k :
  listed h classes instance k = true → has IGNORED_PROPERTIES k = false.
Proof.
  unfold listed. rewrite existsb_exists. intros (classData & _ & Hc).
  apply andb_true_iff in Hc as [_ Hc]. apply existsb_exists in Hc as (m & _ & Hm).
  apply andb_true_iff in Hm as [Hk He]. apply String.eqb_eq in Hk. subst k.
  unfold eligible in He. rewrite !andb_true_iff, negb_true_iff in He. tauto.
Qed.

Lemma listed_intro h classes instance classData member :
  classData ∈ classes → IsA h instance (APIClass.Name classData) = true →
  member ∈ APIClass.Members classData → eligible member = true →
  listed h classes instance (APIMember.Name member) = true.
Proof.
  intros Hc Hisa Hm He. unfold listed. apply existsb_exists.
  exists classData. split; [by apply list_elem_of_In|]. rewrite Hisa. simpl.
  apply existsb_exists. exists member. split; [by apply list_elem_of_In|].
  by rewrite String.eqb_refl, He.
Qed.

Lemma listed_ext h classes instance instance' k :
  Instance.ClassName instance = Instance.ClassName instance' →
  listed h classes instance k = listed h classes instance' k.
Proof. intros Hc. unfold listed, IsA. by rewrite Hc. Qed.

Lemma discover_no_undefined h classes instance k :
  discover h classes instance !! k ≠ Some VUndefined.
Proof.
  intros H. apply discover_Some in H as (v & _ & _ & Hv & Hpv & _).
  by destruct v.
Qed.

Lemma assignAll_discover h classes instance (first : bool) :
  assignAll (discover h classes instance)
    (if first then assignAll (discover h classes instance) ∅ else ∅)
  = discover h classes instance.
Proof.
  apply map_eq. intros k. rewrite lookup_assignAll.
  destruct (discover h classes instance !! k) as [pv|] eqn:Hk.
  - destruct pv; try done. by apply discover_no_undefined in Hk.
  - destruct first; [|done]. by rewrite lookup_assignAll, Hk.
Qed.

Lemma snapshot_node h classes instance node :
  snapshot h classes instance = Ok node →
  SerializedInstance.ClassName node = Instance.ClassName instance ∧
  SerializedInstance.Name node = Instance.Name instance ∧
  SerializedInstance.Properties node = discover h classes instance ∧
  SerializedInstance.MeshId node
  = (if IsA h instance "MeshPart"
     then match readMeshId instance with Ok id => Some id | Err _ => None end
     else None) ∧
  keepArchivable (snapshot h classes) (Instance.GetChildren instance)
  = Ok (SerializedInstance.Children node).
Proof.
  rewrite snapshot_unfold.
  destruct (IsA h instance "MeshPart").
  - destruct (readMeshId instance) as [id|]; [|done]. cbn.
    destruct (keepArchivable _ _) as [kept|]; [|done]. cbn. intros [= <-]. cbn.
    by rewrite assignAll_discover.
  - cbn. destruct (keepArchivable _ _) as [kept|]; [|done]. cbn. intros [= <-]. cbn.
    by rewrite assignAll_discover.
Qed.

Lemma serializeInstance_needs_catalog h instance w e :
  catalogOf h w = Err e → is_Ok (serializeInstance h instance w).1 = false.
Proof.
  intros Hw. rewrite serializeInstance_unfold. unfold mbind at 1, M_bind at 1.
  assert (∃ r, (if IsA h instance "MeshPart"
                then id ← lift (readMeshId instance); mret (Some id)
                else mret None) w = (r, w)) as [r ->].
  { destruct (IsA h instance "MeshPart"); [|by eexists].
    unfold lift, mbind, M_bind, mret, M_ret. destruct (readMeshId instance); by eexists. }
  destruct r as [MeshId|]; [|done].
  unfold mbind at 1, M_bind at 1.
  destruct (IsA h instance "Attachment").
  - unfold mbind at 1, M_bind at 1. by rewrite getInstanceProperties_run, Hw.
  - unfold mret at 1, M_ret at 1. unfold mbind at 1, M_bind at 1.
    by rewrite getInstanceProperties_run, Hw.
Qed.

(** The run of the serializer, read off as a [snapshot]. *)
Lemma serializeInstance_Ok h instance w node w' :
  serializeInstance h instance w = (Ok node, w') →
  ∃ classes, catalogOf h w = Ok classes ∧ snapshot h classes instance = Ok node.
Proof.
  intros Hrun. destruct (catalogOf h w) as [classes|e] eqn:Hw.
  - exists classes. split; [done|].
    destruct (serializeInstance_pure h classes instance w Hw) as (w1 & Hrun' & _).
    congruence.
  - apply (serializeInstance_needs_catalog h instance) in Hw. by rewrite Hrun in Hw.
Qed.

(** ** The force-include set *)

Lemma forceInclude_shouldSerialize k v :
  forceInclude k = true → shouldSerializeProperty k v = true.
Proof. intros H. unfold shouldSerializeProperty. by rewrite H. Qed.

(** C4, as stated, fails: Rotation is in the force-include set and can be
    read, its descriptor marks it Deprecated, and it is not serialized. *)
Lemma deprecated_forceInclude_is_excluded :
  forceInclude "Rotation" = true ∧
  getProperty DemoNodes.turned "Rotation" = Ok (VVector3 (num 0) (num 90) (num 0)) ∧
  APIMember.mk "Rotation" "Property" (Some ["Deprecated"])
    ∈ flat_map APIClass.Members Demo.catalog ∧
  ∃ node w',
    serializeInstance Demo.host DemoNodes.turned Demo.world = (Ok node, w') ∧
    SerializedInstance.Properties node !! "Rotation" = None ∧
    is_Some (SerializedInstance.Properties node !! "Size").
Proof.
  split; [reflexivity|]. split; [reflexivity|]. split.
  - vm_compute. repeat first [apply list_elem_of_here | apply list_elem_of_further].
  - eexists _, _. split; [vm_compute; reflexivity|]. split; [reflexivity|].
    vm_compute. by eexists.
Qed.

Lemma forceInclude_not_ignored k :
  forceInclude k = true → has IGNORED_PROPERTIES k = false.
Proof.
  unfold forceInclude. rewrite !orb_true_iff, !String.eqb_eq.
  intros H. decompose [or] H; subst k; reflexivity.
Qed.

Lemma listed_elim h classes instance k :
  listed h classes instance k = true →
  ∃ classData member,
    classData ∈ classes ∧ IsA h instance (APIClass.Name classData) = true ∧
    member ∈ APIClass.Members classData ∧ APIMember.Name member = k ∧
    APIMember.MemberType member = "Property" ∧ taggedOut member = false.
Proof.
  unfold listed. rewrite existsb_exists. intros (classData & Hin & Hc).
  apply andb_true_iff in Hc as [Hisa Hc].
  apply existsb_exists in Hc as (member & Hm & He).
  apply andb_true_iff in He as [Hk He]. apply String.eqb_eq in Hk.
  unfold eligible in He. rewrite !andb_true_iff, !negb_true_iff in He.
  destruct He as [[Hp _] Ht]. apply String.eqb_eq in Hp.
  exists classData, member. by rewrite <- !list_elem_of_In in *.
Qed.

(** C4, amended.  The force-include set overrides the test on the kind of
    the value and nothing else.  For a name of the set that reads as a
    defined value: the attribute is in [Properties], encoded, whatever the
    kind of the value, when some descriptor of a class of the object lists
    it as a member of kind Property that the catalog does not mark
    Deprecated, Hidden, NotScriptable or ReadOnly; it is absent when every
    such member is of another kind or carries one of these tags. *)
Theorem forceInclude_overrides_kind_test (h : Host) (instance : Instance.t)
    (w w' : World) (node : SerializedInstance.t) (classes : list APIClass.t)
    (k : string) (v : unknown) :
  catalogOf h w = Ok classes →
  serializeInstance h instance w = (Ok node, w') →
  forceInclude k = true →
  getProperty instance k = Ok v →
  v ≠ VUndefined →
  ((∃ classData member,
      classData ∈ classes ∧ IsA h instance (APIClass.Name classData) = true ∧
      member ∈ APIClass.Members classData ∧ APIMember.Name member = k ∧
      APIMember.MemberType member = "Property" ∧ taggedOut member = false) →
   SerializedInstance.Properties node !! k = Some (serializeProperty v)) ∧
  ((∀ classData member,
      classData ∈ classes → IsA h instance (APIClass.Name classData) = true →
      member ∈ APIClass.Members classData → APIMember.Name member = k →
      APIMember.MemberType member ≠ "Property" ∨ taggedOut member = true) →
   SerializedInstance.Properties node !! k = None).
Proof.
  intros Hw Hrun Hf Hv Hdef.
  destruct (serializeInstance_Ok h instance w node w' Hrun) as (classes' & Hw' & Hs).
  rewrite Hw in Hw'. injection Hw' as <-.
  destruct (snapshot_node h classes instance node Hs) as (_ & _ & -> & _).
  rewrite lookup_discover. unfold retainedValue.
  rewrite Hv, (forceInclude_shouldSerialize k v Hf), stored_serializeProperty.
  split.
  - intros (classData & member & Hc & Hisa & Hm & <- & Hp & Ht).
    rewrite (listed_intro h classes instance classData member Hc Hisa Hm).
    + by destruct v.
    + unfold eligible. rewrite Hp, Ht, (forceInclude_not_ignored _ Hf). reflexivity.
  - intros Hnone. destruct (listed h classes instance k) eqn:Hl; [|done].
    destruct (listed_elim h classes instance k Hl)
      as (classData & member & Hc & Hisa & Hm & Hk & Hp & Ht).
    destruct (Hnone classData member Hc Hisa Hm Hk) as [Hp'|Ht']; congruence.
Qed.

Lemma forceInclude_overrides_kind_test_witness :
  catalogOf Demo.host Demo.world = Ok Demo.catalog ∧
  forceInclude "Size" = true ∧
  getProperty DemoNodes.panel "Size" = Ok (VUDim2 (num 1) (num 0) (num 0) (num 40)) ∧
  ∃ node w',
    serializeInstance Demo.host DemoNodes.panel Demo.world = (Ok node, w') ∧
    SerializedInstance.Properties node !! "Size"
    = Some (VUDim2 (num 1) (num 0) (num 0) (num 40)).
Proof.
  split; [reflexivity|]. split; [reflexivity|]. split; [reflexivity|].
  destruct (serializeInstance Demo.host DemoNodes.panel Demo.world) as [r w'] eqn:Hrun.
  assert (∃ node, r = Ok node) as [node ->].
  { vm_compute in Hrun. injection Hrun as <- _. by eexists. }
  exists node, w'. split; [reflexivity|].
  destruct (forceInclude_overrides_kind_test Demo.host DemoNodes.panel Demo.world w' node
              Demo.catalog "Size" (VUDim2 (num 1) (num 0) (num 0) (num 40))
              eq_refl Hrun eq_refl eq_refl) as [Hin _]; [discriminate|].
  apply Hin.
  exists (APIClass.mk "GuiObject"
            [APIMember.mk "Size" "Property" None;
             APIMember.mk "Visible" "Property" None]),
         (APIMember.mk "Size" "Property" None).
  split; [|split; [reflexivity|split; [apply list_elem_of_here|]]].
  - do 4 apply list_elem_of_further. apply list_elem_of_here.
  - repeat split; reflexivity.
Defined.

(** ** What [Properties] holds *)

Lemma snapshot_nodes h classes instance :
  ∀ node n, snapshot h classes instance = Ok node → n ∈ nodesOf node →
    ∃ d, d ∈ descendantsOf instance ∧ snapshot h classes d = Ok n.
Proof.
  induction instance as [c nm a b ch IH] using Instance_tree_ind. intros node n Hs Hn.
  set (instance := Instance.mk c nm a b ch) in *.
  destruct (snapshot_node h classes instance node Hs) as (_ & _ & _ & _ & Hkept).
  destruct node as [nc nn np nch nmesh]. cbn [nodesOf] in Hn.
  apply elem_of_cons in Hn as [->|Hn].
  { exists instance. split; [|done]. cbn. apply list_elem_of_here. }
  cbn [SerializedInstance.Children] in *. apply keepArchivable_Forall2 in Hkept.
  cbn [Instance.GetChildren instance] in Hkept.
  apply list_elem_of_In, in_flat_map in Hn as (kid & Hkid & Hn).
  apply list_elem_of_In in Hkid, Hn.
  destruct (proj1 (list_elem_of_lookup _ _) Hkid) as [i Hi].
  destruct (Forall2_lookup_r _ _ _ _ _ Hkept Hi) as (child & Hchild & Hsnap).
  assert (child ∈ ch) as Hin.
  { apply list_elem_of_lookup_2 in Hchild. by apply list_elem_of_filter in Hchild as [_ ?]. }
  destruct (proj1 (Forall_forall _ _) IH child Hin kid n Hsnap Hn) as (d & Hd & Hdn).
  exists d. split; [|done]. cbn. apply list_elem_of_further.
  apply list_elem_of_In, in_flat_map. exists child.
  split; by apply list_elem_of_In.
Qed.

Lemma map_NumberSequence_records (kps : list (number * number * number)) :
  map (λ k : number * number * number,
         let '(T, V, E) := k in
         object [("Time", VNumber T); ("Value", VNumber V); ("Envelope", VNumber E)]) kps
  = map (λ k : number * number * number,
           object [("Time", VNumber k.1.1); ("Value", VNumber k.1.2);
                   ("Envelope", VNumber k.2)]) kps.
Proof. apply map_ext. by intros [[??]?]. Qed.

Lemma map_ColorSequence_records (kps : list (number * (number * number * number))) :
  map (λ k : number * (number * number * number),
         let '(T, (R, G, B)) := k in
         object [("Time", VNumber T);
                 ("Value", object [("R", VNumber R); ("G", VNumber G);
                                   ("B", VNumber B)])]) kps
  = map (λ k : number * (number * number * number),
           object [("Time", VNumber k.1);
                   ("Value", object [("R", VNumber k.2.1.1); ("G", VNumber k.2.1.2);
                                     ("B", VNumber k.2.2)])]) kps.
Proof. apply map_ext. by intros [?[[??]?]]. Qed.

Lemma serializeProperty_shape k v :
  shouldSerializeProperty k v = true →
  WireValue (serializeProperty v) ∨ unencodedKind (serializeProperty v) = true ∨
  forceInclude k = true.
Proof.
  unfold shouldSerializeProperty. destruct (forceInclude k); [by right; right|].
  generalize (has IGNORED_PROPERTIES k). intros ignored.
  destruct v; intros Hs; vm_compute in Hs; try discriminate Hs;
    try (by destruct ignored);
    unfold serializeProperty;
    try (left; constructor); try (right; left; reflexivity).
  - left. rewrite map_NumberSequence_records. constructor.
  - left. rewrite map_ColorSequence_records. constructor.
Qed.

Lemma snapshot_nodeAt h classes : ∀ path instance node n,
  snapshot h classes instance = Ok node → nodeAt node path = Some n →
  ∃ d, keptAt instance path = Some d ∧ snapshot h classes d = Ok n.
Proof.
  induction path as [|i path IH]; intros instance node n Hs Hn; cbn in Hn.
  { injection Hn as <-. by exists instance. }
  destruct (SerializedInstance.Children node !! i) as [c|] eqn:Hi; [|done].
  destruct (snapshot_node h classes instance node Hs) as (_ & _ & _ & _ & Hkept).
  apply keepArchivable_Forall2 in Hkept.
  destruct (Forall2_lookup_r _ _ _ _ _ Hkept Hi) as (child & Hchild & Hsnap).
  destruct (IH child c n Hsnap Hn) as (d & Hd & Hdn).
  exists d. split; [|done]. cbn. by rewrite Hchild.
Qed.

Lemma serializeProperty_structured v :
  (structured v = true → WireValue (serializeProperty v)) ∧
  (structured v = false → serializeProperty v = v).
Proof.
  split; destruct v; try discriminate; try reflexivity; intros _;
    unfold serializeProperty; try constructor.
  - rewrite map_NumberSequence_records. constructor.
  - rewrite map_ColorSequence_records. constructor.
Qed.

(** C5, as stated, fails: the Size of the part below, a force-include
    name, holds a value that is neither a primitive nor of any kind the
    encoder has a record for, and it is stored as it is. *)
Lemma forced_values_are_stored_raw :
  ∃ node w',
    serializeInstance Demo.host DemoForced.sign Demo.world = (Ok node, w') ∧
    SerializedInstance.Properties node !! "Size" = Some (VOther "Region3") ∧
    forceInclude "Size" = true ∧
    unencodedKind (VOther "Region3") = false ∧
    ¬ WireValue (VOther "Region3").
Proof.
  eexists _, _. split; [vm_compute; reflexivity|].
  split; [reflexivity|]. split; [reflexivity|]. split; [reflexivity|]. by inversion 1.
Qed.

(** C5, amended.  Every value stored in the [Properties] of a node of the
    output is defined and is the encoding of the value that the object the
    node stands for reads under that name.  Leaving aside the values of
    kind UDim, UDim2, Rect and BrickColor, which the inclusion test lets
    through and the encoder has no record for, a stored value is a
    primitive or one of the eight tagged records of the wire grammar,
    unless its name is in the force-include set: the value of such a name
    is not tested at all and is stored whatever its kind, as a tagged
    record when it is of one of the eight kinds and unchanged otherwise. *)
Theorem stored_values_are_wire_or_forced (h : Host) (instance : Instance.t)
    (w w' : World) (node n : SerializedInstance.t) (path : list nat)
    (k : string) (pv : unknown) :
  serializeInstance h instance w = (Ok node, w') →
  nodeAt node path = Some n →
  SerializedInstance.Properties n !! k = Some pv →
  ∃ d v,
    keptAt instance path = Some d ∧
    getProperty d k = Ok v ∧
    pv = serializeProperty v ∧
    pv ≠ VUndefined ∧
    (unencodedKind pv = false →
     WireValue pv ∨
     (forceInclude k = true ∧
      (structured v = true → WireValue pv) ∧ (structured v = false → pv = v))).
Proof.
  intros Hrun Hn Hk.
  destruct (serializeInstance_Ok h instance w node w' Hrun) as (classes & _ & Hs).
  destruct (snapshot_nodeAt h classes path instance node n Hs Hn) as (d & Hd & Hdn).
  destruct (snapshot_node h classes d n Hdn) as (_ & _ & Hp & _).
  rewrite Hp in Hk.
  destruct (discover_Some h classes d k pv Hk) as (v & Hv & Hshould & Hdef & -> & _).
  destruct (serializeProperty_structured v) as [Htagged Hraw].
  exists d, v. split; [done|]. split; [done|]. split; [done|].
  split; [by destruct v|].
  intros Hkind.
  destruct (serializeProperty_shape k v Hshould) as [Hwire|[Hunenc|Hforce]].
  - by left.
  - congruence.
  - by right.
Qed.

Lemma stored_values_are_wire_or_forced_witness :
  ∃ node w' n,
    serializeInstance Demo.host DemoForced.sign Demo.world = (Ok node, w') ∧
    nodeAt node [0] = Some n ∧
    SerializedInstance.Name n = "Post" ∧
    SerializedInstance.Properties n !! "Color"
    = Some (serializeProperty (VColor3 (num 0) (num 1) (num 0))) ∧
    ∃ d v,
      keptAt DemoForced.sign [0] = Some d ∧ Instance.Name d = "Post" ∧
      getProperty d "Color" = Ok v ∧
      serializeProperty (VColor3 (num 0) (num 1) (num 0)) = serializeProperty v.
Proof.
  destruct (serializeInstance Demo.host DemoForced.sign Demo.world) as [r w'] eqn:Hrun.
  assert (∃ node n, r = Ok node ∧ nodeAt node [0] = Some n ∧
            SerializedInstance.Name n = "Post" ∧
            SerializedInstance.Properties n !! "Color"
            = Some (serializeProperty (VColor3 (num 0) (num 1) (num 0))))
    as (node & n & -> & Hn & Hname & Hk).
  { vm_compute in Hrun. injection Hrun as <- _. by eexists _, _. }
  exists node, w', n. split; [reflexivity|]. split; [exact Hn|].
  split; [exact Hname|]. split; [exact Hk|].
  destruct (stored_values_are_wire_or_forced Demo.host DemoForced.sign Demo.world w'
              node n [0] "Color" _ Hrun Hn Hk)
    as (d & v & Hd & Hv & Henc & _).
  exists d, v. split; [exact Hd|]. split; [|by split].
  vm_compute in Hd. by injection Hd as <-.
Defined.

(** ** Tree round trip *)

Lemma has_IGNORED_special k :
  has IGNORED_PROPERTIES k = false →
  String.eqb k "ClassName" = false ∧ String.eqb k "Name" = false ∧
  String.eqb k "Archivable" = false.
Proof.
  unfold has. rewrite bool_decide_eq_false. intros Hk.
  repeat split; apply String.eqb_neq; intros ->; apply Hk; by vm_compute.
Qed.

Lemma getProperty_plain instance k :
  String.eqb k "ClassName" = false → String.eqb k "Name" = false →
  String.eqb k "Archivable" = false →
  getProperty instance k = match Instance.attrs instance !! k with
                           | Some v => Ok v
                           | None => Err ("cannot read " ++ k)
                           end.
Proof. intros H1 H2 H3. unfold getProperty. by rewrite H1, H2, H3. Qed.

Lemma setProperty_plain h instance k v :
  refuses h (Instance.ClassName instance) k v = None →
  has IGNORED_PROPERTIES k = false →
  is_Ok (setProperty h instance k v) = true.
Proof.
  intros Hr Hk. apply has_IGNORED_special in Hk as (H1 & H2 & H3).
  unfold setProperty. by rewrite Hr, H1, H2, H3.
Qed.

Lemma readMeshId_Ok instance id :
  readMeshId instance = Ok id → getProperty instance "MeshId" = Ok (VString id).
Proof.
  unfold readMeshId. destruct (getProperty instance "MeshId") as [v|]; [|done].
  destruct v; try done. by intros [= ->].
Qed.

Lemma IsA_refl h instance : IsA h instance (Instance.ClassName instance) = true.
Proof. unfold IsA. by rewrite String.eqb_refl. Qed.

(** The object constructed for the node of a faithful object. *)
Lemma bare_faithful h instance props kids :
  constructs h instance = true →
  meshBacked h instance →
  ∃ fresh,
    bare h (SerializedInstance.mk (Instance.ClassName instance) (Instance.Name instance)
              props kids
              (if IsA h instance "MeshPart"
               then match readMeshId instance with Ok id => Some id | Err _ => None end
               else None)) = Ok fresh ∧
    Instance.Name fresh = Instance.Name instance ∧
    (IsA h instance "MeshPart" = true →
     getProperty fresh "MeshId" = getProperty instance "MeshId").
Proof.
  intros Hcons Hmesh. unfold bare, constructs in *.
  cbn [SerializedInstance.ClassName SerializedInstance.Name SerializedInstance.MeshId].
  destruct (IsA h instance "MeshPart") eqn:Hisa.
  - destruct (Hmesh Hisa) as (Hc & id & Hid & Hempty).
    pose proof (readMeshId_Ok instance id Hid) as Hgot.
    rewrite Hid in *. rewrite Hc in *. cbn in Hcons, Hgot |- *. rewrite Hgot.
    destruct (String.eqb id "") eqn:Hnil; cbn in Hcons |- *.
    + apply String.eqb_eq in Hnil. subst id.
      unfold newInstance. destruct (defaults h "MeshPart") as [bag|] eqn:Hbag; [|done].
      cbn. eexists. split; [done|]. split; [done|]. intros _.
      cbn. by rewrite (Hempty eq_refl bag eq_refl).
    + unfold CreateMeshPart. destruct (CreateMeshPartAsync h id) as [bag|]; [|done].
      cbn. eexists. split; [done|]. split; [done|]. intros _.
      cbn. by rewrite lookup_insert_eq.
  - assert (String.eqb (Instance.ClassName instance) "MeshPart" = false) as Hc.
    { unfold IsA in Hisa. by apply orb_false_iff in Hisa as [? _]. }
    rewrite Hc in *. cbn in Hcons |- *.
    assert (is_Ok (defaults h (Instance.ClassName instance)) = true) as Hd.
    { by destruct (readMeshId instance). }
    unfold newInstance.
    destruct (String.eqb (Instance.ClassName instance) "Attachment") eqn:Ha.
    + apply String.eqb_eq in Ha. rewrite Ha in *.
      destruct (defaults h "Attachment"); [|done]. cbn. by eexists.
    + destruct (defaults h (Instance.ClassName instance)); [|done]. cbn. by eexists.
Qed.

Lemma rebuilt_deterministic h nodes insts insts' :
  mapM (rebuilt h) nodes = Ok insts → mapM (rebuilt h) nodes = Ok insts' →
  insts = insts'.
Proof. congruence. Qed.

Lemma serializable_shouldSerialize k v :
  serializableKind v = true → has IGNORED_PROPERTIES k = false →
  shouldSerializeProperty k v = true.
Proof.
  intros Hkind Hk. unfold shouldSerializeProperty. rewrite Hk.
  destruct (forceInclude k); [done|]. by destruct v.
Qed.

(** A listed attribute that reads as a value of a serializable kind is
    retained by discovery, encoded. *)
Lemma discover_listed h classes instance k v :
  listed h classes instance k = true →
  getProperty instance k = Ok v →
  serializableKind v = true →
  discover h classes instance !! k = Some (serializeProperty v).
Proof.
  intros Hl Hv Hkind. rewrite lookup_discover, Hl. unfold retainedValue. rewrite Hv.
  rewrite (serializable_shouldSerialize k v Hkind (listed_not_ignored _ _ _ _ Hl)).
  rewrite stored_serializeProperty. by destruct v.
Qed.

Lemma discover_unreadable h classes instance k e :
  getProperty instance k = Err e → discover h classes instance !! k = None.
Proof.
  intros He. rewrite lookup_discover. unfold retainedValue. rewrite He.
  by destruct (listed h classes instance k).
Qed.

(** The object constructed for the node of a faithful object is the fresh
    copy, named. *)
Lemma bare_freshCopy h instance props kids :
  constructs h instance = true →
  meshBacked h instance →
  ∃ fresh0,
    freshCopy h instance = Ok fresh0 ∧
    bare h (SerializedInstance.mk (Instance.ClassName instance) (Instance.Name instance)
              props kids
              (if IsA h instance "MeshPart"
               then match readMeshId instance with Ok id => Some id | Err _ => None end
               else None))
    = Ok (setName fresh0 (Instance.Name instance)).
Proof.
  intros Hcons Hmesh. unfold bare, constructs, freshCopy in *.
  cbn [SerializedInstance.ClassName SerializedInstance.Name SerializedInstance.MeshId].
  destruct (IsA h instance "MeshPart") eqn:Hisa.
  - destruct (Hmesh Hisa) as (Hc & id & Hid & _).
    rewrite Hid in *. rewrite Hc in *. cbn in Hcons |- *.
    destruct (String.eqb id "") eqn:Hnil; cbn in Hcons |- *.
    + unfold newInstance. destruct (defaults h "MeshPart") as [bag|]; [|done].
      cbn. by eexists.
    + unfold CreateMeshPart. destruct (CreateMeshPartAsync h id) as [bag|]; [|done].
      cbn. by eexists.
  - assert (String.eqb (Instance.ClassName instance) "MeshPart" = false) as Hc.
    { unfold IsA in Hisa. by apply orb_false_iff in Hisa as [? _]. }
    rewrite Hc in *. cbn in Hcons |- *.
    assert (is_Ok (defaults h (Instance.ClassName instance)) = true) as Hd.
    { by destruct (readMeshId instance). }
    assert (freshCopy h instance = newInstance h (Instance.ClassName instance)) as Hf.
    { unfold freshCopy. rewrite Hc. by destruct (readMeshId instance). }
    unfold freshCopy in Hf. rewrite Hc in Hf. cbn in Hf. rewrite Hf.
    unfold newInstance.
    destruct (String.eqb (Instance.ClassName instance) "Attachment") eqn:Ha.
    + apply String.eqb_eq in Ha. rewrite Ha in *.
      destruct (defaults h "Attachment"); [|done]. cbn. by eexists.
    + destruct (defaults h (Instance.ClassName instance)); [|done]. cbn. by eexists.
Qed.

Lemma round_trip_children h classes children :
  Forall (λ child, faithful h classes child →
     ∃ node child', snapshot h classes child = Ok node ∧ rebuilt h node = Ok child'
                    ∧ sameTree h classes child child') children →
  Forall (λ child, Instance.Archivable child = true) children →
  Forall (faithful h classes) children →
  ∃ nodes insts,
    keepArchivable (snapshot h classes) children = Ok nodes ∧
    mapM (rebuilt h) nodes = Ok insts ∧
    Forall2 (sameTree h classes) children insts.
Proof.
  induction 1 as [|child children Hchild _ IH]; intros Harch Hkids.
  - exists [], []. by repeat split; try constructor.
  - apply Forall_cons in Harch as [Ha Harch]. apply Forall_cons in Hkids as [Hk Hkids].
    destruct (Hchild Hk) as (node & child' & Hs & Hr & Hsame).
    destruct (IH Harch Hkids) as (nodes & insts & Hss & Hrs & Hsames).
    exists (node :: nodes), (child' :: insts).
    cbn [keepArchivable mapM]. rewrite Ha, Hs. cbn. rewrite Hss. cbn.
    rewrite Hr. cbn. rewrite Hrs. cbn. split; [done|]. split; [done|].
    by constructor.
Qed.

Lemma round_trip_pure h classes instance :
  faithful h classes instance →
  ∃ node instance',
    snapshot h classes instance = Ok node ∧ rebuilt h node = Ok instance' ∧
    sameTree h classes instance instance'.
Proof.
  induction instance as [c n a b ch IH] using Instance_tree_ind. intros Hf.
  inversion Hf as [? Hattrs Hreads Hcons Hmesh Harch Hkids]; subst. clear Hf.
  set (instance := Instance.mk c n a b ch) in *.
  destruct (round_trip_children h classes ch IH Harch Hkids)
    as (nodes & insts & Hkeep & Hre & Hsame).
  set (mesh := if IsA h instance "MeshPart"
               then match readMeshId instance with Ok id => Some id | Err _ => None end
               else None).
  set (node := SerializedInstance.mk c n (discover h classes instance) nodes mesh).
  assert (snapshot h classes instance = Ok node) as Hsnap.
  { rewrite snapshot_unfold. cbn [Instance.GetChildren instance]. rewrite Hkeep.
    subst node mesh. destruct (IsA h instance "MeshPart") eqn:Hisa.
    - destruct (Hmesh Hisa) as (_ & id & -> & _). cbn.
      by rewrite (assignAll_discover h classes instance).
    - cbn. by rewrite (assignAll_discover h classes instance). }
  destruct (bare_faithful h instance (discover h classes instance) nodes Hcons Hmesh)
    as (fresh & Hbare & Hname & Hid).
  destruct (bare_freshCopy h instance (discover h classes instance) nodes Hcons Hmesh)
    as (fresh0 & Hfresh0 & Hbare0).
  rewrite Hbare in Hbare0. injection Hbare0 as Hfresh.
  change (bare h node = Ok fresh) in Hbare.
  assert (∃ instance', rebuilt h node = Ok instance') as [instance' Hr].
  { rewrite rebuilt_unfold. unfold constructed. rewrite Hbare. cbn.
    rewrite Hre. cbn. by eexists. }
  exists node, instance'. split; [done|]. split; [done|].
  destruct (rebuilt_inv h node instance' Hr)
    as (fresh' & children & Hbare' & Hm & Hcls & Hch & Hget).
  rewrite Hbare in Hbare'. injection Hbare' as <-.
  destruct (bare_frame h node fresh Hbare) as [Hfc _]. cbn in Hfc.
  assert (∀ k, listed h classes instance k = true →
            getProperty instance' k = getProperty instance k) as Hrestored.
  { intros k Hlisted.
    pose proof (listed_not_ignored _ _ _ _ Hlisted) as Hig.
    destruct (has_IGNORED_special k Hig) as (H1 & H2 & H3).
    destruct (skipsMeshId h fresh k) eqn:Hskip.
    - unfold skipsMeshId in Hskip. apply andb_true_iff in Hskip as [Hisa Hkey].
      apply String.eqb_eq in Hkey. subst k.
      assert (IsA h instance "MeshPart" = true) as Hisa'.
      { unfold IsA in *. by rewrite Hfc in Hisa. }
      rewrite (rebuilt_skips h node instance' fresh "MeshId" Hr); cycle 1.
      + destruct (Hmesh Hisa') as (Hc & _). cbn in Hc.
        cbn [SerializedInstance.ClassName node]. rewrite Hc. reflexivity.
      + done.
      + unfold skipsMeshId. by rewrite Hisa.
      + by apply Hid.
    - rewrite (Hget k Hskip). cbn [SerializedInstance.Properties node].
      destruct (getProperty instance k) as [v|e] eqn:Hv.
      + destruct (Hattrs k Hlisted v Hv) as (Hkind & Hhost & Hwrite).
        rewrite (discover_listed h classes instance k v Hlisted Hv Hkind).
        unfold settled. rewrite (decode_encode_serializable h v Hkind Hhost).
        rewrite setProperty_plain; [done| |done].
        rewrite Hfc. apply Hwrite. rewrite <- Hskip.
        by apply skipsMeshId_ext.
      + rewrite (discover_unreadable h classes instance k e Hv).
        rewrite (getProperty_plain instance k H1 H2 H3) in Hv.
        rewrite (getProperty_plain fresh k H1 H2 H3).
        destruct (Instance.attrs fresh !! k) as [v0|] eqn:Hk0.
        * specialize (Hreads k fresh0 Hlisted Hfresh0).
          rewrite (getProperty_plain fresh0 k H1 H2 H3) in Hreads.
          rewrite (getProperty_plain instance k H1 H2 H3) in Hreads.
          rewrite Hfresh in Hk0. cbn in Hk0. rewrite Hk0 in Hreads.
          specialize (Hreads eq_refl).
          by destruct (Instance.attrs instance !! k).
        * by destruct (Instance.attrs instance !! k). }
  constructor.
  - by rewrite Hcls.
  - assert (getProperty instance' "Name" = getProperty fresh "Name") as Hn.
    { rewrite (Hget "Name" (skipsMeshId_other h fresh "Name" ltac:(done))).
      cbn [SerializedInstance.Properties node].
      destruct (discover h classes instance !! "Name") as [pv|] eqn:Hk; [|done].
      apply discover_Some in Hk as (_ & _ & _ & _ & _ & Hl).
      apply listed_not_ignored in Hl. by vm_compute in Hl. }
    unfold getProperty in Hn. cbn in Hn. injection Hn as ->. exact Hname.
  - exact Hrestored.
  - apply map_eq. intros k. rewrite !lookup_discover.
    rewrite (listed_ext h classes instance' instance k Hcls).
    destruct (listed h classes instance k) eqn:Hl; [|done].
    unfold retainedValue. by rewrite (Hrestored k Hl).
  - rewrite Hch. cbn [SerializedInstance.Children node] in Hm.
    by rewrite <- (rebuilt_deterministic h nodes insts children Hre Hm).
Qed.

Lemma listed_names h classes instance k :
  listed h classes instance k = true →
  k ∈ flat_map (λ classData, map APIMember.Name (APIClass.Members classData)) classes.
Proof.
  intros Hl.
  destruct (listed_elim h classes instance k Hl) as (cd & m & Hcd & _ & Hm & <- & _).
  apply list_elem_of_In, in_flat_map. exists cd. split; [by apply list_elem_of_In|].
  apply in_map. by apply list_elem_of_In.
Qed.

(** The hypotheses of the round trip on a concrete object: the listed
    names are among the names of the catalog, and each is examined. *)
Ltac each_listed Hl :=
  let Hin := fresh "Hin" in
  pose proof (listed_names _ _ _ _ Hl) as Hin; vm_compute in Hin;
  repeat (apply elem_of_cons in Hin as [->|Hin]);
  try (by apply elem_of_nil in Hin);
  vm_compute in Hl; try discriminate Hl; clear Hl.

Ltac restorable_attributes :=
  let k := fresh "k" in let Hl := fresh "Hl" in
  let v := fresh "v" in let Hv := fresh "Hv" in
  intros k Hl; each_listed Hl;
  intros v Hv; vm_compute in Hv; try discriminate Hv; injection Hv as <-;
  (split;
     [reflexivity
     |split;
        [intros _; first [reflexivity | split; [reflexivity|repeat constructor]]
        |let Hs := fresh "Hs" in intros Hs; first [reflexivity | discriminate Hs]]]).

Ltac reads_what_a_new_object_reads :=
  let k := fresh "k" in let fresh0 := fresh "fresh" in
  let Hl := fresh "Hl" in let Hf := fresh "Hf" in let Hr := fresh "Hr" in
  intros k fresh0 Hl Hf Hr; vm_compute in Hf; injection Hf as <-;
  each_listed Hl; vm_compute in Hr |- *; first [reflexivity | discriminate Hr].

Ltac mesh_backed :=
  intros Hisa;
  first [ discriminate Hisa
        | split; [reflexivity|];
          eexists; split; [reflexivity|]; intros Hnil; discriminate Hnil ].

Lemma faithful_button :
  faithful DemoLossy.host DemoLossy.catalog DemoLossy.button.
Proof.
  constructor; [restorable_attributes|reads_what_a_new_object_reads|reflexivity
               |mesh_backed|constructor|constructor].
Qed.

(** C2, as stated, fails.  The frame below meets the hypotheses of the
    claim: its one retained attribute is a boolean, it has no child, the
    host constructs a Frame and accepts every write.  Yet the copy is not
    active while the original is: [Active] is a name of
    [IGNORED_PROPERTIES], it is not serialized, and the copy keeps the
    value the host gives a new Frame. *)
Lemma ignored_attributes_are_not_restored :
  catalogOf DemoLossy.host Demo.world = Ok DemoLossy.catalog ∧
  faithful DemoLossy.host DemoLossy.catalog DemoLossy.button ∧
  (∀ k pv v, discover DemoLossy.host DemoLossy.catalog DemoLossy.button !! k = Some pv →
             getProperty DemoLossy.button k = Ok v → serializableKind v = true) ∧
  ∃ node w1 copy w2,
    serializeInstance DemoLossy.host DemoLossy.button Demo.world = (Ok node, w1) ∧
    deserializeInstance DemoLossy.host node w1 = (Ok copy, w2) ∧
    warnings w2 = [] ∧
    getProperty DemoLossy.button "Visible" = Ok (VBoolean false) ∧
    getProperty copy "Visible" = Ok (VBoolean false) ∧
    getProperty DemoLossy.button "Active" = Ok (VBoolean true) ∧
    getProperty copy "Active" = Ok (VBoolean false).
Proof.
  split; [reflexivity|]. split; [exact faithful_button|]. split.
  { intros k pv v Hk Hv. apply discover_Some in Hk as (v' & Hv' & _ & _ & _ & Hl).
    rewrite Hv in Hv'. injection Hv' as <-.
    apply listed_names in Hl. vm_compute in Hl.
    repeat (apply elem_of_cons in Hl as [->|Hl]); [| |by apply elem_of_nil in Hl];
      vm_compute in Hv; by injection Hv as <-. }
  eexists _, _, _, _. split; [vm_compute; reflexivity|].
  split; [vm_compute; reflexivity|]. by repeat split.
Qed.

(** C2, amended.  Tree round trip: for a live tree in which the catalog
    fetch succeeds and, at every object, every attribute that discovery
    can retain and the object reads is of a serializable kind and a value
    of the host, every write that is made is accepted, the object reads
    what a new object of its kind reads, the construction succeeds and
    every child is archivable, [deserializeInstance] applied to the result
    of [serializeInstance] returns a tree with the same class and name,
    for every attribute that discovery can retain the same value or the
    same failure to read, and the same children in the same order, at
    every level.  Nothing is said of the attributes that discovery
    excludes. *)
Theorem deserialize_serialize_round_trip (h : Host) (instance : Instance.t)
    (w : World) (classes : list APIClass.t) :
  catalogOf h w = Ok classes →
  faithful h classes instance →
  ∃ node w1 instance' w2,
    serializeInstance h instance w = (Ok node, w1) ∧
    deserializeInstance h node w1 = (Ok instance', w2) ∧
    sameTree h classes instance instance'.
Proof.
  intros Hw Hf.
  destruct (round_trip_pure h classes instance Hf) as (node & instance' & Hs & Hr & Hsame).
  destruct (serializeInstance_pure h classes instance w Hw) as (w1 & Hrun1 & _).
  destruct (deserializeInstance_pure h node w1) as (w2 & Hrun2 & _).
  exists node, w1, instance', w2. by rewrite Hrun1, Hs, Hrun2, Hr.
Qed.

Lemma faithful_a1 : faithful Demo.host Demo.catalog DemoNodes.a1.
Proof.
  constructor; [restorable_attributes|reads_what_a_new_object_reads|reflexivity
               |mesh_backed|constructor|constructor].
Qed.

Lemma faithful_block : faithful Demo.host Demo.catalog DemoNodes.block.
Proof.
  constructor; [restorable_attributes|reads_what_a_new_object_reads|reflexivity
               |mesh_backed| |].
  - repeat constructor.
  - apply Forall_cons_2; [apply faithful_a1|apply Forall_nil_2].
Qed.

Lemma faithful_rock : faithful Demo.host Demo.catalog DemoNodes.rock.
Proof.
  constructor; [restorable_attributes|reads_what_a_new_object_reads|reflexivity
               |mesh_backed|constructor|constructor].
Qed.

Lemma faithful_model : faithful Demo.host Demo.catalog DemoNodes.model.
Proof.
  constructor; [restorable_attributes|reads_what_a_new_object_reads|reflexivity
               |mesh_backed| |].
  - repeat constructor.
  - apply Forall_cons_2; [apply faithful_block|].
    apply Forall_cons_2; [apply faithful_rock|apply Forall_nil_2].
Qed.

Lemma deserialize_serialize_round_trip_witness :
  catalogOf Demo.host Demo.world = Ok Demo.catalog ∧
  faithful Demo.host Demo.catalog DemoNodes.model ∧
  ∃ node w1 instance' w2,
    serializeInstance Demo.host DemoNodes.model Demo.world = (Ok node, w1) ∧
    deserializeInstance Demo.host node w1 = (Ok instance', w2) ∧
    sameTree Demo.host Demo.catalog DemoNodes.model instance' ∧
    instance' = DemoNodes.model.
Proof.
  split; [reflexivity|]. split; [exact faithful_model|].
  destruct (deserialize_serialize_round_trip Demo.host DemoNodes.model Demo.world
              Demo.catalog eq_refl faithful_model)
    as (node & w1 & instance' & w2 & Hrun1 & Hrun2 & Hsame).
  exists node, w1, instance', w2. split; [exact Hrun1|]. split; [exact Hrun2|].
  split; [exact Hsame|].
  vm_compute in Hrun1. injection Hrun1 as <- <-.
  vm_compute in Hrun2. injection Hrun2 as <- _. reflexivity.
Defined.

(** * Further properties *)

(** ** The catalog cache *)

Lemma serializeChildren_cached h classes children :
  Forall (λ child, ∀ w, properties w = Some classes →
            serializeInstance h child w = (snapshot h classes child, w)) children →
  ∀ acc w, properties w = Some classes →
    forEach (serializeChild (serializeInstance h)) acc children w
    = (kept ← keepArchivable (snapshot h classes) children;
       Ok (acc ++ kept)%list, w).
Proof.
  induction 1 as [|child children Hchild _ IH]; intros acc w Hw.
  - cbn. by rewrite app_nil_r.
  - cbn [forEach keepArchivable]. unfold mbind at 1, M_bind at 1.
    unfold serializeChild at 1. destruct (Instance.Archivable child).
    + unfold mbind at 1, M_bind at 1. rewrite (Hchild w Hw).
      destruct (snapshot h classes child) as [c|e]; cbn; [|done].
      rewrite (IH (acc ++ [c])%list w Hw).
      destruct (keepArchivable _ children); cbn; [|done].
      by rewrite <- app_assoc.
    + unfold mret at 1, M_ret at 1. apply IH, Hw.
Qed.

(** With the catalog in the cache a call leaves the world as it is. *)
Lemma serializeInstance_cached h classes instance :
  ∀ w, properties w = Some classes →
    serializeInstance h instance w = (snapshot h classes instance, w).
Proof.
  induction instance as [c n a b ch IH] using Instance_tree_ind. intros w Hw.
  rewrite serializeInstance_unfold, snapshot_unfold.
  set (instance := Instance.mk c n a b ch).
  assert (catalogOf h w = Ok classes) as Hcat by (unfold catalogOf; by rewrite Hw).
  assert (mkWorld (Some classes) (warnings w) = w) as Hsame.
  { destruct w as [p l]. simpl in *. by subst. }
  unfold mbind at 1, M_bind at 1.
  assert (∃ r, (if IsA h instance "MeshPart"
                then id ← lift (readMeshId instance); mret (Some id)
                else mret None) w = (r, w) ∧
               (if IsA h instance "MeshPart"
                then id ← readMeshId instance; Ok (Some id)
                else Ok None) = r) as (r & -> & <-).
  { destruct (IsA h instance "MeshPart"); [|by eexists].
    unfold lift, mbind, M_bind, mret, M_ret. destruct (readMeshId instance); by eexists. }
  destruct (if IsA h instance "MeshPart" then _ else _) as [MeshId|e]; cbn; [|done].
  assert ((if IsA h instance "Attachment"
           then properties ← getInstanceProperties h instance;
                mret (assignAll properties ∅)
           else mret ∅) w
          = (Ok (if IsA h instance "Attachment"
                 then assignAll (discover h classes instance) ∅ else ∅), w)) as Hfirst.
  { destruct (IsA h instance "Attachment"); [|done].
    unfold mbind, M_bind, mret, M_ret. by rewrite getInstanceProperties_run, Hcat, Hsame. }
  unfold mbind at 1, M_bind at 1. rewrite Hfirst.
  unfold mbind at 1, M_bind at 1. rewrite getInstanceProperties_run, Hcat, Hsame.
  cbn zeta. unfold mbind at 1, M_bind at 1.
  cbn [Instance.GetChildren instance].
  rewrite (serializeChildren_cached h classes ch IH [] w Hw).
  by destruct (keepArchivable (snapshot h classes) ch).
Qed.

Lemma snapshot_withApiDump h dump classes instance :
  snapshot (withApiDump h dump) classes instance = snapshot h classes instance.
Proof.
  induction instance as [c n a b ch IH] using Instance_tree_ind.
  rewrite !snapshot_unfold. cbn [Instance.GetChildren].
  assert (keepArchivable (snapshot (withApiDump h dump) classes) ch
          = keepArchivable (snapshot h classes) ch) as ->; [|done].
  induction IH as [|child ch Hchild _ IHch]; [done|].
  cbn [keepArchivable]. by rewrite Hchild, IHch.
Qed.

(** X1. A serialization that succeeds leaves the catalog it used in the
    cache and writes nothing else: the world afterwards is the world before
    with the cache filled, and no warning is added. *)
Theorem serializeInstance_fills_cache (h : Host) (instance : Instance.t)
    (w w' : World) (node : SerializedInstance.t) :
  serializeInstance h instance w = (Ok node, w') →
  ∃ classes, catalogOf h w = Ok classes ∧ w' = mkWorld (Some classes) (warnings w).
Proof.
  intros Hrun.
  destruct (serializeInstance_Ok h instance w node w' Hrun) as (classes & Hcat & _).
  exists classes. split; [done|].
  rewrite serializeInstance_unfold in Hrun. unfold mbind at 1, M_bind at 1 in Hrun.
  assert (∃ r, (if IsA h instance "MeshPart"
                then id ← lift (readMeshId instance); mret (Some id)
                else mret None) w = (r, w)) as [r Hr].
  { destruct (IsA h instance "MeshPart"); [|by eexists].
    unfold lift, mbind, M_bind, mret, M_ret. destruct (readMeshId instance); by eexists. }
  rewrite Hr in Hrun. destruct r as [MeshId|]; [|done].
  unfold mbind at 1, M_bind at 1 in Hrun.
  set (w1 := mkWorld (Some classes) (warnings w)).
  assert (∃ P w0, (if IsA h instance "Attachment"
                   then properties ← getInstanceProperties h instance;
                        mret (assignAll properties ∅)
                   else mret ∅) w = (Ok P, w0) ∧ (w0 = w ∨ w0 = w1))
    as (P & w0 & Hfirst & Hw0).
  { destruct (IsA h instance "Attachment"); [|by eexists _, w; split; [|left]].
    unfold mbind, M_bind, mret, M_ret. rewrite getInstanceProperties_run, Hcat.
    eexists _, w1. by split; [|right]. }
  rewrite Hfirst in Hrun. unfold mbind at 1, M_bind at 1 in Hrun.
  rewrite getInstanceProperties_run in Hrun.
  assert (catalogOf h w0 = Ok classes ∧ warnings w0 = warnings w) as [Hcat0 Hlog0].
  { by destruct Hw0 as [->| ->]. }
  rewrite Hcat0, Hlog0 in Hrun. fold w1 in Hrun. cbn zeta in Hrun.
  unfold mbind at 1, M_bind at 1 in Hrun.
  assert (Forall (λ child, ∀ w, properties w = Some classes →
            serializeInstance h child w = (snapshot h classes child, w))
            (Instance.GetChildren instance)) as Hkids.
  { apply Forall_forall. intros child _ w2 Hw2. by apply serializeInstance_cached. }
  rewrite (serializeChildren_cached h classes _ Hkids [] w1 eq_refl) in Hrun.
  destruct (keepArchivable (snapshot h classes) (Instance.GetChildren instance));
    cbn in Hrun; [|done].
  by injection Hrun as _ <-.
Qed.

Lemma serializeInstance_fills_cache_witness :
  ∃ node,
    serializeInstance Demo.host DemoNodes.car Demo.world
    = (Ok node, mkWorld (Some Demo.catalog) []).
Proof.
  destruct (serializeInstance Demo.host DemoNodes.car Demo.world) as [r w'] eqn:Hrun.
  assert (∃ node, r = Ok node) as [node ->].
  { vm_compute in Hrun. injection Hrun as <- _. by eexists. }
  destruct (serializeInstance_fills_cache Demo.host DemoNodes.car Demo.world w' node Hrun)
    as (classes & Hcat & ->).
  exists node. vm_compute in Hcat. by injection Hcat as <-.
Defined.

(** X2. Once the catalog is cached it is never fetched again: the call
    returns the same result whatever the fetch would now answer, a
    failure included, and it leaves the world untouched. *)
Theorem serializeInstance_uses_cache (h : Host) (dump : result (list APIClass.t))
    (instance : Instance.t) (w : World) (classes : list APIClass.t) :
  properties w = Some classes →
  serializeInstance (withApiDump h dump) instance w = serializeInstance h instance w ∧
  (serializeInstance h instance w).2 = w.
Proof.
  intros Hw.
  rewrite (serializeInstance_cached (withApiDump h dump) classes instance w Hw).
  rewrite (serializeInstance_cached h classes instance w Hw).
  by rewrite snapshot_withApiDump.
Qed.

Lemma serializeInstance_uses_cache_witness :
  serializeInstance (withApiDump Demo.host (Err "HTTP 503")) DemoNodes.car
    (mkWorld (Some Demo.catalog) [])
  = serializeInstance Demo.host DemoNodes.car (mkWorld (Some Demo.catalog) []) ∧
  is_Ok (serializeInstance (withApiDump Demo.host (Err "HTTP 503")) DemoNodes.car
           (mkWorld (Some Demo.catalog) [])).1 = true ∧
  is_Ok (serializeInstance (withApiDump Demo.host (Err "HTTP 503")) DemoNodes.car
           Demo.world).1 = false.
Proof.
  split; [|split; reflexivity].
  apply (serializeInstance_uses_cache Demo.host (Err "HTTP 503") DemoNodes.car
           (mkWorld (Some Demo.catalog) []) Demo.catalog eq_refl).
Defined.

(** ** When serialization fails *)

Lemma meshReadable_unfold h instance :
  meshReadable h instance =
  (if IsA h instance "MeshPart" then is_Ok (readMeshId instance) else true) &&
  forallb (λ child, if Instance.Archivable child then meshReadable h child else true)
    (Instance.GetChildren instance).
Proof. by destruct instance. Qed.

Lemma snapshot_is_Ok h classes instance :
  is_Ok (snapshot h classes instance) = meshReadable h instance.
Proof.
  induction instance as [c n a b ch IH] using Instance_tree_ind.
  rewrite snapshot_unfold, meshReadable_unfold.
  set (instance := Instance.mk c n a b ch). cbn [Instance.GetChildren instance].
  assert (is_Ok (keepArchivable (snapshot h classes) ch)
          = forallb (λ child, if Instance.Archivable child
                              then meshReadable h child else true) ch) as Hk.
  { induction IH as [|child ch Hchild _ IHch]; [done|].
    cbn [keepArchivable forallb]. rewrite <- IHch.
    destruct (Instance.Archivable child); [|done]. rewrite <- Hchild.
    destruct (snapshot h classes child); [|done]. cbn.
    by destruct (keepArchivable _ ch). }
  rewrite <- Hk. destruct (IsA h instance "MeshPart").
  - destruct (readMeshId instance); [|done]. cbn.
    by destruct (keepArchivable _ ch).
  - cbn. by destruct (keepArchivable _ ch).
Qed.

Lemma meshReadable_typed h instance :
  meshIdsTyped h instance = true → meshReadable h instance = meshIdsRead h instance.
Proof.
  induction instance as [c n a b ch IH] using Instance_tree_ind.
  set (instance := Instance.mk c n a b ch).
  rewrite meshReadable_unfold.
  change (meshIdsTyped h instance) with
    ((if IsA h instance "MeshPart"
      then match getProperty instance "MeshId" with
           | Ok (VString _) | Err _ => true
           | Ok _ => false
           end
      else true) &&
     forallb (λ child, if Instance.Archivable child then meshIdsTyped h child else true)
       ch).
  change (meshIdsRead h instance) with
    ((if IsA h instance "MeshPart" then is_Ok (getProperty instance "MeshId") else true)
     && forallb (λ child, if Instance.Archivable child then meshIdsRead h child else true)
          ch).
  cbn [Instance.GetChildren instance].
  intros [Hroot Hkids]%andb_true_iff. f_equal.
  - destruct (IsA h instance "MeshPart"); [|done]. unfold readMeshId.
    destruct (getProperty instance "MeshId") as [v|e]; [|done]. by destruct v.
  - clear Hroot. induction IH as [|child rest Hchild _ IHrest]; [done|].
    cbn [forallb] in Hkids |- *. apply andb_true_iff in Hkids as [Hc Hrest].
    rewrite (IHrest Hrest). f_equal.
    destruct (Instance.Archivable child); [|done]. by apply Hchild.
Qed.

(** X3. Given a catalog whose entries have the declared shape and
    MeshParts whose MeshId reads as a string whenever it reads,
    serialization fails in exactly two cases: the catalog is neither
    cached nor fetched, or the read of the MeshId of a MeshPart that is
    kept throws.  No other attribute, readable or not, and no value of an
    attribute can make it fail. *)
Theorem serializeInstance_succeeds_iff (h : Host) (instance : Instance.t) (w : World) :
  meshIdsTyped h instance = true →
  is_Ok (serializeInstance h instance w).1
  = is_Ok (catalogOf h w) && meshIdsRead h instance.
Proof.
  intros Htyped. rewrite <- (meshReadable_typed h instance Htyped).
  destruct (catalogOf h w) as [classes|e] eqn:Hw.
  - destruct (serializeInstance_pure h classes instance w Hw) as (w' & -> & _).
    apply snapshot_is_Ok.
  - by apply (serializeInstance_needs_catalog h instance) in Hw.
Qed.

Lemma serializeInstance_succeeds_iff_witness :
  meshIdsTyped Demo.host DemoNodes.model = true ∧
  is_Ok (serializeInstance Demo.host DemoNodes.model Demo.world).1 = true ∧
  is_Ok (serializeInstance Demo.host
           (Instance.mk "Folder" "Model" true ∅
              [Instance.mk "MeshPart" "Rock" true ∅ []]) Demo.world).1 = false.
Proof.
  split; [reflexivity|]. split.
  - by rewrite (serializeInstance_succeeds_iff Demo.host DemoNodes.model Demo.world).
  - by rewrite (serializeInstance_succeeds_iff Demo.host _ Demo.world).
Defined.

(** ** Which attributes are serialized *)

Lemma ignored_not_serialized h instance w w' node n k :
  serializeInstance h instance w = (Ok node, w') →
  n ∈ nodesOf node →
  k ∈ IGNORED_PROPERTIES →
  SerializedInstance.Properties n !! k = None.
Proof.
  intros Hrun Hn Hk.
  destruct (serializeInstance_Ok h instance w node w' Hrun) as (classes & _ & Hs).
  destruct (snapshot_nodes h classes instance node n Hs Hn) as (d & _ & Hdn).
  destruct (snapshot_node h classes d n Hdn) as (_ & _ & -> & _).
  destruct (discover h classes d !! k) as [pv|] eqn:Hpv; [|done].
  apply discover_Some in Hpv as (_ & _ & _ & _ & _ & Hl).
  apply listed_not_ignored in Hl. unfold has in Hl.
  by apply bool_decide_eq_false in Hl.
Qed.

(** X4. Exclusion policy: no name of [IGNORED_PROPERTIES] is ever a key of
    the [Properties] of a node of the output, whatever the catalog says
    about it and whether or not it can be read. *)
Theorem ignored_properties_are_never_serialized (h : Host) (instance : Instance.t)
    (w w' : World) (node n : SerializedInstance.t) (k : string) :
  serializeInstance h instance w = (Ok node, w') →
  n ∈ nodesOf node →
  k ∈ IGNORED_PROPERTIES →
  SerializedInstance.Properties n !! k = None.
Proof. apply ignored_not_serialized. Qed.

Lemma ignored_properties_are_never_serialized_witness :
  getProperty DemoNodes.turned "Name" = Ok (VString "Block") ∧
  APIMember.mk "Name" "Property" None ∈ flat_map APIClass.Members Demo.catalog ∧
  ∃ node w',
    serializeInstance Demo.host DemoNodes.turned Demo.world = (Ok node, w') ∧
    SerializedInstance.Properties node !! "Name" = None.
Proof.
  split; [reflexivity|]. split; [vm_compute; apply list_elem_of_here|].
  destruct (serializeInstance Demo.host DemoNodes.turned Demo.world) as [r w'] eqn:Hrun.
  assert (∃ node, r = Ok node) as [node ->].
  { vm_compute in Hrun. injection Hrun as <- _. by eexists. }
  exists node, w'. split; [reflexivity|].
  apply (ignored_properties_are_never_serialized Demo.host DemoNodes.turned Demo.world
           w' node node "Name" Hrun).
  - destruct node. apply list_elem_of_here.
  - by vm_compute.
Defined.

(** X5. What discovery retains, exactly.  [k] is a key of the [Properties]
    of the node of an object, with value [pv], if and only if some
    descriptor of a class of the object has a member named [k] of kind
    Property that is not ignored and carries none of the four excluding
    tags, the attribute reads as a defined value that passes
    [shouldSerializeProperty], and [pv] is the encoding of that value.  An
    attribute that cannot be read is left out. *)
Theorem serialized_properties_characterised (h : Host) (instance : Instance.t)
    (w w' : World) (node : SerializedInstance.t) (classes : list APIClass.t)
    (k : string) (pv : unknown) :
  catalogOf h w = Ok classes →
  serializeInstance h instance w = (Ok node, w') →
  SerializedInstance.Properties node !! k = Some pv ↔
  ∃ classData member v,
    classData ∈ classes ∧ IsA h instance (APIClass.Name classData) = true ∧
    member ∈ APIClass.Members classData ∧ APIMember.Name member = k ∧
    APIMember.MemberType member = "Property" ∧ (k ∉ IGNORED_PROPERTIES) ∧
    taggedOut member = false ∧
    getProperty instance k = Ok v ∧ shouldSerializeProperty k v = true ∧
    v ≠ VUndefined ∧ pv = serializeProperty v.
Proof.
  intros Hw Hrun.
  destruct (serializeInstance_Ok h instance w node w' Hrun) as (classes' & Hw' & Hs).
  rewrite Hw in Hw'. injection Hw' as <-.
  destruct (snapshot_node h classes instance node Hs) as (_ & _ & -> & _).
  split.
  - intros Hk.
    destruct (discover_Some h classes instance k pv Hk)
      as (v & Hv & Hshould & Hdef & -> & Hl).
    destruct (listed_elim h classes instance k Hl)
      as (classData & member & Hc & Hisa & Hm & Hname & Hp & Ht).
    exists classData, member, v. repeat (split; [done|]).
    split; [|done].
    apply listed_not_ignored in Hl. unfold has in Hl.
    by apply bool_decide_eq_false in Hl.
  - intros (classData & member & v & Hc & Hisa & Hm & <- & Hp & Hig & Ht
            & Hv & Hshould & Hdef & ->).
    rewrite lookup_discover.
    rewrite (listed_intro h classes instance classData member Hc Hisa Hm).
    + unfold retainedValue. rewrite Hv, Hshould, stored_serializeProperty.
      by destruct v.
    + unfold eligible, has. rewrite Hp, Ht, bool_decide_eq_false_2 by done.
      reflexivity.
Qed.

Lemma serialized_properties_characterised_witness :
  catalogOf Demo.host Demo.world = Ok Demo.catalog ∧
  ∃ node w',
    serializeInstance Demo.host DemoNodes.turned Demo.world = (Ok node, w') ∧
    SerializedInstance.Properties node !! "Color" = Some (serializeProperty Demo.red).
Proof.
  split; [reflexivity|].
  destruct (serializeInstance Demo.host DemoNodes.turned Demo.world) as [r w'] eqn:Hrun.
  assert (∃ node, r = Ok node) as [node ->].
  { vm_compute in Hrun. injection Hrun as <- _. by eexists. }
  exists node, w'. split; [reflexivity|].
  apply (serialized_properties_characterised Demo.host DemoNodes.turned Demo.world w'
           node Demo.catalog "Color" (serializeProperty Demo.red) eq_refl Hrun).
  exists (APIClass.mk "BasePart"
            [APIMember.mk "Color" "Property" None;
             APIMember.mk "Size" "Property" None;
             APIMember.mk "Material" "Property" None;
             APIMember.mk "Rotation" "Property" (Some ["Deprecated"]);
             APIMember.mk "Mass" "Property" (Some ["ReadOnly"])]),
         (APIMember.mk "Color" "Property" None), Demo.red.
  split; [apply list_elem_of_further, list_elem_of_here|].
  split; [reflexivity|]. split; [apply list_elem_of_here|].
  split; [reflexivity|]. split; [reflexivity|].
  split; [by vm_compute|]. split; [reflexivity|].
  split; [reflexivity|]. split; [reflexivity|]. split; [discriminate|reflexivity].
Defined.

(** ** The catalog as a set of descriptors *)

Lemma existsb_same_elements {A} (f : A → bool) (l l' : list A) :
  (∀ x, x ∈ l ↔ x ∈ l') → existsb f l = existsb f l'.
Proof.
  intros Hll'. apply eq_true_iff_eq. rewrite !existsb_exists.
  split; intros (x & Hx & Hf); exists x; (split; [|done]);
    apply list_elem_of_In, Hll', list_elem_of_In, Hx.
Qed.

Lemma discover_same_elements (h : Host) (classes classes' : list APIClass.t)
    (instance : Instance.t) :
  (∀ c, c ∈ classes ↔ c ∈ classes') →
  discover h classes instance = discover h classes' instance.
Proof.
  intros Hcs. apply map_eq. intros k. rewrite !lookup_discover.
  unfold listed. by rewrite (existsb_same_elements _ classes classes' Hcs).
Qed.

Lemma snapshot_same_elements (h : Host) (classes classes' : list APIClass.t) :
  (∀ c, c ∈ classes ↔ c ∈ classes') →
  ∀ instance, snapshot h classes instance = snapshot h classes' instance.
Proof.
  intros Hcs. induction instance as [c n a ps children IH] using Instance_tree_ind.
  rewrite !snapshot_unfold.
  rewrite (discover_same_elements h classes classes' _ Hcs).
  cbn [Instance.GetChildren].
  assert (keepArchivable (snapshot h classes) children
          = keepArchivable (snapshot h classes') children) as ->; [|done].
  induction IH as [|child rest Hchild _ IHrest]; [done|].
  cbn [keepArchivable]. by rewrite Hchild, IHrest.
Qed.

(** X6. The output depends on the catalog as a set of class descriptors
    only: two cached catalogs with the same descriptors, in any order and
    with any repetitions, give the same serialized tree. *)
Theorem serializeInstance_catalog_order_irrelevant (h : Host) (instance : Instance.t)
    (w1 w2 : World) (classes1 classes2 : list APIClass.t) :
  properties w1 = Some classes1 →
  properties w2 = Some classes2 →
  (∀ c, c ∈ classes1 ↔ c ∈ classes2) →
  (serializeInstance h instance w1).1 = (serializeInstance h instance w2).1.
Proof.
  intros H1 H2 Hcs.
  rewrite (serializeInstance_cached h classes1 instance w1 H1).
  rewrite (serializeInstance_cached h classes2 instance w2 H2).
  cbn [fst]. by apply snapshot_same_elements.
Qed.

Lemma serializeInstance_catalog_order_irrelevant_witness :
  (serializeInstance Demo.host DemoNodes.car
     (mkWorld (Some Demo.catalog) [])).1
  = (serializeInstance Demo.host DemoNodes.car
       (mkWorld (Some (rev Demo.catalog ++ Demo.catalog)%list) ["earlier"])).1.
Proof.
  apply (serializeInstance_catalog_order_irrelevant Demo.host DemoNodes.car
           (mkWorld (Some Demo.catalog) [])
           (mkWorld (Some (rev Demo.catalog ++ Demo.catalog)%list) ["earlier"])
           Demo.catalog (rev Demo.catalog ++ Demo.catalog)%list eq_refl eq_refl).
  intros c. rewrite elem_of_app. split; [by right|].
  intros [Hc|Hc]; [|done]. by apply list_elem_of_In, in_rev, list_elem_of_In.
Defined.

(** ** The root's own [Archivable] flag *)

Lemma M_bind_cong {A B} (m m' : M A) (f g : A → M B) w :
  m w = m' w → (∀ a w', f a w' = g a w') → (m ≫= f) w = (m' ≫= g) w.
Proof.
  intros Hm H. unfold mbind, M_bind. rewrite Hm. by destruct (m' w) as [[a|e] w'].
Qed.

Lemma discover_setArchivable (h : Host) (classes : list APIClass.t)
    (instance : Instance.t) (b : bool) :
  discover h classes (setArchivable instance b) = discover h classes instance.
Proof.
  apply map_eq. intros k. rewrite !lookup_discover.
  rewrite (listed_ext h classes (setArchivable instance b) instance k eq_refl).
  destruct (listed h classes instance k) eqn:Hl; [|done].
  apply listed_not_ignored in Hl.
  assert (String.eqb k "Archivable" = false) as Hk.
  { destruct (String.eqb k "Archivable") eqn:Hk; [|done].
    apply String.eqb_eq in Hk as ->. by vm_compute in Hl. }
  unfold retainedValue, getProperty. rewrite Hk. reflexivity.
Qed.

Lemma getInstanceProperties_setArchivable (h : Host) (instance : Instance.t)
    (b : bool) (w : World) :
  getInstanceProperties h (setArchivable instance b) w
  = getInstanceProperties h instance w.
Proof.
  rewrite !getInstanceProperties_run.
  destruct (catalogOf h w) as [classes|e]; [|done].
  by rewrite discover_setArchivable.
Qed.

(** X7. [serializeInstance] never consults the [Archivable] flag of the
    object it is called on: the flag prunes children only, so a root that
    is not archivable is serialized like the same root made archivable,
    with the same effect on the cache. *)
Theorem serializeInstance_ignores_root_Archivable (h : Host) (instance : Instance.t)
    (b : bool) (w : World) :
  serializeInstance h (setArchivable instance b) w = serializeInstance h instance w.
Proof.
  rewrite !serializeInstance_unfold. destruct instance as [c n a ps children].
  unfold setArchivable.
  cbn [Instance.ClassName Instance.Name Instance.attrs Instance.GetChildren].
  change (IsA h (Instance.mk c n b ps children)) with (IsA h (Instance.mk c n a ps children)).
  change (readMeshId (Instance.mk c n b ps children))
    with (readMeshId (Instance.mk c n a ps children)).
  apply M_bind_ext. intros MeshId w1.
  apply M_bind_cong.
  - destruct (IsA h (Instance.mk c n a ps children) "Attachment"); [|done].
    apply M_bind_cong; [|done].
    apply (getInstanceProperties_setArchivable h (Instance.mk c n a ps children) b).
  - intros Properties w2. apply M_bind_cong; [|done].
    apply (getInstanceProperties_setArchivable h (Instance.mk c n a ps children) b).
Qed.

(** ** The mesh identity of a node *)



(** ** When deserialization fails *)

Lemma bare_is_Ok (h : Host) (data : SerializedInstance.t) :
  is_Ok (bare h data) = creatable h data.
Proof.
  unfold bare, creatable, CreateMeshPart, newInstance.
  destruct (String.eqb (SerializedInstance.ClassName data) "Attachment") eqn:Ha.
  - apply String.eqb_eq in Ha as ->. cbn.
    by destruct (defaults h "Attachment").
  - destruct (String.eqb (SerializedInstance.ClassName data) "MeshPart"
              && truthy (SerializedInstance.MeshId data)) eqn:Hm; cbn [andb orb].
    + destruct (CreateMeshPartAsync h _); cbn; [done|].
      by destruct (defaults h _).
    + by destruct (defaults h _).
Qed.

Lemma forallb_flat_map {A B} (f : B → bool) (g : A → list B) (l : list A) :
  forallb f (flat_map g l) = forallb (λ x, forallb f (g x)) l.
Proof.
  induction l as [|x l IH]; [done|].
  cbn [flat_map forallb]. by rewrite forallb_app, IH.
Qed.

Lemma constructible_nodes (h : Host) (data : SerializedInstance.t) :
  constructible h data = forallb (creatable h) (nodesOf data).
Proof.
  induction data as [c n ps children m IH] using SerializedInstance_tree_ind.
  cbn [constructible nodesOf forallb SerializedInstance.Children].
  rewrite bare_is_Ok, forallb_flat_map. f_equal.
  induction IH as [|child rest Hchild _ IHrest]; [done|].
  cbn [forallb]. by rewrite Hchild, IHrest.
Qed.

(** X9. Deserialization succeeds exactly when the host can create every
    node of the tree: its class with [new Instance], or, for a MeshPart
    with a non-empty mesh reference, through the importer.  No attribute,
    however malformed or refused, makes it fail; one node that cannot be
    created, at any depth, makes the whole call fail. *)
Theorem deserializeInstance_succeeds_iff (h : Host) (data : SerializedInstance.t)
    (w : World) :
  is_Ok (deserializeInstance h data w).1 = forallb (creatable h) (nodesOf data).
Proof.
  rewrite <- constructible_nodes.
  destruct (deserializeInstance_pure h data w) as (w' & -> & _).
  apply rebuilt_fails_only_on_construction.
Qed.

(** X10. On a text that the decoder rejects, [fromJSON] fails with the
    decoder's error and without any effect.  On a text that decodes to a
    tree of the declared shape (every node with its ClassName, Name,
    Properties and Children) it succeeds exactly when every node of the
    decoded tree can be created.  The cast of line 440 is unchecked: a
    text that decodes to anything else is not covered. *)
Theorem fromJSON_succeeds_iff (h : Host) (json : string) (w : World) :
  match JSONDecode h json with
  | Ok data =>
      is_Ok (fromJSON h json w).1 = forallb (creatable h) (nodesOf data)
  | Err e => fromJSON h json w = (Err e, w)
  end.
Proof.
  unfold fromJSON, mbind, M_bind, lift.
  destruct (JSONDecode h json) as [data|e]; [|done].
  rewrite <- constructible_nodes.
  destruct (deserializeInstance_pure h data w) as (w' & -> & _).
  apply rebuilt_fails_only_on_construction.
Qed.

(** ** What deserialization does to the world *)

(** X11. Deserialization is independent of the serializer's state: it
    neither reads nor writes the cached catalog, its result does not
    depend on the world it starts from, and all it does to the world is
    append warnings, the same ones whatever the log held before. *)
Theorem deserializeInstance_only_appends_warnings (h : Host)
    (data : SerializedInstance.t) :
  ∃ r lines, ∀ w,
    deserializeInstance h data w
    = (r, mkWorld (properties w) (warnings w ++ lines)).
Proof. exact (framed_deserializeInstance h data). Qed.

(** ** The two write passes of an Attachment *)

Lemma setProperty_same h instance k v instance' :
  setProperty h instance k v = Ok instance' →
  getProperty instance k = Ok v →
  instance' = instance.
Proof.
  unfold setProperty, getProperty.
  destruct (refuses h (Instance.ClassName instance) k v); [done|].
  destruct (String.eqb k "ClassName"); [done|].
  destruct (String.eqb k "Name").
  { destruct v; try done. intros [= <-] [= <-]. by destruct instance. }
  destruct (String.eqb k "Archivable").
  { destruct v; try done. intros [= <-] [= <-]. by destruct instance. }
  intros [= <-]. destruct (Instance.attrs instance !! k) as [v'|] eqn:Hk; [|done].
  intros [= ->]. destruct instance as [c n a ps children].
  unfold setAttr. cbn in *. by rewrite insert_id.
Qed.

Lemma stepOne_settled h fresh first k pv :
  Instance.ClassName first = Instance.ClassName fresh →
  getProperty first k = settled h fresh k pv →
  stepOne h first (k, pv) = first.
Proof.
  intros Hc Hk. unfold stepOne, stepAttachment, decodeAndSet. cbn [fst snd].
  destruct (skipsMeshId h first k); [done|].
  unfold settled in Hk.
  destruct (deserializeProperty h pv) as [v|e]; [|done]. cbn.
  destruct (setProperty h first k v) as [instance'|e] eqn:Hset; [|done].
  rewrite <- (setProperty_is_Ok h first fresh k v Hc), Hset in Hk.
  by apply (setProperty_same h first k v).
Qed.

Lemma foldl_fixed {A B} (f : B → A → B) (b : B) (l : list A) :
  Forall (λ x, f b x = b) l → foldl f b l = b.
Proof. induction 1 as [|x l Hx _ IH]; [done|]. cbn. by rewrite Hx. Qed.

(** X12. For an Attachment the general write pass changes nothing: every
    attribute was already written, or already refused, by the Attachment
    pass, so that the object returned is the object as [construct] left
    it, with the children added. *)
Theorem attachment_second_pass_changes_nothing (h : Host)
    (data : SerializedInstance.t) (w w1 w' : World) (first instance : Instance.t) :
  SerializedInstance.ClassName data = "Attachment" →
  construct h data w = (Ok first, w1) →
  deserializeInstance h data w = (Ok instance, w') →
  (∃ w2, forEach (setOneProperty h) first
           (map_to_list (SerializedInstance.Properties data)) w1 = (Ok first, w2)) ∧
  instance = foldl addChild first (Instance.GetChildren instance).
Proof.
  intros Hc Hcons Hrun.
  set (props := map_to_list (SerializedInstance.Properties data)).
  destruct (construct_pure h data w) as (w1' & Hcons' & _).
  rewrite Hcons in Hcons'. injection Hcons' as Hfirst _. symmetry in Hfirst.
  unfold constructed in Hfirst. rewrite Hc in Hfirst. cbn [String.eqb] in Hfirst.
  destruct (bare h data) as [fresh|e] eqn:Hbare; [|done].
  cbn in Hfirst. injection Hfirst as Hfirst. fold props in Hfirst.
  assert (NoDup props.*1) as Hnd by apply NoDup_fst_map_to_list.
  destruct (loop_frame (stepAttachment h) (stepAttachment_frame h) props fresh)
    as [Hclass Hkids].
  rewrite Hfirst in Hclass, Hkids.
  assert (foldl (stepOne h) first props = first) as Hsecond.
  { apply foldl_fixed, Forall_forall. intros [k pv] Hin.
    apply (stepOne_settled h fresh first k pv Hclass).
    rewrite <- Hfirst.
    apply (loop_at h (stepAttachment h) (λ _ _, false)); auto using
      stepAttachment_frame, stepAttachment_other, stepAttachment_at. }
  split.
  - destruct (forEach_pure (setOneProperty h) (stepOne h) props
                (setOneProperty_pure h) first w1) as (w2 & Hloop & _).
    exists w2. by rewrite Hloop, Hsecond.
  - destruct (deserializeInstance_pure h data w) as (w'' & Hpure & _).
    rewrite Hrun in Hpure. injection Hpure as Hr _. symmetry in Hr.
    rewrite rebuilt_unfold in Hr. unfold constructed in Hr.
    rewrite Hc, Hbare in Hr. cbn [String.eqb] in Hr. cbn in Hr.
    fold props in Hr. rewrite Hfirst, Hsecond in Hr.
    destruct (mapM (rebuilt h) (SerializedInstance.Children data)) as [children|e];
      [|done].
    cbn in Hr. injection Hr as <-.
    rewrite addChild_children, Hkids.
    destruct (bare_frame h data fresh Hbare) as [_ ->]. reflexivity.
Qed.

Lemma attachment_second_pass_changes_nothing_witness :
  ∃ first w1 instance w',
    construct Demo.host DemoMore.hinge Demo.world = (Ok first, w1) ∧
    deserializeInstance Demo.host DemoMore.hinge Demo.world = (Ok instance, w') ∧
    instance = foldl addChild first (Instance.GetChildren instance).
Proof.
  destruct (construct Demo.host DemoMore.hinge Demo.world) as [r1 w1] eqn:Hcons.
  destruct (deserializeInstance Demo.host DemoMore.hinge Demo.world)
    as [r w'] eqn:Hrun.
  assert (∃ first, r1 = Ok first) as [first ->].
  { vm_compute in Hcons. injection Hcons as <- _. by eexists. }
  assert (∃ instance, r = Ok instance) as [instance ->].
  { vm_compute in Hrun. injection Hrun as <- _. by eexists. }
  exists first, w1, instance, w'. split; [reflexivity|]. split; [reflexivity|].
  apply (attachment_second_pass_changes_nothing Demo.host DemoMore.hinge
           Demo.world w1 w' first instance eq_refl Hcons Hrun).
Defined.

Lemma decodeAndSet_Err_ext h instance instance' k pv e :
  Instance.ClassName instance = Instance.ClassName instance' →
  decodeAndSet h instance k pv = Err e → decodeAndSet h instance' k pv = Err e.
Proof.
  intros Hc. unfold decodeAndSet. destruct (deserializeProperty h pv) as [v|e']; [|done].
  cbn. unfold setProperty. rewrite <- Hc.
  destruct (refuses h (Instance.ClassName instance) k v); [done|].
  destruct (String.eqb k "ClassName"); [done|].
  destruct (String.eqb k "Name"); [by destruct v|].
  destruct (String.eqb k "Archivable"); [by destruct v|]. done.
Qed.

Lemma setAttachmentProperty_reports_failure h l k pv e : ∀ i w i' w',
  forEach (setAttachmentProperty h) i l w = (Ok i', w') →
  (k, pv) ∈ l → decodeAndSet h i k pv = Err e →
  ∃ name, ("Failed to set Attachment property " ++ k ++ " on " ++ name ++ ": " ++ e)
          ∈ warnings w'.
Proof.
  induction l as [|kv l IH]; intros i w i' w' Hrun Hin He;
    [by apply elem_of_nil in Hin|].
  cbn [forEach] in Hrun. unfold mbind at 1, M_bind at 1 in Hrun.
  destruct (setAttachmentProperty_pure h i kv w) as (w1 & Hstep & Hw1).
  rewrite Hstep in Hrun.
  destruct (forEach_pure (setAttachmentProperty h) (stepAttachment h) l
              (setAttachmentProperty_pure h) (stepAttachment h i kv) w1)
    as (w2 & Hrest & Hw2).
  apply elem_of_cons in Hin as [<-|Hin].
  - exists (Instance.Name i). rewrite Hrest in Hrun. injection Hrun as _ <-.
    apply (logged_elem w1 w2); [done|].
    unfold setAttachmentProperty in Hstep. unfold decodeAndSet in He.
    unfold try, lift, mbind, M_bind, mret, M_ret, warn in Hstep.
    destruct (deserializeProperty h pv) as [v|e0]; cbn in He, Hstep.
    + rewrite He in Hstep. injection Hstep as _ <-. cbn.
      apply elem_of_app. right. by apply list_elem_of_singleton.
    + injection He as ->. injection Hstep as _ <-. cbn.
      apply elem_of_app. right. by apply list_elem_of_singleton.
  - eapply IH; [exact Hrun|done|].
    apply (decodeAndSet_Err_ext h i); [|done].
    symmetry. apply stepAttachment_frame.
Qed.

Lemma setOneProperty_reports_failure h l k pv e : ∀ i w i' w',
  forEach (setOneProperty h) i l w = (Ok i', w') →
  (k, pv) ∈ l → skipsMeshId h i k = false → decodeAndSet h i k pv = Err e →
  ∃ name, ("Failed to set property " ++ k ++ " on " ++ name ++ ": " ++ e)
          ∈ warnings w'.
Proof.
  induction l as [|kv l IH]; intros i w i' w' Hrun Hin Hs He;
    [by apply elem_of_nil in Hin|].
  cbn [forEach] in Hrun. unfold mbind at 1, M_bind at 1 in Hrun.
  destruct (setOneProperty_pure h i kv w) as (w1 & Hstep & Hw1).
  rewrite Hstep in Hrun.
  destruct (forEach_pure (setOneProperty h) (stepOne h) l (setOneProperty_pure h)
              (stepOne h i kv) w1) as (w2 & Hrest & Hw2).
  apply elem_of_cons in Hin as [<-|Hin].
  - exists (Instance.Name i). rewrite Hrest in Hrun. injection Hrun as _ <-.
    apply (logged_elem w1 w2); [done|].
    unfold setOneProperty in Hstep. unfold skipsMeshId in Hs. rewrite Hs in Hstep.
    unfold decodeAndSet in He.
    unfold try, lift, mbind, M_bind, mret, M_ret, warn in Hstep.
    destruct (deserializeProperty h pv) as [v|e0]; cbn in He, Hstep.
    + rewrite He in Hstep. injection Hstep as _ <-. cbn.
      apply elem_of_app. right. by apply list_elem_of_singleton.
    + injection He as ->. injection Hstep as _ <-. cbn.
      apply elem_of_app. right. by apply list_elem_of_singleton.
  - eapply IH; [exact Hrun|done| |].
    + rewrite <- Hs. apply skipsMeshId_ext. apply stepOne_frame.
    + apply (decodeAndSet_Err_ext h i); [|done].
      symmetry. apply stepOne_frame.
Qed.

(** X13. An attribute of an Attachment node that fails to decode, or that
    the object refuses, is reported twice: once by the Attachment pass and
    once more by the general pass, which tries the same write again. *)
Theorem attachment_failure_is_reported_twice (h : Host) (data : SerializedInstance.t)
    (fresh : Instance.t) (k : string) (pv : unknown) (e : string) :
  SerializedInstance.ClassName data = "Attachment" →
  SerializedInstance.Properties data !! k = Some pv →
  bare h data = Ok fresh →
  skipsMeshId h fresh k = false →
  decodeAndSet h fresh k pv = Err e →
  ∃ lines name1 name2,
    (∀ w, (deserializeInstance h data w).2
          = mkWorld (properties w) (warnings w ++ lines)) ∧
    ("Failed to set Attachment property " ++ k ++ " on " ++ name1 ++ ": " ++ e)
      ∈ lines ∧
    ("Failed to set property " ++ k ++ " on " ++ name2 ++ ": " ++ e) ∈ lines.
Proof.
  intros Hc Hk Hbare Hskip He.
  destruct (framed_deserializeInstance h data) as (r & lines & Hrun).
  set (props := map_to_list (SerializedInstance.Properties data)).
  assert ((k, pv) ∈ props) as Hin by by apply elem_of_map_to_list.
  set (w0 := mkWorld None []).
  pose proof (Hrun w0) as H0. rewrite deserializeInstance_unfold in H0.
  unfold mbind at 1, M_bind at 1 in H0.
  assert (construct h data w0 = forEach (setAttachmentProperty h) fresh props w0)
    as Hcons.
  { unfold construct. unfold bare in Hbare. rewrite Hc in Hbare |- *.
    cbn [String.eqb Ascii.eqb Bool.eqb] in Hbare |- *.
    unfold mbind at 1, M_bind at 1, lift.
    destruct (newInstance h "Attachment") as [i|e']; [|done].
    cbn in Hbare. by injection Hbare as <-. }
  destruct (forEach_pure (setAttachmentProperty h) (stepAttachment h) props
              (setAttachmentProperty_pure h) fresh w0) as (w1 & Hloop1 & Hw1).
  rewrite Hcons, Hloop1 in H0.
  set (first := foldl (stepAttachment h) fresh props) in *.
  unfold mbind at 1, M_bind at 1 in H0.
  destruct (forEach_pure (setOneProperty h) (stepOne h) props
              (setOneProperty_pure h) first w1) as (w2 & Hloop2 & Hw2).
  fold props in H0. rewrite Hloop2 in H0.
  assert (Forall (λ data, ∀ w, ∃ w', deserializeInstance h data w = (rebuilt h data, w')
                                      ∧ logged w w') (SerializedInstance.Children data))
    as Hkids by (apply Forall_forall; intros child _; apply deserializeInstance_pure).
  destruct (attachChildren_pure h _ Hkids (foldl (stepOne h) first props) w2)
    as (w3 & Hloop3 & Hw3).
  rewrite Hloop3 in H0. injection H0 as _ Hw3eq.
  destruct (loop_frame (stepAttachment h) (stepAttachment_frame h) props fresh)
    as [Hclass _]. fold first in Hclass.
  destruct (setAttachmentProperty_reports_failure h props k pv e fresh w0 first w1
              Hloop1 Hin He) as (name1 & Hm1).
  destruct (setOneProperty_reports_failure h props k pv e first w1 _ w2 Hloop2 Hin)
    as (name2 & Hm2).
  { rewrite <- Hskip. by apply skipsMeshId_ext. }
  { by apply (decodeAndSet_Err_ext h fresh). }
  exists lines, name1, name2. split; [intros w; by rewrite Hrun|].
  assert (warnings w3 = lines) as <- by by rewrite Hw3eq.
  split.
  - apply (logged_elem w2 w3); [done|]. by apply (logged_elem w1 w2).
  - by apply (logged_elem w2 w3).
Qed.

Lemma attachment_failure_is_reported_twice_witness :
  ∃ lines name1 name2,
    (∀ w, (deserializeInstance Demo.host DemoMore.hinge w).2
          = mkWorld (properties w) (warnings w ++ lines)) ∧
    ("Failed to set Attachment property " ++ "Locked" ++ " on " ++ name1 ++ ": "
       ++ "write access is restricted") ∈ lines ∧
    ("Failed to set property " ++ "Locked" ++ " on " ++ name2 ++ ": "
       ++ "write access is restricted") ∈ lines.
Proof.
  apply (attachment_failure_is_reported_twice Demo.host DemoMore.hinge
           (Instance.mk "Attachment" "Hinge" true ∅ []) "Locked" (VBoolean true)
           "write access is restricted");
    reflexivity.
Defined.

(** ** A deserialization in which nothing fails *)

Lemma decodeAndSet_is_Ok_ext h instance instance' k pv :
  Instance.ClassName instance = Instance.ClassName instance' →
  is_Ok (decodeAndSet h instance k pv) = is_Ok (decodeAndSet h instance' k pv).
Proof.
  intros Hc. unfold decodeAndSet. destruct (deserializeProperty h pv) as [v|e]; [|done].
  cbn. by apply setProperty_is_Ok.
Qed.

Lemma setAttachmentProperty_quiet h instance kv w :
  is_Ok (decodeAndSet h instance kv.1 kv.2) = true →
  setAttachmentProperty h instance kv w = (Ok (stepAttachment h instance kv), w).
Proof.
  destruct kv as [k pv]. cbn [fst snd].
  unfold setAttachmentProperty, stepAttachment, decodeAndSet, try, lift, mbind, M_bind.
  cbn [fst snd].
  destruct (deserializeProperty h pv) as [v|e]; cbn; [|done].
  by destruct (setProperty h instance k v).
Qed.

Lemma setOneProperty_quiet h instance kv w :
  skipsMeshId h instance kv.1 || is_Ok (decodeAndSet h instance kv.1 kv.2) = true →
  setOneProperty h instance kv w = (Ok (stepOne h instance kv), w).
Proof.
  destruct kv as [k pv]. cbn [fst snd].
  unfold setOneProperty, stepOne, skipsMeshId. cbn [fst snd].
  destruct (IsA h instance "MeshPart" && String.eqb k "MeshId"); [done|].
  cbn [orb]. unfold stepAttachment, decodeAndSet, try, lift, mbind, M_bind.
  cbn [fst snd].
  destruct (deserializeProperty h pv) as [v|e]; cbn; [|done].
  by destruct (setProperty h instance k v).
Qed.

Lemma forEach_quiet {A} (body : Instance.t → A → M Instance.t)
    (step : Instance.t → A → Instance.t) (ok : Instance.t → A → bool) l w :
  (∀ i x, ok i x = true → body i x w = (Ok (step i x), w)) →
  (∀ i x, Instance.ClassName (step i x) = Instance.ClassName i) →
  (∀ i i' x, Instance.ClassName i = Instance.ClassName i' → ok i x = ok i' x) →
  ∀ i, Forall (λ x, ok i x = true) l → forEach body i l w = (Ok (foldl step i l), w).
Proof.
  intros Hbody Hstep Hok. induction l as [|x l IH]; intros i Hall; [done|].
  apply Forall_cons in Hall as [Hx Hall]. cbn [forEach foldl].
  unfold mbind at 1, M_bind at 1. rewrite (Hbody i x Hx). apply IH.
  apply (Forall_impl _ _ _ Hall). intros y <-. by apply Hok.
Qed.

Lemma forallb_Forall {A} (f : A → bool) (l : list A) :
  forallb f l = true → Forall (λ x, f x = true) l.
Proof.
  induction l as [|x l IH]; [constructor|]. cbn [forallb].
  intros [Hx Hl]%andb_true_iff. constructor; auto.
Qed.

Lemma construct_quiet h data fresh w :
  bare h data = Ok fresh →
  writesCleanly h data = true →
  construct h data w = (constructed h data, w).
Proof.
  intros Hbare Hclean. unfold writesCleanly in Hclean. rewrite Hbare in Hclean.
  apply andb_true_iff in Hclean as [Himport Hwrites].
  unfold construct, constructed. rewrite Hbare. unfold bare in Hbare.
  destruct (String.eqb (SerializedInstance.ClassName data) "Attachment") eqn:Ha.
  - unfold mbind at 1, M_bind at 1, lift.
    destruct (newInstance h "Attachment") as [i|e]; [|done].
    cbn in Hbare. injection Hbare as Hfresh. rewrite Hfresh.
    cbn [mbind result_bind].
    apply (forEach_quiet (setAttachmentProperty h) (stepAttachment h)
             (λ i kv, is_Ok (decodeAndSet h i kv.1 kv.2))).
    + intros i' kv. apply setAttachmentProperty_quiet.
    + intros i' kv. apply stepAttachment_frame.
    + intros i1 i2 kv. apply decodeAndSet_is_Ok_ext.
    + apply forallb_Forall in Hwrites. apply (Forall_impl _ _ _ Hwrites).
      intros kv. cbn [negb]. by rewrite andb_false_r.
  - cbn [mbind result_bind].
    destruct (String.eqb (SerializedInstance.ClassName data) "MeshPart"
              && truthy (SerializedInstance.MeshId data)).
    + cbn [negb orb] in Himport. unfold try, mbind, M_bind, lift.
      destruct (CreateMeshPart h _) as [i|e]; [|done].
      by injection Hbare as <-.
    + unfold mbind, M_bind, lift.
      destruct (newInstance h _) as [i|e]; [|done].
      cbn in Hbare. by injection Hbare as <-.
Qed.

Lemma deserializeInstance_quiet h data :
  forallb (writesCleanly h) (nodesOf data) = true →
  ∀ w, deserializeInstance h data w = (rebuilt h data, w).
Proof.
  induction data as [c n ps children m IH] using SerializedInstance_tree_ind.
  set (data := SerializedInstance.mk c n ps children m).
  intros Hall w.
  change (nodesOf data) with (data :: flat_map nodesOf children) in Hall.
  cbn [forallb] in Hall. apply andb_true_iff in Hall as [Hclean Hkids].
  rewrite forallb_flat_map in Hkids.
  rewrite deserializeInstance_unfold, rebuilt_unfold.
  destruct (bare h data) as [fresh|e] eqn:Hbare;
    [|by unfold writesCleanly in Hclean; rewrite Hbare in Hclean].
  unfold mbind at 1, M_bind at 1.
  rewrite (construct_quiet h data fresh w Hbare Hclean).
  destruct (constructed h data) as [first|e] eqn:Hfirst; [|done].
  cbn [mbind result_bind].
  assert (Instance.ClassName first = Instance.ClassName fresh) as Hclass.
  { unfold constructed in Hfirst. rewrite Hbare in Hfirst. cbn in Hfirst.
    injection Hfirst as <-. destruct (String.eqb _ "Attachment"); [|done].
    apply loop_frame. apply stepAttachment_frame. }
  unfold mbind at 1, M_bind at 1.
  rewrite (forEach_quiet (setOneProperty h) (stepOne h)
             (λ i kv, skipsMeshId h i kv.1 || is_Ok (decodeAndSet h i kv.1 kv.2))
             (map_to_list (SerializedInstance.Properties data)) w).
  - cbn [SerializedInstance.Properties SerializedInstance.Children data].
    generalize (foldl (stepOne h) first (map_to_list ps)). clear -IH Hkids.
    induction IH as [|child rest Hchild _ IHrest]; intros instance; [done|].
    cbn [forallb] in Hkids. apply andb_true_iff in Hkids as [Hc Hrest].
    cbn [forEach mapM]. unfold mbind at 1, M_bind at 1.
    unfold mbind at 1, M_bind at 1. rewrite (Hchild Hc w).
    destruct (rebuilt h child) as [built|e]; [|done].
    cbn [mret M_ret mbind result_bind]. rewrite (IHrest Hrest).
    by destruct (mapM (rebuilt h) rest).
  - intros i kv. apply setOneProperty_quiet.
  - intros i kv. apply stepOne_frame.
  - intros i1 i2 kv Hc. by rewrite (skipsMeshId_ext h i1 i2),
      (decodeAndSet_is_Ok_ext h i1 i2).
  - unfold writesCleanly in Hclean. rewrite Hbare in Hclean.
    apply andb_true_iff in Hclean as [_ Hwrites].
    apply forallb_Forall in Hwrites. apply (Forall_impl _ _ _ Hwrites).
    intros kv Hkv. rewrite (skipsMeshId_ext h first fresh _ Hclass),
      (decodeAndSet_is_Ok_ext h first fresh _ _ Hclass).
    apply orb_true_iff in Hkv as [Hkv|Hkv]; [|by rewrite Hkv, orb_true_r].
    apply andb_true_iff in Hkv as [-> _]. done.
Qed.

(** X14. When nothing fails the call is silent: if at every node of the
    tree the object is created as the construction rule first tries it and
    every attribute that is written decodes and is accepted, then
    [deserializeInstance] succeeds and leaves the world as it was, without
    a single warning. *)
Theorem deserializeInstance_is_silent_when_nothing_fails (h : Host)
    (data : SerializedInstance.t) (w : World) :
  forallb (writesCleanly h) (nodesOf data) = true →
  ∃ instance, deserializeInstance h data w = (Ok instance, w).
Proof.
  intros Hall. rewrite (deserializeInstance_quiet h data Hall w).
  assert (is_Ok (rebuilt h data) = true) as Hok.
  { rewrite rebuilt_fails_only_on_construction, constructible_nodes.
    apply forallb_forall. intros n Hn.
    apply (proj1 (forallb_forall _ _) Hall) in Hn. unfold writesCleanly in Hn.
    rewrite <- bare_is_Ok. by destruct (bare h n). }
  destruct (rebuilt h data) as [instance|e]; [|done]. by exists instance.
Qed.

Lemma deserializeInstance_is_silent_when_nothing_fails_witness :
  ∃ instance,
    deserializeInstance DemoNodes.importingHost DemoMore.cleanTree
      (mkWorld None ["earlier"])
    = (Ok instance, mkWorld None ["earlier"]).
Proof.
  apply (deserializeInstance_is_silent_when_nothing_fails DemoNodes.importingHost
           DemoMore.cleanTree (mkWorld None ["earlier"])).
  by vm_compute.
Defined.

(** ** The shape of the rebuilt tree *)

Lemma rebuilt_builtShape h data :
  ∀ instance, rebuilt h data = Ok instance → builtShape data instance.
Proof.
  induction data as [c n ps children m IH] using SerializedInstance_tree_ind.
  set (data := SerializedInstance.mk c n ps children m). intros instance Hr.
  destruct (rebuilt_inv h data instance Hr)
    as (fresh & built & Hbare & Hbuilt & Hclass & Hkids & Hread).
  constructor; [done| |].
  - intros Hname. specialize (Hread "Name" (skipsMeshId_other h fresh "Name" ltac:(done))).
    rewrite Hname in Hread. cbn in Hread. injection Hread as ->.
    by apply (bare_name h data).
  - rewrite Hkids. apply mapM_result_Forall2 in Hbuilt.
    cbn [SerializedInstance.Children data] in Hbuilt |- *.
    clear -IH Hbuilt. induction Hbuilt as [|child inst rest insts Hchild _ IHrest];
      [constructor|].
    apply Forall_cons in IH as [Hhead Htail]. constructor; auto.
Qed.

(** X15. The tree that [deserializeInstance] returns has the shape of its
    input: at every depth the object has the class of its node, the name
    of its node unless the node carries a [Name] attribute, and one child
    for each child node, in the same order. *)
Theorem deserializeInstance_keeps_shape (h : Host) (data : SerializedInstance.t)
    (w w' : World) (instance : Instance.t) :
  deserializeInstance h data w = (Ok instance, w') →
  builtShape data instance.
Proof.
  intros Hrun. destruct (deserializeInstance_pure h data w) as (w'' & Hpure & _).
  rewrite Hrun in Hpure. injection Hpure as Hr _.
  by apply (rebuilt_builtShape h data).
Qed.

Lemma deserializeInstance_keeps_shape_witness :
  ∃ instance w',
    deserializeInstance Demo.host DemoMore.hinge Demo.world = (Ok instance, w') ∧
    builtShape DemoMore.hinge instance.
Proof.
  destruct (deserializeInstance Demo.host DemoMore.hinge Demo.world) as [r w'] eqn:Hrun.
  assert (∃ instance, r = Ok instance) as [instance ->].
  { vm_compute in Hrun. injection Hrun as <- _. by eexists. }
  exists instance, w'. split; [reflexivity|].
  apply (deserializeInstance_keeps_shape Demo.host DemoMore.hinge Demo.world w'
           instance Hrun).
Defined.

(** ** The value codec *)

Lemma hostValue_transparentHost (v : unknown) : hostValue transparentHost v.
Proof.
  destruct v; try reflexivity.
  - split; [reflexivity|]. apply Forall_forall. by intros k _.
  - split; [reflexivity|]. apply Forall_forall. by intros k _.
Qed.

(** X16. The encoding loses nothing: two values of the serializable kinds
    (a primitive or one of the twelve datatypes of lines 276-290) that have
    the same encoding are the same value. *)
Theorem serializeProperty_injective (v1 v2 : unknown) :
  serializableKind v1 = true →
  serializableKind v2 = true →
  serializeProperty v1 = serializeProperty v2 →
  v1 = v2.
Proof.
  intros H1 H2 Heq.
  pose proof (decode_encode_serializable transparentHost v1 H1
                (λ _, hostValue_transparentHost v1)) as D1.
  pose proof (decode_encode_serializable transparentHost v2 H2
                (λ _, hostValue_transparentHost v2)) as D2.
  rewrite Heq, D2 in D1. by injection D1.
Qed.

Lemma serializeProperty_injective_witness :
  serializableKind Demo.red = true ∧
  serializeProperty Demo.red
  = object [("_type", VString "Color3");
            ("R", VNumber (num 1)); ("G", VNumber (num 0)); ("B", VNumber (num 0))] ∧
  Demo.red = VColor3 (num 1) (num 0) (num 0).
Proof.
  split; [reflexivity|]. split; [reflexivity|].
  apply (serializeProperty_injective Demo.red (VColor3 (num 1) (num 0) (num 0)));
    reflexivity.
Defined.


(** X17. A record that carries a known tag without its payload fails to
    decode on every host: a CFrame whose [Position] or [Rotation] is
    missing, a NumberSequence or ColorSequence without [Keypoints], an
    EnumItem whose [EnumType] or [Name] is not a string.  The error is
    raised before any constructor of the engine is called. *)
Theorem deserializeProperty_truncated_record_fails (h : Host) (v : unknown) :
  truncated v = true →
  is_Ok (deserializeProperty h v) = false.
Proof.
  destruct v as [| | | | | | | | | | | | | | | | | | | | |hash arr]; try done.
  unfold truncated. rewrite !orb_true_iff, !andb_true_iff, !negb_true_iff.
  unfold deserializeProperty.
  intros [[[Ht Hp]|[[Ht|Ht]%orb_true_iff Hk]]|[Ht He]];
    apply equalsString_true in Ht; rewrite Ht;
    change (typeIs (VString _) Tnil) with false; cbn -[indexable typeIs] in *.
  - destruct (rawget "Position" hash); cbn in Hp |- *; try done;
      destruct (rawget "Rotation" hash); cbn in Hp |- *; done.
  - destruct (rawget "Keypoints" hash); cbn; try done; by vm_compute in Hk.
  - destruct (rawget "Keypoints" hash); cbn; try done; by vm_compute in Hk.
  - destruct (rawget "EnumType" hash); cbn; try done;
      destruct (rawget "Name" hash); cbn; try done; by vm_compute in He.
Qed.

Lemma deserializeProperty_truncated_record_fails_witness :
  is_Ok (deserializeProperty Demo.host (object [("_type", VString "CFrame")])) = false.
Proof.
  apply (deserializeProperty_truncated_record_fails Demo.host). reflexivity.
Defined.

(** ** The read-only names *)

(** X18. [READ_ONLY_PROPERTIES] is never consulted, and yet none of its
    names is ever serialized: each of them is also a name of
    [IGNORED_PROPERTIES]. *)
Theorem read_only_properties_are_never_serialized (h : Host) (instance : Instance.t)
    (w w' : World) (node n : SerializedInstance.t) (k : string) :
  serializeInstance h instance w = (Ok node, w') →
  n ∈ nodesOf node →
  k ∈ READ_ONLY_PROPERTIES →
  k ∈ IGNORED_PROPERTIES ∧ SerializedInstance.Properties n !! k = None.
Proof.
  intros Hrun Hn Hk.
  assert (k ∈ IGNORED_PROPERTIES) as Hig.
  { unfold READ_ONLY_PROPERTIES in Hk. apply elem_of_list_to_set in Hk.
    repeat (apply elem_of_cons in Hk as [->|Hk]; [by vm_compute|]).
    by apply elem_of_nil in Hk. }
  split; [done|]. by apply (ignored_not_serialized h instance w w' node).
Qed.

Lemma read_only_properties_are_never_serialized_witness :
  ∃ node w',
    serializeInstance Demo.host DemoNodes.turned Demo.world = (Ok node, w') ∧
    SerializedInstance.Properties node !! "Mass" = None.
Proof.
  destruct (serializeInstance Demo.host DemoNodes.turned Demo.world) as [r w'] eqn:Hrun.
  assert (∃ node, r = Ok node) as [node ->].
  { vm_compute in Hrun. injection Hrun as <- _. by eexists. }
  exists node, w'. split; [reflexivity|].
  apply (read_only_properties_are_never_serialized Demo.host DemoNodes.turned
           Demo.world w' node node "Mass" Hrun).
  - destruct node. apply list_elem_of_here.
  - by vm_compute.
Defined.
